(** * MENA Financial Distress Analyzer: the risk scoring and attribution engine

    A shallow embedding of the computational core of [streamlit_app.py]:
    the canonical feature tables, [calculate_all_metrics], [make_prediction],
    the category aggregation of [shap_category_chart], the ranking of
    [render_shap_narrative], the template choice of [render_explanation],
    [load_model_resources] and the report record built in [main].

    Python [float] and numpy [float64] values are IEEE 754 binary64 numbers
    and are embedded as Rocq's primitive floats; Python [int] is [Z]; an
    exception is a value of an error monad. *)

From Stdlib Require Import ZArith List String Ascii Bool Lia Floats.
From Stdlib Require Import Permutation Sorted DecimalString.
Import ListNotations.

Set Warnings "-inexact-float,-register-all".

Local Open Scope string_scope.
Local Open Scope list_scope.

(* ================================================================== *)
(** * Binary64 numbers *)
(* ================================================================== *)

Module F64.

Local Open Scope float_scope.

(** [np.isnan] / [pd.isna] on a float: NaN is the only value that is not
    equal to itself. *)
Definition isnan (x : float) : bool := negb (x =? x).

(** [x > y], [x >= y], [x != y] as Python writes them. *)
Definition gtb (x y : float) : bool := y <? x.
Definition geb (x y : float) : bool := y <=? x.
Definition neb (x y : float) : bool := negb (x =? y).

(** A finite value: neither NaN nor an infinity. *)
Definition is_finite (x : float) : bool :=
  match Prim2SF x with
  | S754_zero _ | S754_finite _ _ _ => true
  | S754_infinity _ | S754_nan => false
  end.

(** The binary64 number nearest to an integer (ties to even); an integer
    beyond the range rounds to an infinity. *)
Definition of_Z (z : Z) : float := SF2Prim (binary_normalize prec emax z 0 false).

Definition of_nat (n : nat) : float := of_Z (Z.of_nat n).

(** Left-to-right summation starting from 0. *)
Definition sum (xs : list float) : float := fold_left PrimFloat.add xs 0.

(** NaN, on the specification side. *)
Definition SFisnan (x : spec_float) : bool :=
  match x with S754_nan => true | _ => false end.

(** The outcome "less than or equal" of a comparison. *)
Definition le_cmp (c : option comparison) : Prop := c = Some Lt \/ c = Some Eq.

End F64.

(* ================================================================== *)
(** * Python values and exceptions *)
(* ================================================================== *)

(** The exceptions the modelled code can meet. *)
Inductive exn : Type :=
| TypeError | ZeroDivisionError | OverflowError | IndexError | ValueError
| AttributeError.

(** A computation that returns a value or raises. *)
Inductive py (A : Type) : Type :=
| Ok (a : A)
| Raise (e : exn).
Arguments Ok {A} a.
Arguments Raise {A} e.

Definition bind {A B : Type} (c : py A) (k : A -> py B) : py B :=
  match c with
  | Ok a => k a
  | Raise e => Raise e
  end.

Notation "x <- c ;; k" := (bind c (fun x => k))
  (at level 61, c at next level, right associativity).

(** [try: ... except Exception: return None] *)
Definition except_None {A : Type} (c : py A) : option A :=
  match c with
  | Ok a => Some a
  | Raise _ => None
  end.

(** The values that flow through the metrics: [None], an [int], a [float]
    (numpy's [float64] is a subclass of [float]). *)
Inductive pyval : Type :=
| PNone
| PInt (z : Z)
| PFloat (f : float).

Module Py.

Local Open Scope float_scope.

(** [bool(v)]: [None], [0] and [0.0] (also [-0.0]) are false; NaN is true. *)
Definition truthy (v : pyval) : bool :=
  match v with
  | PNone => false
  | PInt z => negb (z =? 0)%Z
  | PFloat f => negb (f =? 0)
  end.

(** [a or b], with [b] evaluated only when [a] is false. *)
Definition or_else (a : pyval) (b : py pyval) : py pyval :=
  if truthy a then Ok a else b.

(** [isinstance(v, float)] *)
Definition is_float (v : pyval) : bool :=
  match v with PFloat _ => true | _ => false end.

(** Conversion of an [int] to a double: [OverflowError] when it is out of
    range. *)
Definition float_of_int (z : Z) : py float :=
  let f := F64.of_Z z in
  if F64.is_finite f then Ok f else Raise OverflowError.

(** [float(v)] *)
Definition to_float (v : pyval) : py float :=
  match v with
  | PNone => Raise TypeError
  | PInt z => float_of_int z
  | PFloat f => Ok f
  end.

(** [v > 0] *)
Definition gt0 (v : pyval) : py bool :=
  match v with
  | PNone => Raise TypeError
  | PInt z => Ok (0 <? z)%Z
  | PFloat f => Ok (F64.gtb f 0)
  end.

(** [+], [-], [*]: on two ints the result is an int, otherwise both
    operands are converted to double. *)
Definition arith (opz : Z -> Z -> Z) (opf : float -> float -> float)
    (a b : pyval) : py pyval :=
  match a, b with
  | PInt x, PInt y => Ok (PInt (opz x y))
  | PNone, _ | _, PNone => Raise TypeError
  | _, _ =>
      x <- to_float a ;;
      y <- to_float b ;;
      Ok (PFloat (opf x y))
  end.

Definition add := arith Z.add PrimFloat.add.
Definition sub := arith Z.sub PrimFloat.sub.
Definition mul := arith Z.mul PrimFloat.mul.

(** [abs(v)] *)
Definition abs (v : pyval) : py pyval :=
  match v with
  | PNone => Raise TypeError
  | PInt z => Ok (PInt (Z.abs z))
  | PFloat f => Ok (PFloat (PrimFloat.abs f))
  end.

(** [x / y] on two ints: the correctly rounded quotient; [0 / y] keeps the
    sign of the quotient; [OverflowError] when the quotient is out of
    range.  The divisor is not 0 here. *)
Definition int_truediv (x y : Z) : py pyval :=
  match x with
  | Z0 => Ok (PFloat (if (y <? 0)%Z then -0 else 0))
  | _ =>
      let q := SF2Prim (SFdiv prec emax
                          (S754_finite (x <? 0)%Z (Z.to_pos (Z.abs x)) 0)
                          (S754_finite (y <? 0)%Z (Z.to_pos (Z.abs y)) 0)) in
      if F64.is_finite q then Ok (PFloat q) else Raise OverflowError
  end.

(** [a / b] (true division).  Python converts an int operand to double
    ([OverflowError] when out of range) and raises [ZeroDivisionError] when
    the divisor equals 0.  A double converted from an int is 0 exactly when
    the int is 0, so for an int divisor the test is made on the integer. *)
Definition truediv (a b : pyval) : py pyval :=
  match a, b with
  | PNone, _ | _, PNone => Raise TypeError
  | PInt x, PInt y =>
      if (y =? 0)%Z then Raise ZeroDivisionError else int_truediv x y
  | PFloat x, PInt y =>
      if (y =? 0)%Z then Raise ZeroDivisionError
      else (fy <- float_of_int y ;; Ok (PFloat (x / fy)))
  | PInt x, PFloat y =>
      fx <- float_of_int x ;;
      if y =? 0 then Raise ZeroDivisionError else Ok (PFloat (fx / y))
  | PFloat x, PFloat y =>
      if y =? 0 then Raise ZeroDivisionError else Ok (PFloat (x / y))
  end.

(** [np.isnan(v)] on a Python number. *)
Definition isnan (v : pyval) : py bool :=
  match v with
  | PNone => Raise TypeError
  | PInt _ => Ok false
  | PFloat f => Ok (F64.isnan f)
  end.

(** [v == 0] on a number. *)
Definition is_zero (v : pyval) : bool :=
  match v with
  | PNone => false
  | PInt z => (z =? 0)%Z
  | PFloat f => f =? 0
  end.

End Py.

(** A Python [dict] with string keys, in insertion order. *)
Definition dict (V : Type) : Type := list (string * V).

Fixpoint dict_get {V : Type} (d : dict V) (k : string) : option V :=
  match d with
  | [] => None
  | (k', v) :: d' => if String.eqb k' k then Some v else dict_get d' k
  end.

(** [d.get(k, default)] *)
Definition dict_get_default {V : Type} (d : dict V) (k : string) (default : V) : V :=
  match dict_get d k with
  | Some v => v
  | None => default
  end.

(** [d[k] = v]: an existing key keeps its place, a new key goes last. *)
Fixpoint dict_set {V : Type} (d : dict V) (k : string) (v : V) : dict V :=
  match d with
  | [] => [(k, v)]
  | (k', v') :: d' =>
      if String.eqb k' k then (k', v) :: d' else (k', v') :: dict_set d' k v
  end.

(** A dict display [{k1: v1, k2: v2, ...}] evaluated left to right. *)
Definition dict_of {V : Type} (items : list (string * V)) : dict V :=
  fold_left (fun d kv => dict_set d (fst kv) (snd kv)) items [].

Definition keys {V : Type} (d : dict V) : list string := map fst d.
Definition values {V : Type} (d : dict V) : list V := map snd d.

(* ================================================================== *)
(** * Feature tables *)
(* ================================================================== *)

(** [SELECTED_FEATURES]: the canonical feature order. *)
Definition SELECTED_FEATURES : list string :=
  [
   "Market_Cap_USD"; "Low"; "Volume"; "Daily_Return_%"; "Price_Range_%";
   "ROA_%"; "Equity_Ratio"; "Asset_Turnover"; "OCF_to_Debt";
   "Altman_Z_Score"; "Death_Cross"; "True_Range"; "RSI_14"; "US_10Y";
   "Oil_Volatility_20D"; "Oil_Below_60"; "Oil_Below_40"; "Brent_Change_%";
   "VIX_Change_%"; "Very_High_VIX"; "Strong_Dollar"; "SAR_USD"; "KWD_USD";
   "QAR_USD_Volatility_20D"; "BHD_USD_Volatility_20D"; "Gulf_Crisis_End";
   "Is_Month_End"; "Very_High_Governance_Risk"; "Has_Controversy";
   "Poor_Governance"; "Operating Cf_M"; "Free Cf_M"; "Debt_to_Equity";
   "ROE_%"; "Net_Profit_Margin_%"; "Volatility_20"; "ROC_20";
   "Egypt_FX_Crisis"; "EGP_USD_Change_%"; "Pandemic_Recession";
   "Environment_Score"; "Social_Score"; "Young_Company";
   "Low_Institutional_Ownership"; "Month_x"
  ].


(** [FEATURE_LABELS]: display label of each feature. *)
Definition FEATURE_LABELS : dict string :=
  [
   ("Market_Cap_USD", "Company Size (Market Value)");
   ("Low", "Daily Low Price");
   ("Volume", "Trading Activity (Volume)");
   ("Daily_Return_%", "Daily Price Change");
   ("Price_Range_%", "Daily Price Spread");
   ("ROA_%", "Return on Assets");
   ("Equity_Ratio", "Equity Ratio");
   ("Asset_Turnover", "Asset Efficiency");
   ("OCF_to_Debt", "Cash Flow vs Debt Coverage");
   ("Altman_Z_Score", "Financial Health Score");
   ("Death_Cross", "Bearish Price Signal");
   ("True_Range", "Daily Price Volatility");
   ("RSI_14", "Price Momentum");
   ("US_10Y", "US Interest Rate");
   ("Oil_Volatility_20D", "Oil Price Stability");
   ("Oil_Below_60", "Low Oil Price Indicator");
   ("Oil_Below_40", "Very Low Oil Price Indicator");
   ("Brent_Change_%", "Oil Price Change");
   ("VIX_Change_%", "Market Uncertainty Change");
   ("Very_High_VIX", "Extreme Market Uncertainty");
   ("Strong_Dollar", "Strong US Dollar");
   ("SAR_USD", "Saudi Riyal Rate");
   ("KWD_USD", "Kuwaiti Dinar Rate");
   ("QAR_USD_Volatility_20D", "Qatar Riyal Stability");
   ("BHD_USD_Volatility_20D", "Bahraini Dinar Stability");
   ("Gulf_Crisis_End", "Post-Gulf Crisis Period");
   ("Is_Month_End", "Month-End Period");
   ("Very_High_Governance_Risk", "High Governance Risk");
   ("Has_Controversy", "Company Controversy");
   ("Poor_Governance", "Governance Concerns");
   ("Operating Cf_M", "Operating Cash Flow");
   ("Free Cf_M", "Free Cash Flow");
   ("Debt_to_Equity", "Debt Relative to Equity");
   ("ROE_%", "Return on Equity");
   ("Net_Profit_Margin_%", "Net Profit Margin");
   ("Volatility_20", "Price Stability (20-Day)");
   ("ROC_20", "Price Trend (20-Day)");
   ("Egypt_FX_Crisis", "Egypt Currency Pressure");
   ("EGP_USD_Change_%", "Egyptian Pound Change");
   ("Pandemic_Recession", "Pandemic Period");
   ("Environment_Score", "Environmental Score");
   ("Social_Score", "Social Score");
   ("Young_Company", "Early-Stage Company");
   ("Low_Institutional_Ownership", "Low Institutional Ownership");
   ("Month_x", "Month of Year")
  ].


(** [FEATURE_CATEGORIES]: category name and the features listed under it. *)
Definition FEATURE_CATEGORIES : dict (list string) :=
  [
   ("Financial Health",
    [
     "ROA_%"; "Equity_Ratio"; "Asset_Turnover"; "OCF_to_Debt";
     "Altman_Z_Score"; "Operating Cf_M"; "Free Cf_M"; "Debt_to_Equity";
     "ROE_%"; "Net_Profit_Margin_%"
    ]);
   ("Market & Price",
    [
     "Market_Cap_USD"; "Low"; "Volume"; "Daily_Return_%"; "Price_Range_%";
     "True_Range"; "Volatility_20"; "ROC_20"; "Death_Cross"; "RSI_14"
    ]);
   ("Oil & Global Macro",
    [
     "Oil_Volatility_20D"; "Oil_Below_60"; "Oil_Below_40";
     "Brent_Change_%"; "US_10Y"; "VIX_Change_%"; "Very_High_VIX";
     "Strong_Dollar"
    ]);
   ("Regional Factors",
    [
     "SAR_USD"; "KWD_USD"; "QAR_USD_Volatility_20D";
     "BHD_USD_Volatility_20D"; "Gulf_Crisis_End"; "Egypt_FX_Crisis";
     "EGP_USD_Change_%"; "Pandemic_Recession"
    ]);
   ("Governance & ESG",
    [
     "Very_High_Governance_Risk"; "Has_Controversy"; "Poor_Governance";
     "Environment_Score"; "Social_Score"; "Young_Company";
     "Low_Institutional_Ownership"
    ]);
   ("Timing",
    [
     "Is_Month_End"; "Month_x"
    ])
  ].


(** [FEATURE_LABELS.get(f, f)] *)
Definition feature_label (f : string) : string :=
  dict_get_default FEATURE_LABELS f f.

(** [_labels(features)] *)
Definition _labels (features : list string) : list string :=
  map feature_label features.

(* ================================================================== *)
(** * The raw snapshot and the pandas operations used on it *)
(* ================================================================== *)

(** A column of a financial statement: line-item label and value, in index
    order.  Values are float64; a missing figure is NaN. *)
Definition Series : Type := list (string * float).

(** A financial statement: its columns, most recent period first. *)
Definition Statement : Type := list Series.

(** One row of the price history. *)
Record Bar : Type := mkBar {
  bOpen : float;
  bHigh : float;
  bLow : float;
  bClose : float;
  bVolume : float
}.

Definition History : Type := list Bar.

(** The [data] dict returned by [fetch_company_data]. *)
Record Snapshot : Type := mkSnapshot {
  history : History;
  financials : Statement;
  balance_sheet : Statement;
  cash_flow : Statement;
  info : dict pyval
}.

(** What [datetime.now()] returns. *)
Record datetime : Type := mkDatetime {
  year : Z;
  month : Z;
  day : Z;
  hour : Z;
  minute : Z;
  second : Z;
  microsecond : Z
}.

Module Pd.

Local Open Scope float_scope.

(** [df.iloc[:,0] if len(df.columns) > 0 else pd.Series(dtype=float)] *)
Definition latest_column (df : Statement) : Series :=
  match df with
  | col :: _ => col
  | [] => []
  end.

Fixpoint map2 {A B C : Type} (f : A -> B -> C) (xs : list A) (ys : list B)
  : list C :=
  match xs, ys with
  | x :: xs', y :: ys' => f x y :: map2 f xs' ys'
  | _, _ => []
  end.

(** [s.iloc[-1]] (the series is not empty where the code takes it). *)
Definition iloc_last (xs : list float) : float := last xs nan.

(** [s.iloc[-k]], [k >= 1]. *)
Definition iloc_back (k : nat) (xs : list float) : float :=
  nth (List.length xs - k) xs nan.

(** [s.tail(n)] *)
Definition tail {A : Type} (n : nat) (xs : list A) : list A :=
  skipn (List.length xs - n) xs.

(** [s.shift(1)] *)
Definition shift1 (xs : list float) : list float :=
  match xs with
  | [] => []
  | _ => nan :: removelast xs
  end.

(** [s.diff()] *)
Definition diff (xs : list float) : list float :=
  map2 (fun cur prev => cur - prev) xs (shift1 xs).

(** [s.pct_change()]: [s / s.shift(1) - 1]. *)
Definition pct_change (xs : list float) : list float :=
  map2 (fun cur prev => cur / prev - 1) xs (shift1 xs).

(** [s.dropna()] *)
Definition dropna (xs : list float) : list float :=
  filter (fun x => negb (F64.isnan x)) xs.

(** [s.where(cond, other)] *)
Definition where_ (cond : float -> bool) (xs : list float) (other : float)
  : list float :=
  map (fun x => if cond x then x else other) xs.

(** [s.replace(0, np.nan)] ([-0.0] equals 0). *)
Definition replace_0_nan (xs : list float) : list float :=
  map (fun x => if x =? 0 then nan else x) xs.

(** [s.mean()]: NaN entries are skipped; NaN when nothing is left. *)
Definition mean (xs : list float) : float :=
  let ys := dropna xs in
  match ys with
  | [] => nan
  | _ => F64.sum ys / F64.of_nat (List.length ys)
  end.

(** [s.std()] (sample standard deviation, ddof = 1) of a series without
    NaN: the mean, the sum of squared deviations over [n - 1], its root. *)
Definition std (xs : list float) : float :=
  let n := List.length xs in
  if (n <=? 1)%nat then nan
  else
    let avg := F64.sum xs / F64.of_nat n in
    let sqr := map (fun x => (avg - x) * (avg - x)) xs in
    sqrt (F64.sum sqr / F64.of_nat (n - 1)).

(** The mean of one window of [s.rolling(n).mean()]: NaN until the window
    holds [n] observations (a NaN inside the window makes the sum NaN). *)
Definition window_mean (n : nat) (w : list float) : float :=
  if (List.length w <? n)%nat then nan
  else F64.sum w / F64.of_nat n.

(** [s.rolling(n).mean()] *)
Definition rolling_mean (n : nat) (xs : list float) : list float :=
  map (fun i => window_mean n (tail n (firstn (S i) xs))) (seq 0 (List.length xs)).

(** Row maximum of [pd.concat([...], axis=1).max(axis=1)]: NaN entries are
    skipped. *)
Definition nanmax (xs : list float) : float :=
  fold_left (fun acc x =>
               if F64.isnan x then acc
               else if F64.isnan acc then x
               else if acc <? x then x else acc) xs nan.

Fixpoint map3 {A B C D : Type} (f : A -> B -> C -> D)
    (xs : list A) (ys : list B) (zs : list C) : list D :=
  match xs, ys, zs with
  | x :: xs', y :: ys', z :: zs' => f x y z :: map3 f xs' ys' zs'
  | _, _, _ => []
  end.

End Pd.

(* ================================================================== *)
(** * [calculate_all_metrics] *)
(* ================================================================== *)

(** The inner helper [gv(series, key, default)]:
    [float(series[key]) if key in series.index else default], and
    [default] when that raises.  With a label that occurs once
    [series[key]] is the value; with a repeated label it is a sub-series,
    on which [float] raises. *)
Definition gv (series : Series) (key : string) (default : pyval) : pyval :=
  match filter (fun kv => String.eqb (fst kv) key) series with
  | [] => default
  | [(_, v)] => PFloat v
  | _ => default
  end.

(** The figures read from the statements. *)
Record Fundamentals : Type := mkFundamentals {
  assets : pyval;
  equity : pyval;
  curr_a : pyval;
  curr_l : pyval;
  retained : pyval;
  debt : pyval;
  net_inc : pyval;
  revenue : pyval;
  ebit : pyval;
  ocf : pyval;
  capex : pyval;
  fcf : pyval
}.

Definition fundamentals_of (data : Snapshot) : py Fundamentals :=
  let lbs := Pd.latest_column (balance_sheet data) in
  let lfin := Pd.latest_column (financials data) in
  let lcf := Pd.latest_column (cash_flow data) in
  let assets := gv lbs "Total Assets"
                  (dict_get_default (info data) "totalAssets" (PInt 0)) in
  let equity := gv lbs "Total Stockholder Equity"
                  (dict_get_default (info data) "totalStockholderEquity" (PInt 0)) in
  let curr_a := gv lbs "Current Assets" (PInt 0) in
  let curr_l := gv lbs "Current Liabilities" (PInt 0) in
  let retained := gv lbs "Retained Earnings" (PInt 0) in
  debt <- Py.or_else (gv lbs "Total Debt" (PInt 0))
            (Py.add (gv lbs "Long Term Debt" (PInt 0))
                    (gv lbs "Short Long Term Debt" (PInt 0))) ;;
  let net_inc := gv lfin "Net Income" (PInt 0) in
  let revenue := gv lfin "Total Revenue" (PInt 0) in
  let ebit := gv lfin "EBIT" (PInt 0) in
  let ocf := gv lcf "Total Cash From Operating Activities" (PInt 0) in
  let capex := gv lcf "Capital Expenditures" (PInt 0) in
  fcf <- Py.or_else (gv lcf "Free Cash Flow" (PInt 0))
           (if Py.truthy ocf
            then (a <- Py.abs capex ;; Py.sub ocf a)
            else Ok (PInt 0)) ;;
  Ok (mkFundamentals assets equity curr_a curr_l retained debt
                     net_inc revenue ebit ocf capex fcf).

(** The values derived from [info] and the price history.  With the five
    price columns present none of these steps raises. *)
Record Market : Type := mkMarket {
  mkt_cap : pyval;
  lat_ret : pyval;
  vol_20 : pyval;
  pr_pct : pyval;
  tr : pyval;
  dc : pyval;
  rsi14 : pyval;
  roc20 : pyval
}.

Section MarketStatistics.
Local Open Scope float_scope.
Variable hist : History.

(** [hist["Close"]] *)
Definition closes : list float := map bClose hist.

(** [rets = hist["Close"].pct_change().dropna()] *)
Definition rets : list float := Pd.dropna (Pd.pct_change closes).

(** [lat_ret = float(rets.iloc[-1] * 100) if len(rets) > 0 else 0] *)
Definition lat_ret_of : pyval :=
  if (0 <? List.length rets)%nat
  then PFloat (Pd.iloc_last rets * 100)
  else PInt 0.

(** [vol_20 = float(rets.tail(20).std() * np.sqrt(252) * 100)
              if len(rets) >= 20 else 0] *)
Definition vol_20_of : pyval :=
  if (20 <=? List.length rets)%nat
  then PFloat (Pd.std (Pd.tail 20 rets) * sqrt 252 * 100)
  else PInt 0.

(** [pr_pct = 0.0], replaced by [(High - Low) / Open * 100] of the last row
    when [len(hist) > 0 and hist["Open"].iloc[-1] > 0]. *)
Definition pr_pct_of : pyval :=
  if (0 <? List.length hist)%nat
     && F64.gtb (Pd.iloc_last (map bOpen hist)) 0
  then PFloat ((Pd.iloc_last (map bHigh hist) - Pd.iloc_last (map bLow hist))
               / Pd.iloc_last (map bOpen hist) * 100)
  else PFloat 0.

(** The row maxima of the three candle distances [High - Low],
    [(High - Close.shift(1)).abs()], [(Low - Close.shift(1)).abs()]. *)
Definition true_range_rows : list float :=
  Pd.map3 (fun a b c => Pd.nanmax [a; b; c])
    (Pd.map2 PrimFloat.sub (map bHigh hist) (map bLow hist))
    (map PrimFloat.abs
       (Pd.map2 PrimFloat.sub (map bHigh hist) (Pd.shift1 closes)))
    (map PrimFloat.abs
       (Pd.map2 PrimFloat.sub (map bLow hist) (Pd.shift1 closes))).

(** [tr = 0.0], replaced by the last row maximum when [len(hist) > 1]. *)
Definition tr_of : pyval :=
  if (1 <? List.length hist)%nat
  then PFloat (Pd.iloc_last true_range_rows)
  else PFloat 0.

(** [hist["Close"].rolling(50).mean()] and [.rolling(200).mean()] *)
Definition ma50 : list float := Pd.rolling_mean 50 closes.
Definition ma200 : list float := Pd.rolling_mean 200 closes.

(** [dc = int(len(ma50) > 0 and len(ma200) > 0 and not pd.isna(ma50.iloc[-1])
             and not pd.isna(ma200.iloc[-1])
             and ma50.iloc[-1] < ma200.iloc[-1])] *)
Definition dc_of : pyval :=
  PInt (if (0 <? List.length ma50)%nat && (0 <? List.length ma200)%nat
           && negb (F64.isnan (Pd.iloc_last ma50))
           && negb (F64.isnan (Pd.iloc_last ma200))
           && (Pd.iloc_last ma50 <? Pd.iloc_last ma200)
        then 1 else 0).

(** [delta = hist["Close"].diff()] *)
Definition delta : list float := Pd.diff closes.

(** [gain = delta.where(delta > 0, 0).rolling(14).mean()] *)
Definition gain : list float :=
  Pd.rolling_mean 14 (Pd.where_ (fun d => F64.gtb d 0) delta 0).

(** [loss = (-delta.where(delta < 0, 0)).rolling(14).mean()] *)
Definition loss : list float :=
  Pd.rolling_mean 14 (map PrimFloat.opp (Pd.where_ (fun d => d <? 0) delta 0)).

(** [rs = gain / loss.replace(0, np.nan)] *)
Definition rs : list float :=
  Pd.map2 PrimFloat.div gain (Pd.replace_0_nan loss).

(** [rsi_s = 100 - (100 / (1 + rs))] *)
Definition rsi_s : list float := map (fun r => 100 - 100 / (1 + r)) rs.

(** [rsi14 = float(rsi_s.iloc[-1])
             if len(rsi_s) > 0 and not pd.isna(rsi_s.iloc[-1]) else 50] *)
Definition rsi14_of : pyval :=
  if (0 <? List.length rsi_s)%nat && negb (F64.isnan (Pd.iloc_last rsi_s))
  then PFloat (Pd.iloc_last rsi_s)
  else PInt 50.

(** [roc20 = 0.0], replaced by
    [(Close[-1] - Close[-21]) / Close[-21] * 100] when
    [len(hist) > 20 and hist["Close"].iloc[-21] != 0]. *)
Definition roc20_of : pyval :=
  if (20 <? List.length hist)%nat && F64.neb (Pd.iloc_back 21 closes) 0
  then PFloat ((Pd.iloc_last closes - Pd.iloc_back 21 closes)
               / Pd.iloc_back 21 closes * 100)
  else PFloat 0.

End MarketStatistics.

Definition market_of (data : Snapshot) : py Market :=
  (* mkt_cap = info.get("marketCap", 0) or 0 *)
  mkt_cap <- Py.or_else (dict_get_default (info data) "marketCap" (PInt 0))
               (Ok (PInt 0)) ;;
  let hist := history data in
  Ok (mkMarket mkt_cap (lat_ret_of hist) (vol_20_of hist) (pr_pct_of hist)
               (tr_of hist) (dc_of hist) (rsi14_of hist) (roc20_of hist)).

(** The guarded ratios and the health score. *)
Record Ratios : Type := mkRatios {
  eq_r : pyval;
  at_ : pyval;
  o2d : pyval;
  d2e : pyval;
  roe : pyval;
  roa : pyval;
  npm : pyval;
  z : pyval
}.

(** [num / den if den > 0 else 0] *)
Definition ratio (num den : pyval) : py pyval :=
  c <- Py.gt0 den ;;
  if c then Py.truediv num den else Ok (PInt 0).

(** [num / den * 100 if den > 0 else 0] *)
Definition ratio_pct (num den : pyval) : py pyval :=
  c <- Py.gt0 den ;;
  if c then (q <- Py.truediv num den ;; Py.mul q (PInt 100)) else Ok (PInt 0).

(** [w * x / den] *)
Definition weighted (w : float) (x den : pyval) : py pyval :=
  p <- Py.mul (PFloat w) x ;; Py.truediv p den.

Definition altman_z (f : Fundamentals) (wc : pyval) : py pyval :=
  c <- Py.gt0 (assets f) ;;
  if c then
    t1 <- weighted 1.2 wc (assets f) ;;
    t2 <- weighted 1.4 (retained f) (assets f) ;;
    s2 <- Py.add t1 t2 ;;
    t3 <- weighted 3.3 (ebit f) (assets f) ;;
    s3 <- Py.add s2 t3 ;;
    t4 <- (d <- Py.gt0 (debt f) ;;
           if d then weighted 0.6 (equity f) (debt f) else Ok (PInt 0)) ;;
    s4 <- Py.add s3 t4 ;;
    t5 <- weighted 1.0 (revenue f) (assets f) ;;
    Py.add s4 t5
  else Ok (PFloat 0).

Definition ratios_of (f : Fundamentals) : py Ratios :=
  eq_r <- ratio (equity f) (assets f) ;;
  at_ <- ratio (revenue f) (assets f) ;;
  o2d <- ratio (ocf f) (debt f) ;;
  d2e <- ratio (debt f) (equity f) ;;
  roe <- ratio_pct (net_inc f) (equity f) ;;
  roa <- ratio_pct (net_inc f) (assets f) ;;
  npm <- ratio_pct (net_inc f) (revenue f) ;;
  wc <- Py.sub (curr_a f) (curr_l f) ;;
  z <- altman_z f wc ;;
  Ok (mkRatios eq_r at_ o2d d2e roe roa npm z).

(** The feature vector: a dict from feature name to value. *)
Definition Metrics : Type := dict pyval.

(** The values computed inside the returned dict display, in the order
    the display evaluates them. *)
Record Displayed : Type := mkDisplayed {
  low : pyval;
  volume : pyval;
  daily : pyval;
  ocf_m : pyval;
  fcf_m : pyval;
  vol : pyval
}.

Definition displayed_of (data : Snapshot) (f : Fundamentals) (m : Market)
  : py Displayed :=
  let hist := history data in
  (* float(hist["Low"].iloc[-1]) if len(hist) > 0 else 0 *)
  let low := if (0 <? List.length hist)%nat
             then PFloat (Pd.iloc_last (map bLow hist)) else PInt 0 in
  (* float(hist["Volume"].mean()) if len(hist) > 0 else 0 *)
  let volume := if (0 <? List.length hist)%nat
                then PFloat (Pd.mean (map bVolume hist)) else PInt 0 in
  (* lat_ret if not np.isnan(lat_ret) else 0 *)
  ret_nan <- Py.isnan (lat_ret m) ;;
  let daily := if negb ret_nan then lat_ret m else PInt 0 in
  ocf_m <- Py.truediv (ocf f) (PFloat 1e6) ;;
  fcf_m <- Py.truediv (fcf f) (PFloat 1e6) ;;
  (* float(vol_20) if not np.isnan(vol_20) else 0 *)
  vol_nan <- Py.isnan (vol_20 m) ;;
  vol <- (if negb vol_nan
          then (v <- Py.to_float (vol_20 m) ;; Ok (PFloat v))
          else Ok (PInt 0)) ;;
  Ok (mkDisplayed low volume daily ocf_m fcf_m vol).

(** The returned dict display; its keys are pairwise distinct, so the dict
    holds the items in the order written. *)
Definition feature_dict (today : datetime) (m : Market) (r : Ratios)
    (x : Displayed) : Metrics :=
  [ ("Market_Cap_USD", mkt_cap m);
    ("Low", low x);
    ("Volume", volume x);
    ("Daily_Return_%", daily x);
    ("Price_Range_%", pr_pct m);
    ("ROA_%", roa r);
    ("Equity_Ratio", eq_r r);
    ("Asset_Turnover", at_ r);
    ("OCF_to_Debt", o2d r);
    ("Altman_Z_Score", z r);
    ("Death_Cross", dc m);
    ("True_Range", tr m);
    ("RSI_14", rsi14 m);
    ("US_10Y", PInt 0); ("Oil_Volatility_20D", PInt 0);
    ("Oil_Below_60", PInt 0); ("Oil_Below_40", PInt 0);
    ("Brent_Change_%", PInt 0); ("VIX_Change_%", PInt 0);
    ("Very_High_VIX", PInt 0); ("Strong_Dollar", PInt 0);
    ("SAR_USD", PInt 0); ("KWD_USD", PInt 0);
    ("QAR_USD_Volatility_20D", PInt 0); ("BHD_USD_Volatility_20D", PInt 0);
    ("Gulf_Crisis_End", PInt 0);
    ("Is_Month_End", PInt (if (25 <=? day today)%Z then 1 else 0));
    ("Very_High_Governance_Risk", PInt 0); ("Has_Controversy", PInt 0);
    ("Poor_Governance", PInt 0);
    ("Operating Cf_M", ocf_m x);
    ("Free Cf_M", fcf_m x);
    ("Debt_to_Equity", d2e r);
    ("ROE_%", roe r);
    ("Net_Profit_Margin_%", npm r);
    ("Volatility_20", vol x);
    ("ROC_20", roc20 m);
    ("Egypt_FX_Crisis", PInt 0); ("EGP_USD_Change_%", PInt 0);
    ("Pandemic_Recession", PInt 0);
    ("Environment_Score", PInt 50); ("Social_Score", PInt 50);
    ("Young_Company", PInt 0); ("Low_Institutional_Ownership", PInt 0);
    ("Month_x", PInt (month today)) ].

(** The body of the [try] block; [today] is what [datetime.now()] returns
    during the call. *)
Definition calculate_all_metrics_body (data : Snapshot) (today : datetime)
  : py Metrics :=
  f <- fundamentals_of data ;;
  m <- market_of data ;;
  r <- ratios_of f ;;
  x <- displayed_of data f m ;;
  Ok (feature_dict today m r x).

(** [calculate_all_metrics(data)]: the dict, or [None] when the body
    raised. *)
Definition calculate_all_metrics (data : Snapshot) (today : datetime)
  : option Metrics :=
  except_None (calculate_all_metrics_body data today).

(* ================================================================== *)
(** * Fixed-point formatting of floats ([f"{v:.4f}"] and the like) *)
(* ================================================================== *)

Module Fmt.

Definition digit (n : Z) : ascii := ascii_of_nat (48 + Z.to_nat n).

Definition is_digit (c : ascii) : bool :=
  let n := nat_of_ascii c in (48 <=? n)%nat && (n <=? 57)%nat.

(** The last [nd] decimal digits of [n], zero padded. *)
Fixpoint frac_digits (nd : nat) (n : Z) : string :=
  match nd with
  | O => EmptyString
  | S k => (frac_digits k (n / 10) ++ String (digit (n mod 10)) EmptyString)%string
  end.

(** Decimal digits of a natural number, ["0"] for zero. *)
Definition int_digits (n : Z) : string :=
  NilZero.string_of_uint (N.to_uint (Z.to_N n)).

(** [num / den] rounded to the nearest integer, ties to even. *)
Definition round_half_even (num den : Z) : Z :=
  let q := (num / den)%Z in
  let r := (num mod den)%Z in
  match (2 * r ?= den)%Z with
  | Lt => q
  | Gt => (q + 1)%Z
  | Eq => if Z.even q then q else (q + 1)%Z
  end.

(** [m * 2^e * 10^nd], correctly rounded to an integer. *)
Definition scaled (nd : nat) (m : positive) (e : Z) : Z :=
  let num := (Zpos m * 10 ^ Z.of_nat nd)%Z in
  if (0 <=? e)%Z then (num * 2 ^ e)%Z else round_half_even num (2 ^ (- e))%Z.

(** Sign, integer part and, when [nd > 0], a point and [nd] digits. *)
Definition fixed (nd : nat) (negative : bool) (n : Z) : string :=
  let p := (10 ^ Z.of_nat nd)%Z in
  ((if negative then "-" else EmptyString)
   ++ int_digits (n / p)
   ++ match nd with
      | O => EmptyString
      | _ => "." ++ frac_digits nd (n mod p)
      end)%string.

(** [format(x, ".{nd}f")]: the exact binary value rounded half-even to
    [nd] decimals; the sign bit is kept; NaN and the infinities print as
    words. *)
Definition format_fixed (nd : nat) (x : float) : string :=
  match Prim2SF x with
  | S754_nan => "nan"
  | S754_infinity s => if s then "-inf" else "inf"
  | S754_zero s => fixed nd s 0
  | S754_finite s m e => fixed nd s (scaled nd m e)
  end.

(** [format(x, ".{nd}%")]: [x * 100] in fixed notation, then a percent
    sign. *)
Definition format_percent (nd : nat) (x : float) : string :=
  (format_fixed nd (x * 100)%float ++ "%")%string.

(** [s] ends in a point followed by exactly [nd] decimal digits, and has no
    other point. *)
Definition has_decimals (nd : nat) (s : string) : Prop :=
  exists ip fp : string,
    s = (ip ++ "." ++ fp)%string /\
    String.length fp = nd /\
    forallb is_digit (list_ascii_of_string fp) = true /\
    existsb (Ascii.eqb ".") (list_ascii_of_string ip) = false.

End Fmt.

(* ================================================================== *)
(** * Unpickled objects and [make_prediction] *)
(* ================================================================== *)

(** What the code asks of an object that is not a dict: its truth value
    and the methods it has.  [predict_proba] stands for
    [predict_proba(Xs)[0, 1]], [predict] for [predict(Xs)[0]]. *)
Record Capabilities : Type := mkCapabilities {
  cap_truthy : bool;
  cap_transform : option (list float -> list float);
  cap_predict : option (list float -> Z);
  cap_predict_proba : option (list float -> float)
}.

(** An unpickled value: [None], a dict, or another object. *)
Inductive pyobj : Type :=
| ONone
| OObject (id : nat) (c : Capabilities)
| ODict (items : list (string * pyobj)).

(** [hasattr(v, "predict_proba")] *)
Definition has_predict_proba (v : pyobj) : bool :=
  match v with
  | OObject _ c =>
      match cap_predict_proba c with Some _ => true | None => false end
  | _ => false
  end.

(** [bool(v)] *)
Definition obj_truthy (v : pyobj) : bool :=
  match v with
  | ONone => false
  | OObject _ c => cap_truthy c
  | ODict items => negb (Nat.eqb (List.length items) 0)
  end.

Definition is_None (v : pyobj) : bool :=
  match v with ONone => true | _ => false end.

(** Calling a method: [AttributeError] when the object lacks it. *)
Definition call {A B : Type} (v : pyobj)
    (method : Capabilities -> option (A -> B)) (x : A) : py B :=
  match v with
  | OObject _ c =>
      match method c with
      | Some f => Ok (f x)
      | None => Raise AttributeError
      end
  | _ => Raise AttributeError
  end.

Inductive risk_level : Type := Low | Medium | High | Critical.

(** The string the code stores in [risk]. *)
Definition risk_name (r : risk_level) : string :=
  match r with
  | Low => "Low" | Medium => "Medium" | High => "High" | Critical => "Critical"
  end.

(** [risk = "Critical" if prob >= 0.7 else "High" if prob >= 0.5 else
            "Medium" if prob >= 0.3 else "Low"] *)
Definition risk_tier (prob : float) : risk_level :=
  if F64.geb prob 0.7 then Critical
  else if F64.geb prob 0.5 then High
  else if F64.geb prob 0.3 then Medium
  else Low.

(** The ordering Low <= Medium <= High <= Critical. *)
Definition risk_rank (r : risk_level) : nat :=
  match r with Low => 0 | Medium => 1 | High => 2 | Critical => 3 end.

Definition risk_le (a b : risk_level) : Prop := risk_rank a <= risk_rank b.

Fixpoint mapM {A B : Type} (f : A -> py B) (xs : list A) : py (list B) :=
  match xs with
  | [] => Ok []
  | x :: xs' => y <- f x ;; ys <- mapM f xs' ;; Ok (y :: ys)
  end.

(** The row [[metrics.get(f, 0) for f in SELECTED_FEATURES]] as float64. *)
Definition feature_row (metrics : Metrics) : py (list float) :=
  mapM (fun f => Py.to_float (dict_get_default metrics f (PInt 0)))
       SELECTED_FEATURES.

Definition make_prediction (model scaler : pyobj) (metrics : Metrics)
  : py (Z * float * risk_level) :=
  X <- feature_row metrics ;;
  Xs <- call scaler cap_transform X ;;
  pred <- call model cap_predict Xs ;;
  prob <- call model cap_predict_proba Xs ;;
  Ok (pred, prob, risk_tier prob).

(* ================================================================== *)
(** * Attribution: category sums and the narrative's ranking *)
(* ================================================================== *)

(** [vals[[i, j, ...]]]: [IndexError] on a position out of range. *)
Definition take {A : Type} (vals : list A) (idx : list nat) : py (list A) :=
  mapM (fun i => match nth_error vals i with
                 | Some v => Ok v
                 | None => Raise IndexError
                 end) idx.

(** [feat_idx = {f: i for i, f in enumerate(SELECTED_FEATURES)}] *)
Definition feat_idx : dict nat :=
  dict_of (combine SELECTED_FEATURES (seq 0 (List.length SELECTED_FEATURES))).

(** [[feat_idx[f] for f in flist if f in feat_idx]] *)
Definition positions (flist : list string) : list nat :=
  flat_map (fun f => match dict_get feat_idx f with
                     | Some i => [i]
                     | None => []
                     end) flist.

Section CategorySums.
(** The sums are written over any number type with an addition, so that
    they can be read in binary64 (what the code computes) and in exact
    arithmetic. *)
Context {A : Type}.
Variable add : A -> A -> A.
Variable zero : A.

(** [np.sum(xs)], as a left-to-right sum. *)
Definition np_sum (xs : list A) : A := fold_left add xs zero.

(** The dict comprehension [cat_vals] of [shap_category_chart]. *)
Definition cat_vals (vals : list A) : py (dict A) :=
  mapM (fun item : string * list string =>
          sel <- take vals (positions (snd item)) ;;
          Ok (fst item, np_sum sel))
       FEATURE_CATEGORIES.

End CategorySums.

(** [cat_vals] on the explainer's float64 contributions. *)
Definition shap_category_values (vals : list float) : py (dict float) :=
  cat_vals PrimFloat.add 0%float vals.

(** The categories a feature is listed under. *)
Definition categories_of (f : string) : list string :=
  map fst (filter (fun item : string * list string =>
                     existsb (String.eqb f) (snd item)) FEATURE_CATEGORIES).

Module Ranking.
Local Open Scope float_scope.

(** [a] has to come before [b] in a descending order with NaN last. *)
Definition before (a b : float) : bool :=
  (negb (F64.isnan a) && F64.isnan b) || (b <? a).

(** [a] may come directly before [b]. *)
Definition may_precede (a b : float) : bool := negb (before b a).

Fixpoint descending (keys : list float) : bool :=
  match keys with
  | a :: (b :: _) as rest => may_precede a b && descending rest
  | _ => true
  end.

(** [order] lists every position below [n] once. *)
Definition is_permutation_of_range (order : list nat) (n : nat) : bool :=
  Nat.eqb (List.length order) n
  && forallb (fun i => existsb (Nat.eqb i) order) (seq 0 n).

(** What [s.sort_values(ascending=False).index] can be for the series
    [keys] with the default index: the positions in an order in which the
    keys descend, NaN last.  The call leaves [kind] at its default,
    quicksort, which does not keep equal keys in their original order, so
    the order among equal keys is not fixed by the code. *)
Definition is_descending_order (keys : list float) (order : list nat) : bool :=
  is_permutation_of_range order (List.length keys)
  && descending (map (fun i => nth i keys nan) order).

(** The stable descending order: equal keys in canonical (index) order. *)
Fixpoint insert (keys : list float) (i : nat) (sorted : list nat) : list nat :=
  match sorted with
  | [] => [i]
  | j :: rest =>
      if before (nth j keys nan) (nth i keys nan)
      then j :: insert keys i rest
      else i :: sorted
  end.

Definition stable_order (keys : list float) : list nat :=
  fold_right (insert keys) [] (seq 0 (List.length keys)).

End Ranking.

(** What [render_shap_narrative] selects and writes. *)
Record ShapNarrative : Type := mkShapNarrative {
  top_pos : list string;
  top_neg : list string;
  top_all : list string;
  pos_text : string;
  neg_text : string;
  top_text : string;
  paragraphs : list string
}.

(** [", ".join(f"**{f}**" for f in names)] *)
Definition join_bold (names : list string) : string :=
  String.concat ", " (map (fun f => ("**" ++ f ++ "**")%string) names).

Section ShapNarrative.
Local Open Scope float_scope.

(** [order] is the index of [df["SHAP"].abs().sort_values(ascending=False)],
    an order for which [Ranking.is_descending_order] holds. *)
Variable order : list nat.

(** [df.reindex(order)]: the rows (label, contribution) in ranked order. *)
Definition reindex (rows : list (string * float)) : list (string * float) :=
  map (fun i => nth i rows (EmptyString, nan)) order.

Definition render_shap_narrative (shap_vals : list float) (pred : Z)
    (prob : float) : py ShapNarrative :=
  let labels := _labels SELECTED_FEATURES in
  if negb (Nat.eqb (List.length labels) (List.length shap_vals))
  then Raise ValueError
  else
    let df := combine labels shap_vals in
    let df_abs := reindex df in
    let top_pos := map fst (firstn 3 (filter (fun r => F64.gtb (snd r) 0) df_abs)) in
    let top_neg := map fst (firstn 3 (filter (fun r => snd r <? 0) df_abs)) in
    let top_all := map fst (firstn 1 df_abs) in
    let pos_text := match top_pos with
                    | [] => "no strong positive contributors"
                    | _ => join_bold top_pos
                    end in
    let neg_text := match top_neg with
                    | [] => "no strong negative contributors"
                    | _ => join_bold top_neg
                    end in
    let top_text := match top_all with
                    | [] => "an unknown factor"
                    | f :: _ => ("**" ++ f ++ "**")%string
                    end in
    let paragraphs :=
      if (pred =? 1)%Z then
        [ ("The model reached its distress classification primarily because of "
            ++ top_text ++ ", which had the single largest influence on the outcome.")%string;
          ("The factors most strongly **raising** the distress signal are: "
            ++ pos_text ++ ". These indicate areas of financial or market stress weighted heavily by the model.")%string;
          ("On the positive side, the following factors are **working in the company's favour** and reducing the risk score: "
            ++ neg_text ++ ". Without these, the assessed risk would be even higher.")%string ]
      else
        [ ("The model classified this company as financially healthy, with "
            ++ top_text ++ " being the most influential factor in that conclusion.")%string;
          ("The factors most strongly **supporting the healthy classification** are: "
            ++ neg_text ++ ". These reflect positive financial and market signals the model found reassuring.")%string;
          ("Some factors do introduce minor risk into the picture: "
            ++ pos_text ++ ". However, these are outweighed by the positive signals and do not change the overall outcome.")%string ] in
    Ok (mkShapNarrative top_pos top_neg top_all pos_text neg_text top_text
                        paragraphs).

End ShapNarrative.

(* ================================================================== *)
(** * [render_explanation]: the tier template *)
(* ================================================================== *)

(** What [render_explanation] fixes by the branch it takes: the card
    class, the header and its colour, and the recommended next steps.  (The
    three paragraphs and the signal chips interpolate formatted metrics
    inside the same four branches; they are left out.) *)
Record Template : Type := mkTemplate {
  card_mod : string;
  hdr_color : string;
  hdr : string;
  acts : list string
}.

Definition critical_template : Template :=
  mkTemplate "exp-card-critical" "#c0392b"
    "Critical Risk — Immediate Attention Required"
    [ "Review the company's cash position and near-term financial obligations immediately.";
      "Assess whether outstanding debts can be refinanced or renegotiated before maturity.";
      "Examine whether operational cost reductions could restore positive cash generation.";
      "Increase monitoring frequency significantly until the risk picture improves.";
      "Consider whether the current level of exposure to this company is appropriate." ].

Definition high_template : Template :=
  mkTemplate "exp-card-high" "#c0640c"
    "High Risk — Close Monitoring Recommended"
    [ "Conduct a detailed cash flow and liquidity review covering the next 12 months.";
      "Identify and review any debt covenants or obligations with approaching deadlines.";
      "Assess operational efficiency — where can costs be reduced or working capital improved?";
      "Monitor the next quarterly results closely for early signs of improvement.";
      "Review whether the current level of exposure is appropriate given the risk profile." ].

Definition medium_template : Template :=
  mkTemplate "exp-card-medium" "#9a6f00"
    "Moderate Risk — Worth Monitoring"
    [ "Continue monitoring on a monthly basis.";
      "Track the next earnings release for any signs of deterioration.";
      "Stay aware of broader sector conditions — particularly oil prices and regional economic shifts.";
      "No immediate action required, but flag as a company to watch." ].

Definition low_template : Template :=
  mkTemplate "exp-card-ok" "#1a7a4a"
    "Low Risk — Financially Sound"
    [ "No immediate action required — the company is in good financial standing.";
      "Continue with standard periodic monitoring.";
      "This company can serve as a useful benchmark for peer comparisons within the sector.";
      "Keep an eye on broader macro conditions (oil prices, interest rates, regional currency moves)." ].

(** The template written for each tier. *)
Definition template_of_tier (r : risk_level) : Template :=
  match r with
  | Critical => critical_template
  | High => high_template
  | Medium => medium_template
  | Low => low_template
  end.

(** The [if / elif / elif / else] chain of [render_explanation].  The
    argument [risk] is received and not read. *)
Definition render_explanation (name period_label : string) (pred : Z)
    (prob : float) (risk : risk_level) (metrics : Metrics) : Template :=
  if (pred =? 1)%Z && F64.geb prob 0.7 then critical_template
  else if (pred =? 1)%Z && F64.geb prob 0.5 then high_template
  else if F64.geb prob 0.3 then medium_template
  else low_template.

(* ================================================================== *)
(** * [load_model_resources] *)
(* ================================================================== *)

(** What the loader finds outside the program: for each artifact, whether
    [_get_model_file] returns a path and what [pickle.load] then gives;
    and what [shap.TreeExplainer(model)] does. *)
Record LoadEnv : Type := mkLoadEnv {
  model_file : option (py pyobj);
  scaler_file : option (py pyobj);
  tree_explainer : pyobj -> py pyobj
}.

(** The [st.error] shown before [st.stop()]. *)
Inductive load_error : Type :=
| ModelFileMissing
| ModelUnpickleFailed (e : exn)
| NoEstimatorInDict (dict_keys : list string)
| UnexpectedModelType
| ScalerFileMissing
| ScalerUnpickleFailed (e : exn).

(** A run that ends in [st.stop()] or returns. *)
Inductive outcome (A : Type) : Type :=
| Stopped (err : load_error)
| Returned (a : A).
Arguments Stopped {A} err.
Arguments Returned {A} a.

(** [next((v for v in raw.values() if hasattr(v, "predict_proba")), None)] *)
Definition first_with_predict_proba (items : list (string * pyobj)) : pyobj :=
  match find has_predict_proba (values items) with
  | Some v => v
  | None => ONone
  end.

(** [raw.get(k)] *)
Definition get_or_None (items : list (string * pyobj)) (k : string) : pyobj :=
  dict_get_default items k ONone.

(** The branch on the unpickled [raw] that chooses [model]. *)
Definition resolve_model (raw : pyobj) : outcome pyobj :=
  if has_predict_proba raw then Returned raw
  else
    match raw with
    | ODict items =>
        let model :=
          if obj_truthy (get_or_None items "final_model")
          then get_or_None items "final_model"
          else if obj_truthy (get_or_None items "best_model")
          then get_or_None items "best_model"
          else first_with_predict_proba items in
        if is_None model
        then Stopped (NoEstimatorInDict (keys items))
        else Returned model
    | _ => Stopped UnexpectedModelType
    end.

Definition load_model_resources (env : LoadEnv)
  : outcome (pyobj * pyobj * option pyobj) :=
  match model_file env with
  | None => Stopped ModelFileMissing
  | Some (Raise e) => Stopped (ModelUnpickleFailed e)
  | Some (Ok raw) =>
      match resolve_model raw with
      | Stopped err => Stopped err
      | Returned model =>
          match scaler_file env with
          | None => Stopped ScalerFileMissing
          | Some (Raise e) => Stopped (ScalerUnpickleFailed e)
          | Some (Ok scaler) =>
              let explainer :=
                match tree_explainer env model with
                | Ok ex => Some ex
                | Raise _ => None
                end in
              Returned (model, scaler, explainer)
          end
      end
  end.

(* ================================================================== *)
(** * The report record built in [main] *)
(* ================================================================== *)

(** A cell of the report: a string, or a number left as it is. *)
Inductive cell : Type :=
| CStr (s : string)
| CVal (v : pyval).

(** [datetime.now().strftime("%Y-%m-%d")] *)
Definition strftime_Ymd (d : datetime) : string :=
  (Fmt.frac_digits 4 (year d) ++ "-" ++ Fmt.frac_digits 2 (month d)
   ++ "-" ++ Fmt.frac_digits 2 (day d))%string.

(** [f"{v:.4f}" if isinstance(v, float) else v] *)
Definition report_cell (v : pyval) : cell :=
  match v with
  | PFloat f => CStr (Fmt.format_fixed 4 f)
  | _ => CVal v
  end.

(** The feature part of the record:
    [{FEATURE_LABELS.get(k, k): ... for k, v in metrics.items()}]. *)
Definition report_features (metrics : Metrics) : dict cell :=
  dict_of (map (fun kv => (feature_label (fst kv), report_cell (snd kv)))
               metrics).

(** The single row of [report_df]: the identifying fields, the prediction
    result, then the feature cells merged in ([**{...}]). *)
Definition report_row (sel_name ticker country sector sel_period_label : string)
    (now : datetime) (pred : Z) (prob : float) (risk : risk_level)
    (metrics : Metrics) : dict cell :=
  fold_left (fun d kv => dict_set d (fst kv) (snd kv))
    (report_features metrics)
    (dict_of
       [ ("Company", CStr sel_name); ("Ticker", CStr ticker);
         ("Country", CStr country); ("Sector", CStr sector);
         ("Period", CStr sel_period_label); ("Date", CStr (strftime_Ymd now));
         ("Result", CStr (if (pred =? 1)%Z then "Distressed" else "Healthy"));
         ("Probability", CStr (Fmt.format_fixed 4 prob));
         ("Risk Level", CStr (risk_name risk)) ]).

(* ================================================================== *)
(** * Sample inputs *)
(* ================================================================== *)

Module Samples.
Local Open Scope float_scope.

Definition today : datetime := mkDatetime 2026 2 18 9 30 0 0.

(** The same day, later. *)
Definition tonight : datetime := mkDatetime 2026 2 18 23 59 59 999999.

(** A snapshot whose three statements have no column and whose price
    history is empty. *)
Definition empty_snapshot : Snapshot := mkSnapshot [] [] [] [] [].

Definition bar_at (c : float) : Bar := mkBar c (c + 1) (c - 1) c 1000.

(** Twenty-three sessions; the last fourteen changes are all rises. *)
Definition rising_history : History :=
  map bar_at [10; 11; 12; 11; 13; 14; 15; 15; 16; 17; 18; 19; 20; 21; 22;
              23; 24; 25; 26; 27; 28; 29; 30].

(** The company of the end-to-end scenario: assets 1000, equity 400, debt
    300, retained earnings 100, EBIT 150, revenue 900, current assets 500,
    current liabilities 200, net income 50, operating cash flow 80. *)
Definition scenario_snapshot : Snapshot :=
  mkSnapshot rising_history
    [[("EBIT", 150); ("Total Revenue", 900); ("Net Income", 50)]]
    [[("Total Assets", 1000); ("Total Stockholder Equity", 400);
      ("Total Debt", 300); ("Retained Earnings", 100);
      ("Current Assets", 500); ("Current Liabilities", 200)]]
    [[("Total Cash From Operating Activities", 80)]]
    [("marketCap", PInt 123456789)].

(** The same company when the cash-flow statement reports no figure (NaN)
    for the operating cash flow of the latest period. *)
Definition nan_snapshot : Snapshot :=
  mkSnapshot rising_history
    (financials scenario_snapshot) (balance_sheet scenario_snapshot)
    [[("Total Cash From Operating Activities", nan)]]
    (info scenario_snapshot).

(** A balance sheet whose total assets are reported as 0. *)
Definition no_assets_snapshot : Snapshot :=
  mkSnapshot rising_history
    (financials scenario_snapshot)
    [[("Total Assets", 0); ("Total Stockholder Equity", 400);
      ("Total Debt", 300)]]
    (cash_flow scenario_snapshot) (info scenario_snapshot).

(** A fitted scaler: it transforms, and has no [predict_proba]. *)
Definition scaler_object : pyobj :=
  OObject 1 (mkCapabilities true (Some (fun X => X)) None None).

(** An estimator that predicts labels and has no [predict_proba]. *)
Definition label_only_estimator : pyobj :=
  OObject 2 (mkCapabilities true None (Some (fun _ => 1%Z)) None).

(** The legacy dict-wrapped pickle, holding that estimator under
    ["final_model"]. *)
Definition legacy_pickle : pyobj :=
  ODict [("final_model", label_only_estimator); ("scaler", scaler_object)].

Definition legacy_env : LoadEnv :=
  mkLoadEnv (Some (Ok legacy_pickle)) (Some (Ok scaler_object))
            (fun _ => Raise TypeError).

End Samples.

(* ================================================================== *)
(** * Vocabulary of the statements *)
(* ================================================================== *)

(** A boolean test for the absence of repetitions. *)
Fixpoint nodupb (l : list string) : bool :=
  match l with
  | [] => true
  | x :: l' => negb (existsb (String.eqb x) l') && nodupb l'
  end.

(** A computation that does not end in [ZeroDivisionError]. *)
Definition no_zdiv {A : Type} (c : py A) : Prop := c <> Raise ZeroDivisionError.

(** A float, or the integer 0: what every figure is when the statements
    hold floats and a default is the literal [0]. *)
Definition float_or_zero (v : pyval) : bool :=
  match v with
  | PFloat _ => true
  | PInt n => (n =? 0)%Z
  | PNone => false
  end.

(** Every figure read from the statements is a float or the integer 0. *)
Definition plain_figures (f : Fundamentals) : Prop :=
  float_or_zero (assets f) = true /\ float_or_zero (equity f) = true /\
  float_or_zero (curr_a f) = true /\ float_or_zero (curr_l f) = true /\
  float_or_zero (retained f) = true /\ float_or_zero (debt f) = true /\
  float_or_zero (net_inc f) = true /\ float_or_zero (revenue f) = true /\
  float_or_zero (ebit f) = true /\ float_or_zero (ocf f) = true /\
  float_or_zero (capex f) = true /\ float_or_zero (fcf f) = true.

(** The two defaults taken from [info] are floats, 0, or absent. *)
Definition plain_info (data : Snapshot) : Prop :=
  float_or_zero (dict_get_default (info data) "totalAssets" (PInt 0)) = true /\
  float_or_zero
    (dict_get_default (info data) "totalStockholderEquity" (PInt 0)) = true.

(** An [int] or a [float]. *)
Definition is_number (v : pyval) : bool :=
  match v with PNone => false | _ => true end.

(** Every value of the vector is a finite float. *)
Definition all_finite_floats (d : Metrics) : Prop :=
  Forall (fun v => exists f, v = PFloat f /\ F64.is_finite f = true) (values d).

(** The features computed from the three statements. *)
Definition FINANCIAL_FEATURES : list string :=
  dict_get_default FEATURE_CATEGORIES "Financial Health" [].

(** The fields that precede the feature cells in the report. *)
Definition REPORT_FIELDS : list string :=
  ["Company"; "Ticker"; "Country"; "Sector"; "Period"; "Date"; "Result";
   "Probability"; "Risk Level"].

(** The report row of the end-to-end scenario. *)
Definition scenario_row (d : Metrics) : dict cell :=
  report_row "Almarai" "2280.SR" "Saudi Arabia" "Food & Beverages" "1 Year"
             Samples.today 1 0.62%float High d.

(** The positions, in canonical order, of the features listed under a
    category. *)
Definition canonical_positions (cat : string) : list nat :=
  filter (fun i => existsb (String.eqb cat)
                     (categories_of (nth i SELECTED_FEATURES EmptyString)))
         (seq 0 (List.length SELECTED_FEATURES)).

(** Two lists of positions without repetition that hold the same
    positions. *)
Fixpoint nodup_nat (l : list nat) : bool :=
  match l with
  | [] => true
  | x :: l' => negb (existsb (Nat.eqb x) l') && nodup_nat l'
  end.

Definition subset_nat (l l' : list nat) : bool :=
  forallb (fun x => existsb (Nat.eqb x) l') l.

Definition same_positions (l l' : list nat) : bool :=
  nodup_nat l && nodup_nat l' && subset_nat l l' && subset_nat l' l.

(** Forty-five integer contributions: 1, 2, ..., 45. *)
Definition integer_contributions : list Z :=
  map Z.of_nat (seq 1 45).

(** Contributions of 1e16 to Market_Cap_USD, 1 to ROA_%, -1e16 to
    True_Range, 0 elsewhere. *)
Definition cancelling_contributions : list float :=
  ([1e16; 0; 0; 0; 0; 1; 0; 0; 0; 0; 0; -1e16] ++ repeat 0 33%nat)%float.

(** The RSI of a ratio of average gain to average loss. *)
Definition neutral_input (r : float) : float := (100 - 100 / (1 + r))%float.

(** The display label of the feature at a canonical position. *)
Definition label_at (i : nat) : string :=
  nth i (_labels SELECTED_FEATURES) EmptyString.

(** Two features with the same contribution 0.5 (Market_Cap_USD and Low),
    Volume at -0.25, the rest 0. *)
Definition tied_contributions : list float :=
  ([0.5; 0.5; -0.25] ++ repeat 0 42%nat)%float.

(** The canonical (stable) order, and the order with the two tied
    features swapped. *)
Definition canonical_order : list nat := seq 0 45%nat.
Definition swapped_order : list nat := (1 :: 0 :: seq 2 43)%nat.

(** The contributions of the spec's example, then zeros. *)
Definition example_contributions : list float :=
  ([0.5; -0.3; 0.2; -0.8; 0.01] ++ repeat 0 40%nat)%float.

(** The key at a position of the series being sorted. *)
Definition key (keys : list float) (i : nat) : float := nth i keys nan.

(** [i] ranks no lower than [j]: its key is at least as large. *)
Definition outranks (keys : list float) (i j : nat) : Prop :=
  PrimFloat.leb (key keys j) (key keys i) = true.

(** [i] ranks strictly higher than [j]. *)
Definition strictly_outranks (keys : list float) (i j : nat) : Prop :=
  PrimFloat.ltb (key keys j) (key keys i) = true.

Definition in_range (keys : list float) (i : nat) : Prop :=
  i < List.length keys.

(** No two positions hold equal keys. *)
Definition no_ties (keys : list float) : Prop :=
  forall i j, in_range keys i -> in_range keys j -> i <> j ->
              PrimFloat.eqb (key keys i) (key keys j) = false.


(* ================================================================== *)
(** * Locating the model artifacts: [_get_model_file] *)
(* ================================================================== *)

(** [GDRIVE_FILE_IDS] *)
Definition GDRIVE_FILE_IDS : dict string :=
  [ ("final_production_model.pkl", "1tSEO80eYnx70FrPx1rTlYKoHPtjafsUx");
    ("scaler.pkl", "1CI6vkBkh1oKdg6tGCXT-5fxccbuUcP_l");
    ("fairness_report.json", "1OCbRymlXsx1g6U5w0wqHbffLdWU_iipB") ].

Module Path.

Definition is_sep (c : ascii) : bool := Ascii.eqb c "/"%char.

Fixpoint ends_with_sep (p : string) : bool :=
  match p with
  | EmptyString => false
  | String c EmptyString => is_sep c
  | String _ rest => ends_with_sep rest
  end.

(** [os.path.join(a, b)] (POSIX): an absolute [b] replaces [a]; otherwise
    the two are joined by one separator unless [a] is empty or ends with
    one. *)
Definition join (a b : string) : string :=
  if String.prefix "/" b then b
  else if (String.eqb a EmptyString || ends_with_sep a)%bool then (a ++ b)%string
  else (a ++ "/" ++ b)%string.

(** [os.path.basename(p)] (POSIX): what follows the last separator. *)
Fixpoint basename_from (acc p : string) : string :=
  match p with
  | EmptyString => acc
  | String c rest =>
      if is_sep c then basename_from EmptyString rest
      else basename_from (acc ++ String c EmptyString)%string rest
  end.

Definition basename (p : string) : string := basename_from EmptyString p.

End Path.

(** What the page shows while the files are located. *)
Inductive message : Type :=
| Info (text : string)
| Warning (text : string).

(** The outcome of [import gdown]. *)
Inductive import_result : Type :=
| Imported
| ImportError (text : string)
| ImportRaised (text : string).

Section ModelFiles.

(** The state of the machine (file system, installed packages) and the
    operations the code performs on it.  An operation that can raise
    returns the text of the exception. *)
Variable World : Type.

(** [os.path.exists(p)] and [os.path.getsize(p)] of an existing path. *)
Variable path_exists : World -> string -> bool.
Variable getsize : World -> string -> Z.

(** [os.makedirs(p, exist_ok=True)]: the new state, or [None] when it
    raises. *)
Variable makedirs : World -> string -> option World.

(** [import gdown]; [subprocess.check_call([..., "pip", "install", "gdown",
    "-q"], ...)]; [gdown.download(url, dest, quiet=False, fuzzy=True,
    use_cookies=False)]. *)
Variable import_gdown : World -> import_result.
Variable pip_install_gdown : World -> World * option string.
Variable gdown_download : World -> string -> string -> World * option string.

(** [os.path.dirname(os.path.abspath(__file__))] *)
Variable app_dir : string.

(** [CACHE_DIR] *)
Definition CACHE_DIR : string := Path.join app_dir ".model_cache".

(** [os.path.exists(p) and os.path.getsize(p) > 0] *)
Definition present (w : World) (p : string) : bool :=
  path_exists w p && (0 <? getsize w p)%Z.

(** [_ensure_gdown()]: the state after it, and the text of the exception
    when it raises. *)
Definition _ensure_gdown (w : World) : World * option string :=
  match import_gdown w with
  | Imported => (w, None)
  | ImportRaised text => (w, Some text)
  | ImportError _ =>
      match pip_install_gdown w with
      | (w1, Some text) => (w1, Some text)
      | (w1, None) =>
          match import_gdown w1 with
          | Imported => (w1, None)
          | ImportError text | ImportRaised text => (w1, Some text)
          end
      end
  end.

Definition download_warning (dest_path text : string) : message :=
  Warning ("Download failed for `" ++ Path.basename dest_path ++ "`: " ++ text).

(** [_download_from_drive(file_id, dest_path)]: the state after the call,
    what it showed, and the flag it returns. *)
Definition _download_from_drive (w : World) (file_id dest_path : string)
  : World * list message * bool :=
  match _ensure_gdown w with
  | (w1, Some text) => (w1, [download_warning dest_path text], false)
  | (w1, None) =>
      let url := ("https://drive.google.com/uc?id=" ++ file_id
                  ++ "&export=download")%string in
      match gdown_download w1 url dest_path with
      | (w2, Some text) => (w2, [download_warning dest_path text], false)
      | (w2, None) => (w2, [], present w2 dest_path)
      end
  end.

(** [not file_id or file_id.startswith("REPLACE_WITH")] *)
Definition not_configured (file_id : string) : bool :=
  String.eqb file_id EmptyString || String.prefix "REPLACE_WITH" file_id.

(** [_get_model_file(filename)]: the state after the call, what it showed
    and the path it returns ([None] in Python is [None] here); the whole
    is [None] when [os.makedirs] raised, which the function does not
    catch. *)
Definition _get_model_file (w : World) (filename : string)
  : option (World * list message * option string) :=
  let local := Path.join app_dir filename in
  if present w local then Some (w, [], Some local)
  else
    match makedirs w CACHE_DIR with
    | None => None
    | Some w1 =>
        let cached := Path.join CACHE_DIR filename in
        if present w1 cached then Some (w1, [], Some cached)
        else
          let file_id := dict_get_default GDRIVE_FILE_IDS filename EmptyString in
          if not_configured file_id then Some (w1, [], None)
          else
            let '(w2, shown, success) := _download_from_drive w1 file_id cached in
            Some (w2,
                  Info ("Downloading `" ++ filename
                        ++ "` from Google Drive… (first run only)") :: shown,
                  if success then Some cached else None)
    end.

End ModelFiles.

(* ================================================================== *)
(** * The companies database and the selection made on the page *)
(* ================================================================== *)

(** An entry of [MENA_COMPANIES]: [{"name": ..., "ticker": ..., "sector": ...}]. *)
Record company : Type := mkCompany {
  co_name : string;
  co_ticker : string;
  co_sector : string
}.

(** [MENA_COMPANIES]: country and its companies, in the order written. *)
Definition MENA_COMPANIES : dict (list company) :=
  [
   ("Saudi Arabia",
    [
     mkCompany "Al Rajhi Bank" "1120.SR" "Banking";
     mkCompany "Saudi National Bank" "1180.SR" "Banking";
     mkCompany "Riyad Bank" "1010.SR" "Banking";
     mkCompany "Saudi Awwal Bank" "1140.SR" "Banking";
     mkCompany "Alinma Bank" "1150.SR" "Banking";
     mkCompany "Bank AlJazira" "1020.SR" "Banking";
     mkCompany "Arab National Bank" "1080.SR" "Banking";
     mkCompany "Banque Saudi Fransi" "1050.SR" "Banking";
     mkCompany "Saudi Re" "8200.SR" "Insurance";
     mkCompany "Tawuniya" "8010.SR" "Insurance";
     mkCompany "Bupa Arabia" "8210.SR" "Insurance";
     mkCompany "Medgulf" "8030.SR" "Insurance";
     mkCompany "Walaa Insurance" "8250.SR" "Insurance";
     mkCompany "Saudi Aramco" "2222.SR" "Energy";
     mkCompany "SABIC" "2010.SR" "Petrochemicals";
     mkCompany "Saudi Electricity" "5110.SR" "Utilities";
     mkCompany "ACWA Power" "2082.SR" "Utilities";
     mkCompany "Saudi Kayan" "2350.SR" "Petrochemicals";
     mkCompany "Yanbu Petrochemical" "2290.SR" "Petrochemicals";
     mkCompany "Advanced Petrochemical" "2330.SR" "Petrochemicals";
     mkCompany "Petro Rabigh" "2380.SR" "Petrochemicals";
     mkCompany "SIIG" "2250.SR" "Petrochemicals";
     mkCompany "Tasnee" "2060.SR" "Petrochemicals";
     mkCompany "Saudi International Petrochemical" "2310.SR" "Petrochemicals";
     mkCompany "Nama Chemicals" "2210.SR" "Petrochemicals";
     mkCompany "Methanol Chemicals" "2001.SR" "Petrochemicals";
     mkCompany "Saudi Aramco Base Oil" "2370.SR" "Petrochemicals";
     mkCompany "Maaden" "1211.SR" "Mining";
     mkCompany "National Industrialization" "2060.SR" "Industrial";
     mkCompany "Saudi Steel Pipe" "1320.SR" "Industrial";
     mkCompany "Filling & Packing" "2100.SR" "Industrial";
     mkCompany "Saudi Paper" "2300.SR" "Industrial";
     mkCompany "Saudi Telecom (STC)" "7010.SR" "Telecom";
     mkCompany "Mobily" "7020.SR" "Telecom";
     mkCompany "Zain Saudi" "7030.SR" "Telecom";
     mkCompany "Atheeb Telecom" "7040.SR" "Telecom";
     mkCompany "Almarai" "2280.SR" "Food & Beverages";
     mkCompany "Savola Group" "2050.SR" "Food & Beverages";
     mkCompany "Herfy Food" "6002.SR" "Food Services";
     mkCompany "Nadec" "6010.SR" "Food & Beverages";
     mkCompany "Anaam Holding" "4061.SR" "Food & Beverages";
     mkCompany "Tanmiah Food" "6060.SR" "Food & Beverages";
     mkCompany "Halwani Bros" "6001.SR" "Food & Beverages";
     mkCompany "Jarir Marketing" "4190.SR" "Retail";
     mkCompany "Extra Stores" "4003.SR" "Retail";
     mkCompany "Fawaz Alhokair" "4240.SR" "Retail";
     mkCompany "Al Othaim Markets" "4001.SR" "Retail";
     mkCompany "Arabian Centres" "4321.SR" "Retail";
     mkCompany "Bindawood Holding" "4161.SR" "Retail";
     mkCompany "Mouwasat Medical" "4002.SR" "Healthcare";
     mkCompany "Dallah Healthcare" "4004.SR" "Healthcare";
     mkCompany "Dr Sulaiman Al Habib" "4013.SR" "Healthcare";
     mkCompany "Nahdi Medical" "4164.SR" "Healthcare";
     mkCompany "Dar Al Arkan" "4320.SR" "Real Estate";
     mkCompany "Emaar Economic City" "4220.SR" "Real Estate";
     mkCompany "Jabal Omar" "4250.SR" "Real Estate";
     mkCompany "Retal Urban" "4322.SR" "Real Estate";
     mkCompany "Taiba Holding" "4090.SR" "Real Estate";
     mkCompany "Saudi Real Estate" "4020.SR" "Real Estate";
     mkCompany "Saudi Cement" "3020.SR" "Cement";
     mkCompany "Yamama Cement" "3030.SR" "Cement";
     mkCompany "Qassim Cement" "3040.SR" "Cement";
     mkCompany "Yanbu Cement" "3060.SR" "Cement";
     mkCompany "Saudi Oger" "4146.SR" "Construction";
     mkCompany "Astra Industrial" "1212.SR" "Construction";
     mkCompany "Bahri" "4030.SR" "Transportation";
     mkCompany "Saudi Airlines Catering" "6004.SR" "Services";
     mkCompany "SAPTCO" "4031.SR" "Transportation"
    ]);
   ("Qatar",
    [
     mkCompany "Qatar National Bank" "QNBK.QA" "Banking";
     mkCompany "Qatar Islamic Bank" "QIBK.QA" "Banking";
     mkCompany "Commercial Bank Qatar" "CBQK.QA" "Banking";
     mkCompany "Doha Bank" "DHBK.QA" "Banking";
     mkCompany "Masraf Al Rayan" "MARK.QA" "Banking";
     mkCompany "Qatar International Islamic Bank" "QIIK.QA" "Banking";
     mkCompany "Ahli Bank" "ABQK.QA" "Banking";
     mkCompany "Qatar Insurance" "QATI.QA" "Insurance";
     mkCompany "Qatar General Insurance" "QGRI.QA" "Insurance";
     mkCompany "Industries Qatar" "IQCD.QA" "Industrial";
     mkCompany "Qatar Fuel (Woqod)" "QFLS.QA" "Energy";
     mkCompany "Nakilat" "QGTS.QA" "Transportation";
     mkCompany "Qatar Electricity & Water" "QEWS.QA" "Utilities";
     mkCompany "Qatar Aluminum" "QAMC.QA" "Industrial";
     mkCompany "Gulf International Services" "GISS.QA" "Industrial";
     mkCompany "Ooredoo" "ORDS.QA" "Telecom";
     mkCompany "Vodafone Qatar" "VFQS.QA" "Telecom";
     mkCompany "Barwa Real Estate" "BRES.QA" "Real Estate";
     mkCompany "Ezdan Holding" "ERES.QA" "Real Estate";
     mkCompany "UDC" "UDCD.QA" "Real Estate";
     mkCompany "Qatari Investors Group" "QIGD.QA" "Real Estate";
     mkCompany "Widam Food" "WDAM.QA" "Food & Beverages";
     mkCompany "Salam International" "SIIS.QA" "Services"
    ]);
   ("Kuwait",
    [
     mkCompany "National Bank of Kuwait" "NBK.KW" "Banking";
     mkCompany "Boubyan Bank" "BOUBYAN.KW" "Banking";
     mkCompany "Gulf Bank" "GBK.KW" "Banking";
     mkCompany "Burgan Bank" "BURG.KW" "Banking";
     mkCompany "Commercial Bank Kuwait" "CBK.KW" "Banking";
     mkCompany "Kuwait International Bank" "KIB.KW" "Banking";
     mkCompany "Kuwait Projects Company (KIPCO)" "KPROJ.KW" "Investment";
     mkCompany "Zain Kuwait" "ZAIN.KW" "Telecom";
     mkCompany "Ooredoo Kuwait" "OOREDOO.KW" "Telecom";
     mkCompany "STC Kuwait" "STC.KW" "Telecom";
     mkCompany "Americana Group" "FOOD.KW" "Food & Beverages";
     mkCompany "National Industries Group" "NIND.KW" "Industrial";
     mkCompany "Kuwait Cement" "KCEM.KW" "Construction Materials";
     mkCompany "Kuwait Real Estate" "KRE.KW" "Real Estate";
     mkCompany "Sokouk Holding" "SOKOUK.KW" "Real Estate"
    ]);
   ("Egypt",
    [
     mkCompany "Commercial International Bank" "COMI.CA" "Banking";
     mkCompany "Abu Dhabi Islamic Bank Egypt" "ADIB.CA" "Banking";
     mkCompany "Credit Agricole Egypt" "CIEB.CA" "Banking";
     mkCompany "Egyptian Gulf Bank" "EGBE.CA" "Banking";
     mkCompany "Telecom Egypt" "ETEL.CA" "Telecom";
     mkCompany "Eastern Company" "EAST.CA" "Consumer Goods";
     mkCompany "Juhayna Food" "JUFO.CA" "Food & Beverages";
     mkCompany "Edita Food" "EFID.CA" "Food & Beverages";
     mkCompany "Arabian Food Industries (Domty)" "DOMT.CA" "Food & Beverages";
     mkCompany "Cairo Poultry" "POUL.CA" "Food & Beverages";
     mkCompany "Ismailia Misr Poultry" "ISPH.CA" "Food & Beverages";
     mkCompany "Oriental Weavers" "ORWE.CA" "Manufacturing";
     mkCompany "Egyptian Iron & Steel" "ESRS.CA" "Manufacturing";
     mkCompany "Talaat Moustafa" "TMGH.CA" "Real Estate";
     mkCompany "Palm Hills" "PHDC.CA" "Real Estate";
     mkCompany "Sixth of October" "OCDI.CA" "Real Estate";
     mkCompany "Orascom Development" "ORAS.CA" "Real Estate";
     mkCompany "Suez Cement" "SUCE.CA" "Cement";
     mkCompany "Arabian Cement" "ARCC.CA" "Cement";
     mkCompany "Sinai Cement" "SCEM.CA" "Cement";
     mkCompany "Alexandria Mineral Oils (AMOC)" "AMOC.CA" "Petrochemicals";
     mkCompany "Sidi Kerir Petrochemicals" "SKPC.CA" "Petrochemicals";
     mkCompany "Fawry" "FWRY.CA" "Technology";
     mkCompany "e-finance" "EFIH.CA" "Technology";
     mkCompany "Raya Contact Center" "RAYA.CA" "Technology"
    ]);
   ("Bahrain",
    [
     mkCompany "National Bank of Bahrain" "NBB.BH" "Banking";
     mkCompany "BBK" "BBK.BH" "Banking";
     mkCompany "Al Salam Bank" "SALAM.BH" "Banking";
     mkCompany "Ithmaar Bank" "ITHMR.BH" "Banking";
     mkCompany "Bahrain Islamic Bank" "BISB.BH" "Banking";
     mkCompany "Investcorp" "INVCORP.BH" "Investment";
     mkCompany "GFH Financial" "GFH.BH" "Investment";
     mkCompany "Aluminium Bahrain (Alba)" "ALBH.BH" "Manufacturing";
     mkCompany "Zain Bahrain" "ZAINBH.BH" "Telecom";
     mkCompany "Seef Properties" "SEEF.BH" "Real Estate";
     mkCompany "Bahrain Duty Free" "DUTYF.BH" "Retail"
    ])
  ].

Module Str.

(** [sorted(set(xs))] on strings: every distinct string once, in
    ascending order (code point by code point, a proper prefix first). *)
Fixpoint insert_new (s : string) (l : list string) : list string :=
  match l with
  | [] => [s]
  | x :: rest =>
      match String.compare s x with
      | Lt => s :: l
      | Eq => l
      | Gt => x :: insert_new s rest
      end
  end.

Definition sorted_set (xs : list string) : list string :=
  fold_right insert_new [] xs.

(** The comparison of two lists of strings, as Python compares lists. *)
Fixpoint compare_lists (a b : list string) : comparison :=
  match a, b with
  | [], [] => Eq
  | [], _ :: _ => Lt
  | _ :: _, [] => Gt
  | x :: a', y :: b' =>
      match String.compare x y with
      | Eq => compare_lists a' b'
      | c => c
      end
  end.

(** The comparison of two items [(key, names)], as Python compares
    tuples. *)
Definition compare_items (a b : string * list string) : comparison :=
  match String.compare (fst a) (fst b) with
  | Eq => compare_lists (snd a) (snd b)
  | c => c
  end.

(** [sorted(items)]: a stable sort in ascending order. *)
Fixpoint insert_item (a : string * list string)
    (l : list (string * list string)) : list (string * list string) :=
  match l with
  | [] => [a]
  | x :: rest =>
      match compare_items a x with
      | Lt => a :: l
      | _ => x :: insert_item a rest
      end
  end.

Definition sorted_items (items : list (string * list string))
  : list (string * list string) :=
  fold_left (fun acc a => insert_item a acc) items [].

(** [s.replace(old, new)] for single characters. *)
Fixpoint replace_char (old new : ascii) (s : string) : string :=
  match s with
  | EmptyString => EmptyString
  | String c rest =>
      String (if Ascii.eqb c old then new else c) (replace_char old new rest)
  end.

(** [c in s] for a character. *)
Fixpoint contains_char (c : ascii) (s : string) : bool :=
  match s with
  | EmptyString => false
  | String c' rest => Ascii.eqb c' c || contains_char c rest
  end.

End Str.

(** Strictly ascending order of strings. *)
Definition str_lt (a b : string) : Prop := String.compare a b = Lt.

Section CompanySelection.

(** [all_co = MENA_COMPANIES[country]] *)
Variable all_co : list company.

(** [sectors = ["All Sectors"] + sorted(set(c["sector"] for c in all_co))] *)
Definition sectors : list string :=
  "All Sectors" :: Str.sorted_set (map co_sector all_co).

(** [filtered = all_co if sel_sector == "All Sectors"
               else [c for c in all_co if c["sector"] == sel_sector]] *)
Definition filtered (sel_sector : string) : list company :=
  if String.eqb sel_sector "All Sectors" then all_co
  else filter (fun c => String.eqb (co_sector c) sel_sector) all_co.

(** The options of the company box: [[c["name"] for c in filtered]]. *)
Definition company_options (sel_sector : string) : list string :=
  map co_name (filtered sel_sector).

(** [co_info = next(c for c in filtered if c["name"] == sel_name)];
    [None] stands for the StopIteration raised when there is none. *)
Definition co_info (sel_sector sel_name : string) : option company :=
  find (fun c => String.eqb (co_name c) sel_name) (filtered sel_sector).

End CompanySelection.

(** [grp.setdefault(sec, []).append(name)] *)
Definition setdefault_append (grp : dict (list string)) (sec name : string)
  : dict (list string) :=
  match dict_get grp sec with
  | Some names => dict_set grp sec (names ++ [name])
  | None => dict_set grp sec [name]
  end.

(** [grp = {}; for c in comps: grp.setdefault(c["sector"], []).append(c["name"])] *)
Definition group_by_sector (comps : list company) : dict (list string) :=
  fold_left (fun grp c => setdefault_append grp (co_sector c) (co_name c))
            comps [].

(** The sections of a country's expander on the coverage page:
    [sorted(grp.items())]. *)
Definition coverage_groups (comps : list company)
  : list (string * list string) :=
  Str.sorted_items (group_by_sector comps).

(** The companies of a sector, in the order of the database. *)
Definition names_in (sec : string) (comps : list company) : list string :=
  map co_name (filter (fun c => String.eqb (co_sector c) sec) comps).

(** The name of the downloaded report:
    [f"{sel_name.replace(' ', '_')}_distress_report.csv"]. *)
Definition report_file_name (sel_name : string) : string :=
  (Str.replace_char " " "_" sel_name ++ "_distress_report.csv")%string.

(** The caption of the fairness report: [ts[:19].replace('T', ' ')], for
    a time stamp of one-byte characters (an ISO time stamp is). *)
Definition report_caption (ts : string) : string :=
  Str.replace_char "T" " " (substring 0 19 ts).

(* ================================================================== *)
(** * The gauges and the analysis run of [main] *)
(* ================================================================== *)

(** What [create_gauge] fixes of the figure: the value shown, the title,
    the colour of the bar and the background steps
    [{"range": [lo, hi], "color": c}]. *)
Record Gauge : Type := mkGauge {
  g_value : float;
  g_title : string;
  g_bar : string;
  g_steps : list (float * float * string)
}.

(** [colour = "#27ae60" if value < 33 else "#f39c12" if value < 66
              else "#c0392b"] *)
Definition gauge_colour (value : float) : string :=
  if (value <? 33)%float then "#27ae60"
  else if (value <? 66)%float then "#f39c12"
  else "#c0392b".

Definition create_gauge (value : float) (title : string) : Gauge :=
  mkGauge value title (gauge_colour value)
    [ (0, 33, "#eafaf1"); (33, 66, "#fef9e7"); (66, 100, "#fdedec") ]%float.

(** The bar colour that belongs to a background colour: green on pale
    green, amber on pale amber, red on pale red. *)
Definition bar_on (background : string) : string :=
  if String.eqb background "#eafaf1" then "#27ae60"
  else if String.eqb background "#fef9e7" then "#f39c12"
  else "#c0392b".

(** A [yf.Ticker]: what reading each attribute gives or raises. *)
Record Stock : Type := mkStock {
  s_history : string -> py History;
  s_financials : py Statement;
  s_balance_sheet : py Statement;
  s_cashflow : py Statement;
  s_info : py (dict pyval)
}.

Section Analysis.

(** [yf.Ticker(ticker)] *)
Variable yf_Ticker : string -> py Stock.

(** [fetch_company_data(ticker, period)] (the cache decorator aside):
    [None] when the history is empty or anything raised. *)
Definition fetch_company_data (ticker period : string) : option Snapshot :=
  match
    (stock <- yf_Ticker ticker ;;
     hist <- s_history stock period ;;
     if Nat.eqb (List.length hist) 0 then Ok None
     else
       fin <- s_financials stock ;;
       bs <- s_balance_sheet stock ;;
       cf <- s_cashflow stock ;;
       info <- s_info stock ;;
       Ok (Some (mkSnapshot hist fin bs cf info)))
  with
  | Ok r => r
  | Raise _ => None
  end.

(** How the run started by "Run Analysis" ends, up to the prediction. *)
Inductive analysis : Type :=
| CouldNotRetrieve
| MetricsFailed
| PredictionRaised (e : exn)
| Assessed (metrics : Metrics) (pred : Z) (prob : float) (risk : risk_level).

(** The steps of [main] from [fetch_company_data] to [make_prediction]:
    [if not data or len(data["history"]) == 0: ... st.stop()],
    [if not metrics: ... st.stop()]; an exception of [make_prediction] is
    not caught. *)
Definition run_analysis (today : datetime) (model scaler : pyobj)
    (ticker period : string) : analysis :=
  match fetch_company_data ticker period with
  | None => CouldNotRetrieve
  | Some data =>
      if Nat.eqb (List.length (history data)) 0 then CouldNotRetrieve
      else
        match calculate_all_metrics data today with
        | None => MetricsFailed
        | Some metrics =>
            if Nat.eqb (List.length metrics) 0 then MetricsFailed
            else
              match make_prediction model scaler metrics with
              | Raise e => PredictionRaised e
              | Ok (pred, prob, risk) => Assessed metrics pred prob risk
              end
        end
  end.

End Analysis.

(** A line of the price chart: its legend name, its colour and its
    points, one per row of the history. *)
Record Trace : Type := mkTrace {
  tr_name : string;
  tr_colour : string;
  tr_y : list float
}.

(** The traces [create_price_chart] adds, in order: the closing price, the
    50-day average and, [if len(hist) >= 200], the 200-day average. *)
Definition create_price_chart (hist : History) (name : string) : list Trace :=
  mkTrace "Closing Price" "#1e3c72" (closes hist)
  :: mkTrace "50-Day Average" "#e67e22" (Pd.rolling_mean 50 (closes hist))
  :: (if (200 <=? List.length hist)%nat
      then [mkTrace "200-Day Average" "#c0392b"
                    (Pd.rolling_mean 200 (closes hist))]
      else []).

(* ================================================================== *)
(** * [render_explanation]: the signal chips *)
(* ================================================================== *)

Module PyCmp.

(** The comparison of an [int] with a float, made exactly (no rounding of
    the int): NaN compares with nothing. *)
Definition Z_SF_compare (z : Z) (f : spec_float) : option comparison :=
  match f with
  | S754_nan => None
  | S754_infinity s => Some (if s then Gt else Lt)
  | S754_zero _ => Some (z ?= 0)%Z
  | S754_finite s m e =>
      let n := if s then Z.neg m else Z.pos m in
      Some (if (0 <=? e)%Z then (z ?= n * 2 ^ e)%Z
            else (z * 2 ^ (- e) ?= n)%Z)
  end.

(** The order of two Python numbers; comparing [None] raises. *)
Definition cmp (a b : pyval) : py (option comparison) :=
  match a, b with
  | PNone, _ | _, PNone => Raise TypeError
  | PInt x, PInt y => Ok (Some (x ?= y)%Z)
  | PFloat x, PFloat y => Ok (SFcompare (Prim2SF x) (Prim2SF y))
  | PInt x, PFloat y => Ok (Z_SF_compare x (Prim2SF y))
  | PFloat x, PInt y => Ok (option_map CompOpp (Z_SF_compare y (Prim2SF x)))
  end.

(** [a > b] and [a < b] *)
Definition gt (a b : pyval) : py bool :=
  c <- cmp a b ;; Ok (match c with Some Gt => true | _ => false end).

Definition lt (a b : pyval) : py bool :=
  c <- cmp a b ;; Ok (match c with Some Lt => true | _ => false end).

(** [a >= b] and [a <= b] *)
Definition ge (a b : pyval) : py bool :=
  c <- cmp a b ;; Ok (match c with Some Gt | Some Eq => true | _ => false end).

Definition le (a b : pyval) : py bool :=
  c <- cmp a b ;; Ok (match c with Some Lt | Some Eq => true | _ => false end).

(** [a == b]; [None] equals no number. *)
Definition eq (a b : pyval) : bool :=
  match cmp a b with
  | Ok (Some Eq) => true
  | _ => false
  end.

(** [f"{v:.{nd}f}"]: an [int] is converted to float first; [None] has no
    such format. *)
Definition format_fixed (nd : nat) (v : pyval) : py string :=
  x <- Py.to_float v ;; Ok (Fmt.format_fixed nd x).

End PyCmp.

(** A chip: its class and its label. *)
Definition chip : Type := (string * string)%type.

(** The list [chips] of [render_explanation], built from six indicators of
    the vector. *)
Definition explanation_chips (metrics : Metrics) : py (list chip) :=
  let z := dict_get_default metrics "Altman_Z_Score" (PInt 0) in
  let roe := dict_get_default metrics "ROE_%" (PInt 0) in
  let de := dict_get_default metrics "Debt_to_Equity" (PInt 0) in
  let ocf := dict_get_default metrics "Operating Cf_M" (PInt 0) in
  let rsi := dict_get_default metrics "RSI_14" (PInt 50) in
  let dc := dict_get_default metrics "Death_Cross" (PInt 0) in
  c_z <- (strong <- PyCmp.gt z (PFloat 2.99%float) ;;
          if strong
          then (t <- PyCmp.format_fixed 2 z ;;
                Ok ("chip-g", ("Financial Health Score: " ++ t ++ "  —  Strong")%string))
          else
            (caution <- PyCmp.gt z (PFloat 1.81%float) ;;
             t <- PyCmp.format_fixed 2 z ;;
             Ok (if caution
                 then ("chip-a", ("Financial Health Score: " ++ t ++ "  —  Caution")%string)
                 else ("chip-r", ("Financial Health Score: " ++ t ++ "  —  Weak")%string)))) ;;
  c_roe <- (strong <- PyCmp.gt roe (PInt 15) ;;
            if strong
            then (t <- PyCmp.format_fixed 1 roe ;;
                  Ok ("chip-g", ("Return on Equity: " ++ t ++ "%  —  Strong")%string))
            else
              (moderate <- PyCmp.gt roe (PInt 5) ;;
               t <- PyCmp.format_fixed 1 roe ;;
               Ok (if moderate
                   then ("chip-a", ("Return on Equity: " ++ t ++ "%  —  Moderate")%string)
                   else ("chip-r", ("Return on Equity: " ++ t ++ "%  —  Low")%string)))) ;;
  c_de <- (low <- PyCmp.lt de (PFloat 1.0%float) ;;
           if low
           then (t <- PyCmp.format_fixed 2 de ;;
                 Ok ("chip-g", ("Debt Level: " ++ t ++ "x  —  Low")%string))
           else
             (moderate <- PyCmp.lt de (PFloat 2.5%float) ;;
              t <- PyCmp.format_fixed 2 de ;;
              Ok (if moderate
                  then ("chip-a", ("Debt Level: " ++ t ++ "x  —  Moderate")%string)
                  else ("chip-r", ("Debt Level: " ++ t ++ "x  —  High")%string)))) ;;
  c_ocf <- (positive <- PyCmp.gt ocf (PInt 0) ;;
            t <- PyCmp.format_fixed 0 ocf ;;
            Ok (if positive
                then ("chip-g", ("Cash Generation: +$" ++ t ++ "M")%string)
                else ("chip-r", ("Cash Generation: $" ++ t ++ "M")%string))) ;;
  let c_dc := if PyCmp.eq dc (PInt 1)
              then [("chip-r", "Bearish Price Signal Active")]
              else [] in
  c_rsi <- (low <- PyCmp.lt rsi (PInt 35) ;;
            if low
            then (t <- PyCmp.format_fixed 0 rsi ;;
                  Ok ("chip-a", ("Price Momentum: " ++ t ++ "  —  Low")%string))
            else
              (elevated <- PyCmp.gt rsi (PInt 65) ;;
               t <- PyCmp.format_fixed 0 rsi ;;
               Ok (if elevated
                   then ("chip-a", ("Price Momentum: " ++ t ++ "  —  Elevated")%string)
                   else ("chip-g", ("Price Momentum: " ++ t ++ "  —  Stable")%string)))) ;;
  Ok ([c_z; c_roe; c_de; c_ocf] ++ c_dc ++ [c_rsi]).

(** A float, or one of the integer defaults 0 and 50: what the indicators
    read by the chips are in an extracted vector. *)
Definition indicator_value (v : pyval) : bool :=
  match v with
  | PFloat _ => true
  | PInt n => (n =? 0)%Z || (n =? 50)%Z
  | PNone => false
  end.

(** The chip shown while the 50-day average is below the 200-day one. *)
Definition bearish_chip : chip := ("chip-r", "Bearish Price Signal Active").

(* ================================================================== *)
(** * [render_explanation]: the three paragraphs *)
(* ================================================================== *)

(** A paragraph is built by [+] from literals, formatted values and
    conditional expressions; it is kept as the list of its pieces, in
    order, and its text is their concatenation. *)
Definition lit (s : string) : py (list string) := Ok [s].

(** [f"{v:.{nd}f}"] as a piece. *)
Definition fmt (nd : nat) (v : pyval) : py (list string) :=
  t <- PyCmp.format_fixed nd v ;; Ok [t].

(** [a + b]: [a] is evaluated first. *)
Definition cat (a b : py (list string)) : py (list string) :=
  x <- a ;; y <- b ;; Ok (x ++ y).

Notation "a +++ b" := (cat a b) (at level 50, left associativity).

(** [a if test else b] *)
Definition ifelse {A : Type} (test : py bool) (a b : py A) : py A :=
  c <- test ;; if c then a else b.

(** [p and q] on two tests, and the chained comparison [a <= x <= b]: the
    second is evaluated only when the first holds. *)
Definition and_then (p q : py bool) : py bool :=
  c <- p ;; if c then q else Ok false.

(** The text of a paragraph. *)
Definition text_of (pieces : list string) : string :=
  String.concat EmptyString pieces.

Section Paragraphs.

(** The arguments [name] and [period_label], [pct = f"{prob:.1%}"] and the
    values read from [metrics]. *)
Variables name period_label pct : string.
Variables z roe npm de ocf fcf vol roc dc eq_r : pyval.

(** [summ] of the critical branch. *)
Definition critical_summ : py (list string) :=
  lit "The analysis assigns a **"
  +++ lit pct
  +++ lit "** probability of financial distress to **"
  +++ lit name
  +++ lit "** over the **"
  +++ lit period_label
  +++ lit "** period. This is the highest severity classification, indicating serious financial strain that requires prompt action.".

(** [fin] of the critical branch. *)
Definition critical_fin : py (list string) :=
  lit "The overall financial health score stands at **"
  +++ fmt 2 z
  +++ lit "** "
  +++ ifelse (PyCmp.le z (PFloat 1.81%float))
    (lit "— placing it in a zone historically associated with serious financial stress. ")
    (lit "— sitting in an uncertain middle zone where risk is elevated. ")
  +++ lit "Return on equity of **"
  +++ fmt 1 roe
  +++ lit "%** against a net profit margin of **"
  +++ fmt 1 npm
  +++ lit "%** "
  +++ ifelse (PyCmp.lt roe (PInt 0))
    (lit "signals the company is eroding shareholder value. ")
    (lit "reflects fragile profitability with no buffer for setbacks. ")
  +++ lit "Cash generation from operations is **$"
  +++ fmt 0 ocf
  +++ lit "M** — "
  +++ ifelse (PyCmp.le ocf (PInt 0))
    (lit "the company is burning through cash, which is not sustainable. ")
    (lit "positive but insufficient to offset the other distress signals. ")
  +++ lit "Debt stands at **"
  +++ fmt 2 de
  +++ lit "x** equity, "
  +++ ifelse (PyCmp.gt de (PFloat 2.5%float))
    (lit "making it highly dependent on external financing.")
    (lit "adding financial pressure to an already stressed picture.").

(** [mkt] of the critical branch. *)
Definition critical_mkt : py (list string) :=
  lit "Market behaviour supports the concern. Annualised price volatility of **"
  +++ fmt 1 vol
  +++ lit "%** "
  +++ ifelse (PyCmp.gt vol (PInt 60))
    (lit "indicates extreme instability. ")
    (ifelse (PyCmp.gt vol (PInt 30))
       (lit "reflects elevated price behaviour. ")
       (lit "is moderate but consistent with underlying stress. "))
  +++ ifelse (Ok (PyCmp.eq dc (PInt 1)))
    (lit "A bearish price signal is currently active. ")
    (lit EmptyString)
  +++ lit "Short-term price momentum stands at **"
  +++ fmt 1 roc
  +++ lit "%** over the past month"
  +++ ifelse (PyCmp.lt roc (PInt (-10)))
    (lit ", pointing to accelerating deterioration.")
    (ifelse (PyCmp.lt roc (PInt 0))
       (lit ", showing continued price decline.")
       (lit ", showing some resilience despite the broader stress signals.")).

(** [summ] of the high branch. *)
Definition high_summ : py (list string) :=
  lit "**"
  +++ lit name
  +++ lit "** has been flagged as financially distressed, with a **"
  +++ lit pct
  +++ lit "** probability of distress over the **"
  +++ lit period_label
  +++ lit "** period. This signals meaningful financial weakness that warrants close and proactive attention.".

(** [fin] of the high branch. *)
Definition high_fin : py (list string) :=
  lit "The financial health score of **"
  +++ fmt 2 z
  +++ lit "** "
  +++ ifelse (PyCmp.le z (PFloat 1.81%float))
    (lit "is in the distress zone, indicating structural weaknesses. ")
    (lit "sits in an uncertain range — concerning alongside other signals. ")
  +++ lit "Return on equity of **"
  +++ fmt 1 roe
  +++ lit "%** and net profit margin of **"
  +++ fmt 1 npm
  +++ lit "%** indicate "
  +++ ifelse (PyCmp.lt roe (PInt 5))
    (lit "declining earnings quality. ")
    (lit "profitability that has weakened but not collapsed. ")
  +++ lit "Operating cash generation of **$"
  +++ fmt 0 ocf
  +++ lit "M** — "
  +++ ifelse (PyCmp.lt ocf (PInt 0))
    (lit "insufficient to service debt or invest at the required level. ")
    (lit "positive, but the combination with higher debt still raises concern. ")
  +++ lit "Equity ratio of **"
  +++ fmt 2 eq_r
  +++ lit "** suggests "
  +++ ifelse (PyCmp.lt eq_r (PFloat 0.3%float))
    (lit "limited financial flexibility.")
    (lit "a moderate equity base.").

(** [mkt] of the high branch. *)
Definition high_mkt : py (list string) :=
  lit "Market signals are broadly consistent with the financial picture. Volatility of **"
  +++ fmt 1 vol
  +++ lit "%** "
  +++ ifelse (PyCmp.gt vol (PInt 30))
    (lit "is elevated. ")
    (lit "is moderate. ")
  +++ ifelse (Ok (PyCmp.eq dc (PInt 1)))
    (lit "A bearish price signal is active. ")
    (lit "No major bearish price signals are currently active. ")
  +++ lit "Price momentum over the past month is **"
  +++ fmt 1 roc
  +++ lit "%**, "
  +++ ifelse (PyCmp.lt roc (PInt 0))
    (lit "indicating continued downward pressure.")
    (lit "showing some near-term stability.").

(** [summ] of the medium branch. *)
Definition medium_summ : py (list string) :=
  lit "**"
  +++ lit name
  +++ lit "** is not currently classified as distressed, but the analysis assigns a **"
  +++ lit pct
  +++ lit "** probability of distress over the **"
  +++ lit period_label
  +++ lit "** period. The company appears stable today, but early-warning signals recommend ongoing observation.".

(** [fin] of the medium branch. *)
Definition medium_fin : py (list string) :=
  lit "The financial health score of **"
  +++ fmt 2 z
  +++ lit "** "
  +++ ifelse (PyCmp.gt z (PFloat 2.99%float))
    (lit "is comfortably above the safe threshold. ")
    (lit "sits in an intermediate range — no immediate red flags but some stress to watch. ")
  +++ lit "Return on equity of **"
  +++ fmt 1 roe
  +++ lit "%** with net profit margin of **"
  +++ fmt 1 npm
  +++ lit "%** are "
  +++ ifelse (and_then (PyCmp.le (PInt 5) roe) (PyCmp.le roe (PInt 15)))
    (lit "adequate but not strong enough to cushion against any earnings shock. ")
    (lit "on the weaker side. ")
  +++ lit "Operating cash flow of **$"
  +++ fmt 0 ocf
  +++ lit "M** and free cash flow of **$"
  +++ fmt 0 fcf
  +++ lit "M** "
  +++ ifelse (and_then (PyCmp.gt ocf (PInt 0)) (PyCmp.gt fcf (PInt 0)))
    (lit "are both positive — providing some financial headroom.")
    (lit "are under some pressure, worth watching.").

(** [mkt] of the medium branch. *)
Definition medium_mkt : py (list string) :=
  lit "Market signals are mixed. Price volatility of **"
  +++ fmt 1 vol
  +++ lit "%** "
  +++ ifelse (PyCmp.gt vol (PInt 30))
    (lit "is elevated. ")
    (lit "is contained. ")
  +++ lit "Price momentum over the past month is **"
  +++ fmt 1 roc
  +++ lit "%**, "
  +++ ifelse (PyCmp.lt roc (PInt 0))
    (lit "showing a modest downward drift. ")
    (lit "showing positive momentum. ")
  +++ ifelse (Ok (PyCmp.eq dc (PInt 0)))
    (lit "No bearish price signals are currently active.")
    (lit "A bearish price signal has appeared.").

(** [summ] of the low branch. *)
Definition low_summ : py (list string) :=
  lit "**"
  +++ lit name
  +++ lit "** is in good financial health. The analysis assigns only a **"
  +++ lit pct
  +++ lit "** probability of distress over the **"
  +++ lit period_label
  +++ lit "** period — placing it firmly in the low-risk category.".

(** [fin] of the low branch. *)
Definition low_fin : py (list string) :=
  lit "The financial health score of **"
  +++ fmt 2 z
  +++ lit "** "
  +++ ifelse (PyCmp.gt z (PFloat 2.99%float))
    (lit "is comfortably above the safe threshold, reflecting a robust balance sheet. ")
    (lit "is positive and does not raise any concerns. ")
  +++ lit "Return on equity of **"
  +++ fmt 1 roe
  +++ lit "%** reflects "
  +++ ifelse (PyCmp.gt roe (PInt 15))
    (lit "strong returns for shareholders. ")
    (lit "healthy profitability. ")
  +++ lit "Net profit margin of **"
  +++ fmt 1 npm
  +++ lit "%** demonstrates solid earnings performance. "
  +++ lit "Operating cash flow of **$"
  +++ fmt 0 ocf
  +++ lit "M** and free cash flow of **$"
  +++ fmt 0 fcf
  +++ lit "M** confirm "
  +++ lit "the company is generating real cash — a key sign of sustainable financial strength. "
  +++ lit "With debt at **"
  +++ fmt 2 de
  +++ lit "x** equity, the balance sheet "
  +++ ifelse (PyCmp.lt de (PFloat 1.0%float))
    (lit "is conservatively positioned.")
    (lit "is in a manageable position.").

(** [mkt] of the low branch. *)
Definition low_mkt : py (list string) :=
  lit "Market signals are broadly positive. Price volatility of **"
  +++ fmt 1 vol
  +++ lit "%** "
  +++ ifelse (PyCmp.lt vol (PInt 20))
    (lit "is low, consistent with stable investor sentiment. ")
    (lit "is moderate and not a concern given the underlying fundamentals. ")
  +++ ifelse (Ok (PyCmp.eq dc (PInt 0)))
    (lit "No bearish price signals are active. ")
    (lit "A bearish price signal has technically appeared, but is not corroborated by the fundamentals — likely short-term noise. ")
  +++ lit "Price momentum over the past month is **"
  +++ fmt 1 roc
  +++ lit "%**"
  +++ ifelse (PyCmp.gt roc (PInt 0))
    (lit ", showing positive near-term performance.")
    (lit ", showing mild softness which is not unusual for a financially healthy company.").

(** The paragraphs [summ], [fin] and [mkt] of the branch taken. *)
Definition paragraphs_of (pred : Z) (prob : float)
  : py (list string * list string * list string) :=
  if (pred =? 1)%Z && F64.geb prob 0.7 then
    (s <- critical_summ ;; f <- critical_fin ;; m <- critical_mkt ;;
     Ok (s, f, m))
  else if (pred =? 1)%Z && F64.geb prob 0.5 then
    (s <- high_summ ;; f <- high_fin ;; m <- high_mkt ;; Ok (s, f, m))
  else if F64.geb prob 0.3 then
    (s <- medium_summ ;; f <- medium_fin ;; m <- medium_mkt ;; Ok (s, f, m))
  else
    (s <- low_summ ;; f <- low_fin ;; m <- low_mkt ;; Ok (s, f, m)).

End Paragraphs.

(** What [render_explanation] writes besides the template: the chips,
    which are built first, and the three paragraphs of the branch. *)
Definition explanation_text (name period_label : string) (pred : Z)
    (prob : float) (metrics : Metrics)
  : py (list chip * (list string * list string * list string)) :=
  let pct := Fmt.format_percent 1 prob in
  let z := dict_get_default metrics "Altman_Z_Score" (PInt 0) in
  let roe := dict_get_default metrics "ROE_%" (PInt 0) in
  let npm := dict_get_default metrics "Net_Profit_Margin_%" (PInt 0) in
  let de := dict_get_default metrics "Debt_to_Equity" (PInt 0) in
  let ocf := dict_get_default metrics "Operating Cf_M" (PInt 0) in
  let fcf := dict_get_default metrics "Free Cf_M" (PInt 0) in
  let vol := dict_get_default metrics "Volatility_20" (PInt 0) in
  let roc := dict_get_default metrics "ROC_20" (PInt 0) in
  let dc := dict_get_default metrics "Death_Cross" (PInt 0) in
  let eq_r := dict_get_default metrics "Equity_Ratio" (PInt 0) in
  chips <- explanation_chips metrics ;;
  paragraphs <- paragraphs_of name period_label pct z roe npm de ocf fcf
                              vol roc dc eq_r pred prob ;;
  Ok (chips, paragraphs).

(** A computation that returns, and one that returns a list holding a
    given piece. *)
Definition returns {A : Type} (c : py A) : Prop := exists v, c = Ok v.

Definition yields (c : py (list string)) (piece : string) : Prop :=
  exists l, c = Ok l /\ In piece l.

(* ================================================================== *)
(** * Further sample inputs *)
(* ================================================================== *)

Module Cases.
Local Open Scope float_scope.

(** A company listed three sessions ago: the statements of the scenario
    and a price history of three rows. *)
Definition recent_listing : Snapshot :=
  mkSnapshot (map Samples.bar_at [10; 9; 11])
    (financials Samples.scenario_snapshot)
    (balance_sheet Samples.scenario_snapshot)
    (cash_flow Samples.scenario_snapshot)
    (info Samples.scenario_snapshot).

(** The scenario company with a negative book equity of -400. *)
Definition negative_equity : Snapshot :=
  mkSnapshot Samples.rising_history
    (financials Samples.scenario_snapshot)
    [[("Total Assets", 1000); ("Total Stockholder Equity", -400);
      ("Total Debt", 300)]]
    (cash_flow Samples.scenario_snapshot)
    (info Samples.scenario_snapshot).

(** The scenario company with a net income of 100 on an equity of 400:
    a return on equity of 25 per cent. *)
Definition profitable : Snapshot :=
  mkSnapshot Samples.rising_history
    [[("EBIT", 150); ("Total Revenue", 900); ("Net Income", 100)]]
    (balance_sheet Samples.scenario_snapshot)
    (cash_flow Samples.scenario_snapshot)
    (info Samples.scenario_snapshot).

(** A balance sheet that lists the label "Total Assets" twice. *)
Definition repeated_label : Series :=
  [("Total Assets", 1000); ("Total Debt", 300); ("Total Assets", 1200)].

(** A cash-flow column without a "Free Cash Flow" line. *)
Definition cash_flow_lines : Series :=
  [("Total Cash From Operating Activities", 80);
   ("Capital Expenditures", -30)].

(** A data source that knows one ticker and answers with the scenario
    snapshot, and raises for every other ticker. *)
Definition scenario_source (ticker : string) : py Stock :=
  if String.eqb ticker "2280.SR"
  then Ok (mkStock (fun _ => Ok (history Samples.scenario_snapshot))
                   (Ok (financials Samples.scenario_snapshot))
                   (Ok (balance_sheet Samples.scenario_snapshot))
                   (Ok (cash_flow Samples.scenario_snapshot))
                   (Ok (info Samples.scenario_snapshot)))
  else Raise ValueError.

(** A fitted classifier: it predicts a label and a probability. *)
Definition classifier : pyobj :=
  OObject 3 (mkCapabilities true None (Some (fun _ => 1%Z))
                            (Some (fun _ => 0.62))).

(** A machine whose state is the list of its files with their sizes:
    directories can always be made, [gdown] is installed, and a download
    writes 2048 bytes to its destination. *)
Definition disk : Type := dict Z.

Definition disk_exists (w : disk) (p : string) : bool :=
  match dict_get w p with Some _ => true | None => false end.

Definition disk_getsize (w : disk) (p : string) : Z :=
  dict_get_default w p 0%Z.

Definition disk_makedirs (w : disk) (p : string) : option disk := Some w.

Definition disk_import (w : disk) : import_result := Imported.

Definition disk_pip (w : disk) : disk * option string := (w, None).

Definition disk_download (w : disk) (url dest : string)
  : disk * option string :=
  (dict_set w dest 2048%Z, None).

(** The same machine without network: every download raises. *)
Definition offline_download (w : disk) (url dest : string)
  : disk * option string :=
  (w, Some "Connection refused").

(** A deployment with an empty (0-byte) scaler next to the script and a
    good one in the cache. *)
Definition deployment : disk :=
  [ ("/app/scaler.pkl", 0%Z); ("/app/.model_cache/scaler.pkl", 913%Z) ].

End Cases.

(** The snapshot with another latest cash-flow column, and with another
    latest balance-sheet column. *)
Definition with_cash_flow (data : Snapshot) (col : Series) : Snapshot :=
  mkSnapshot (history data) (financials data) (balance_sheet data)
             (col :: List.tl (cash_flow data)) (info data).

Definition with_balance_sheet (data : Snapshot) (col : Series) : Snapshot :=
  mkSnapshot (history data) (financials data)
             (col :: List.tl (balance_sheet data)) (cash_flow data)
             (info data).

(** The labels of a column. *)
Definition labels_of (series : Series) : list string := map fst series.

(* ================================================================== *)
(** * Facts about binary64 comparison *)
(* ================================================================== *)

Module F64Facts.
Import F64.
Local Open Scope float_scope.

Lemma compare_cont_Eq (p q : positive) :
  PosDef.Pos.compare_cont Eq p q = Pos.compare p q.
Proof. reflexivity. Qed.

Lemma SFcompare_antisym (x y : spec_float) :
  SFcompare y x = option_map CompOpp (SFcompare x y).
Proof.
  destruct x as [sx|sx| |sx mx ex], y as [sy|sy| |sy my ey]; simpl;
    try reflexivity;
    try (destruct sx; reflexivity);
    try (destruct sy; reflexivity);
    try (destruct sx, sy; reflexivity).
  rewrite !compare_cont_Eq.
  destruct sx, sy; simpl; try reflexivity;
    rewrite (Z.compare_antisym ex ey);
    destruct (ex ?= ey)%Z; simpl; try reflexivity;
    rewrite (Pos.compare_antisym mx my);
    rewrite ?CompOpp_involutive; reflexivity.
Qed.

Lemma SFcompare_refl (x : spec_float) :
  SFisnan x = false -> SFcompare x x = Some Eq.
Proof.
  destruct x as [s|s| |s m e]; simpl; try discriminate; intros _.
  - reflexivity.
  - destruct s; reflexivity.
  - rewrite compare_cont_Eq, Z.compare_refl, Pos.compare_refl.
    destruct s; reflexivity.
Qed.

Lemma SFcompare_None (x y : spec_float) :
  SFcompare x y = None <-> SFisnan x = true \/ SFisnan y = true.
Proof.
  destruct x as [sx|sx| |sx mx ex], y as [sy|sy| |sy my ey]; simpl;
    split; intros H; try discriminate; auto; try (destruct H; discriminate).
Qed.

Lemma SFcompare_le_trans (x y z : spec_float) :
  le_cmp (SFcompare x y) -> le_cmp (SFcompare y z) -> le_cmp (SFcompare x z).
Proof.
  unfold le_cmp.
  destruct x as [sx|sx| |sx mx ex], y as [sy|sy| |sy my ey],
           z as [sz|sz| |sz mz ez]; simpl;
  try (intros [H|H] [H'|H']; discriminate);
  try (destruct sx; simpl; intuition congruence);
  try (destruct sy; simpl; intuition congruence);
  try (destruct sz; simpl; intuition congruence);
  try (destruct sx, sy; simpl; intuition congruence);
  try (destruct sx, sz; simpl; intuition congruence);
  try (destruct sy, sz; simpl; intuition congruence);
  try (destruct sx, sy, sz; simpl; intuition congruence).
  destruct sx, sy, sz; simpl; try (intuition congruence);
  change (PosDef.Pos.compare_cont Eq) with Pos.compare;
  destruct (Z.compare_spec ex ey), (Z.compare_spec ey ez), (Z.compare_spec ex ez);
  destruct (Pos.compare_spec mx my), (Pos.compare_spec my mz),
           (Pos.compare_spec mx mz);
  simpl; intros [G1|G1] [G2|G2]; try discriminate; auto; exfalso; subst; lia.
Qed.

Lemma isnan_spec (x : float) : isnan x = SFisnan (Prim2SF x).
Proof.
  unfold isnan. rewrite eqb_spec. unfold SFeqb.
  destruct (SFisnan (Prim2SF x)) eqn:E.
  - assert (H : SFcompare (Prim2SF x) (Prim2SF x) = None)
      by (apply SFcompare_None; auto).
    rewrite H. reflexivity.
  - rewrite SFcompare_refl by assumption. reflexivity.
Qed.

Lemma leb_le_cmp (x y : float) :
  (x <=? y) = true <-> le_cmp (SFcompare (Prim2SF x) (Prim2SF y)).
Proof.
  rewrite leb_spec. unfold SFleb, le_cmp.
  destruct (SFcompare (Prim2SF x) (Prim2SF y)) as [[ | | ]|];
    split; intros H; try reflexivity; auto; try discriminate;
    destruct H; discriminate.
Qed.

Lemma leb_trans (x y z : float) :
  (x <=? y) = true -> (y <=? z) = true -> (x <=? z) = true.
Proof.
  rewrite !leb_le_cmp. apply SFcompare_le_trans.
Qed.

Lemma leb_not_nan (x y : float) :
  (x <=? y) = true -> isnan x = false /\ isnan y = false.
Proof.
  rewrite leb_spec, !isnan_spec. unfold SFleb. intros H.
  destruct (SFisnan (Prim2SF x)) eqn:Ex, (SFisnan (Prim2SF y)) eqn:Ey; auto;
    assert (N : SFcompare (Prim2SF x) (Prim2SF y) = None)
      by (apply SFcompare_None; auto);
    rewrite N in H; discriminate.
Qed.

(** On numbers (no NaN) the order is total: [y < x] is the negation of
    [x <= y]. *)
Lemma ltb_negb_leb (x y : float) :
  isnan x = false -> isnan y = false -> (y <? x) = negb (x <=? y).
Proof.
  rewrite !isnan_spec, ltb_spec, leb_spec. unfold SFltb, SFleb. intros Hx Hy.
  rewrite (SFcompare_antisym (Prim2SF x) (Prim2SF y)).
  destruct (SFcompare (Prim2SF x) (Prim2SF y)) as [[ | | ]|] eqn:E;
    try reflexivity.
  apply SFcompare_None in E. destruct E; congruence.
Qed.

Lemma ltb_eqb_false (x y : float) :
  (x <? y) = true -> (y =? x) = false /\ (x =? y) = false.
Proof.
  rewrite ltb_spec, !eqb_spec. unfold SFltb, SFeqb.
  rewrite (SFcompare_antisym (Prim2SF x) (Prim2SF y)).
  destruct (SFcompare (Prim2SF x) (Prim2SF y)) as [[ | | ]|];
    simpl; intros H; try discriminate; auto.
Qed.

Lemma eqb_ltb_false (x y : float) :
  (x =? y) = true -> (x <? y) = false /\ (y <? x) = false.
Proof.
  rewrite !ltb_spec, eqb_spec. unfold SFltb, SFeqb.
  rewrite (SFcompare_antisym (Prim2SF x) (Prim2SF y)).
  destruct (SFcompare (Prim2SF x) (Prim2SF y)) as [[ | | ]|];
    simpl; intros H; try discriminate; auto.
Qed.

Lemma leb_not_ltb (x y : float) : (x <=? y) = true -> (y <? x) = false.
Proof.
  intros H. destruct (leb_not_nan _ _ H) as [Hx Hy].
  rewrite (ltb_negb_leb x y Hx Hy), H. reflexivity.
Qed.

Lemma leb_refl (x : float) : isnan x = false -> (x <=? x) = true.
Proof.
  rewrite isnan_spec, leb_spec. unfold SFleb. intros H.
  rewrite (SFcompare_refl _ H). reflexivity.
Qed.

Lemma leb_neq_ltb (x y : float) :
  (x <=? y) = true -> (x =? y) = false -> (x <? y) = true.
Proof.
  rewrite leb_spec, eqb_spec, ltb_spec. unfold SFleb, SFeqb, SFltb.
  destruct (SFcompare (Prim2SF x) (Prim2SF y)) as [[ | | ]|];
    intros H1 H2; try discriminate; reflexivity.
Qed.

Lemma ltb_leb (x y : float) : (x <? y) = true -> (x <=? y) = true.
Proof.
  rewrite leb_spec, ltb_spec. unfold SFleb, SFltb.
  destruct (SFcompare (Prim2SF x) (Prim2SF y)) as [[ | | ]|];
    intros H; try discriminate; reflexivity.
Qed.

Lemma ltb_asym (x y : float) : (x <? y) = true -> (y <? x) = false.
Proof.
  rewrite !ltb_spec. unfold SFltb.
  rewrite (SFcompare_antisym (Prim2SF x) (Prim2SF y)).
  destruct (SFcompare (Prim2SF x) (Prim2SF y)) as [[ | | ]|];
    intros H; try discriminate; reflexivity.
Qed.

Lemma eqb_sym (x y : float) : (x =? y) = (y =? x).
Proof.
  rewrite !eqb_spec. unfold SFeqb.
  rewrite (SFcompare_antisym (Prim2SF x) (Prim2SF y)).
  destruct (SFcompare (Prim2SF x) (Prim2SF y)) as [[ | | ]|]; reflexivity.
Qed.

Lemma isnan_abs (x : float) : isnan (abs x) = isnan x.
Proof.
  rewrite !isnan_spec, abs_spec. destruct (Prim2SF x); reflexivity.
Qed.

(** There is one NaN. *)
Lemma isnan_eq (x : float) : isnan x = true -> x = nan.
Proof.
  rewrite isnan_spec. intros H. apply Prim2SF_inj.
  destruct (Prim2SF x); try discriminate. reflexivity.
Qed.

Lemma div_nan_r (x : float) : x / nan = nan.
Proof.
  apply Prim2SF_inj. rewrite div_spec.
  change (Prim2SF nan) with S754_nan.
  destruct (Prim2SF x); reflexivity.
Qed.

End F64Facts.

(* ================================================================== *)
(** * The tier policy: thresholds, boundaries, monotonicity *)
(* ================================================================== *)

Section TierPolicy.
Import F64 F64Facts.
Local Open Scope float_scope.

Lemma risk_tier_mono (p q : float) :
  (p <=? q) = true -> risk_le (risk_tier p) (risk_tier q).
Proof.
  intros Hpq. unfold risk_tier, geb, risk_le.
  destruct (0.7 <=? p) eqn:P7.
  { rewrite (leb_trans _ _ _ P7 Hpq). simpl. lia. }
  destruct (0.5 <=? p) eqn:P5.
  { rewrite (leb_trans _ _ _ P5 Hpq).
    destruct (0.7 <=? q); simpl; lia. }
  destruct (0.3 <=? p) eqn:P3.
  { rewrite (leb_trans _ _ _ P3 Hpq).
    destruct (0.7 <=? q), (0.5 <=? q); simpl; lia. }
  destruct (0.7 <=? q), (0.5 <=? q), (0.3 <=? q); simpl; lia.
Qed.



End TierPolicy.

(* ================================================================== *)
(** * Reasoning about computations that may raise *)
(* ================================================================== *)

Lemma bind_Ok {A B : Type} (c : py A) (k : A -> py B) (b : B) :
  bind c k = Ok b -> exists a, c = Ok a /\ k a = Ok b.
Proof.
  destruct c as [a|e]; simpl; intros H; [eauto | discriminate].
Qed.

Lemma bind_Raise {A B : Type} (c : py A) (k : A -> py B) (e : exn) :
  bind c k = Raise e -> c = Raise e \/ exists a, c = Ok a /\ k a = Raise e.
Proof.
  destruct c as [a|e']; simpl; intros H;
    [right; eauto | left; injection H as ->; reflexivity].
Qed.

Lemma except_None_Some {A : Type} (c : py A) (a : A) :
  except_None c = Some a <-> c = Ok a.
Proof.
  destruct c; simpl; split; intros H; try discriminate;
    injection H as ->; reflexivity.
Qed.

(** Peel the binds of a hypothesis [bind c k = Ok b]. *)
Ltac bind_inv H :=
  let a := fresh "a" in
  let Ha := fresh "Ha" in
  apply bind_Ok in H; destruct H as (a & Ha & H).

(* ================================================================== *)
(** * What a successful extraction returns *)
(* ================================================================== *)

Lemma calculate_all_metrics_Some (data : Snapshot) (today : datetime)
    (d : Metrics) :
  calculate_all_metrics data today = Some d ->
  exists f m r x,
    fundamentals_of data = Ok f /\ market_of data = Ok m /\
    ratios_of f = Ok r /\ displayed_of data f m = Ok x /\
    d = feature_dict today m r x.
Proof.
  unfold calculate_all_metrics. rewrite except_None_Some.
  unfold calculate_all_metrics_body. intros H.
  bind_inv H. bind_inv H. bind_inv H. bind_inv H.
  injection H as <-. eauto 10.
Qed.

Lemma feature_dict_keys (today : datetime) (m : Market) (r : Ratios)
    (x : Displayed) :
  keys (feature_dict today m r x) = SELECTED_FEATURES.
Proof. reflexivity. Qed.

Lemma SELECTED_FEATURES_length : List.length SELECTED_FEATURES = 45%nat.
Proof. reflexivity. Qed.

Lemma nodupb_NoDup (l : list string) : nodupb l = true -> NoDup l.
Proof.
  induction l as [|x l IH]; simpl; intros H; constructor.
  - apply andb_prop in H. destruct H as [H _].
    intros HIn. apply negb_true_iff in H.
    assert (E : existsb (String.eqb x) l = true).
    { apply existsb_exists. exists x. split; [assumption|apply String.eqb_refl]. }
    congruence.
  - apply andb_prop in H. apply IH, H.
Qed.

Lemma SELECTED_FEATURES_NoDup : NoDup SELECTED_FEATURES.
Proof. apply nodupb_NoDup. reflexivity. Qed.

(* ================================================================== *)
(** * The extraction reads the clock for the date only *)
(* ================================================================== *)

(** Of the clock reading only the month, and whether the day is the 25th
    or later, reach the result. *)
Lemma calculate_all_metrics_clock (data : Snapshot) (now1 now2 : datetime) :
  month now1 = month now2 ->
  (25 <=? day now1)%Z = (25 <=? day now2)%Z ->
  calculate_all_metrics data now1 = calculate_all_metrics data now2.
Proof.
  intros Hm Hd.
  unfold calculate_all_metrics, calculate_all_metrics_body, feature_dict.
  rewrite Hm, Hd. reflexivity.
Qed.

(** C8. Feature extraction is deterministic: the feature vector is a
    function of the snapshot and of the date the clock shows; two calls on
    the same snapshot whose clock readings agree on the date (whatever the
    time of day) return identical vectors. *)
Theorem calculate_all_metrics_deterministic (data : Snapshot)
    (now1 now2 : datetime) :
  year now1 = year now2 -> month now1 = month now2 -> day now1 = day now2 ->
  calculate_all_metrics data now1 = calculate_all_metrics data now2.
Proof.
  intros _ Hm Hd. apply calculate_all_metrics_clock; [exact Hm|].
  rewrite Hd. reflexivity.
Qed.

(* ================================================================== *)
(** * Zero guards: a zero denominator gives 0, and no division raises *)
(* ================================================================== *)

Section ZeroGuards.
Import F64Facts.
Local Open Scope float_scope.

Lemma is_zero_gt0 (v : pyval) : Py.is_zero v = true -> Py.gt0 v = Ok false.
Proof.
  destruct v as [|n|f]; simpl; intros H; try discriminate.
  - apply Z.eqb_eq in H. subst. reflexivity.
  - unfold F64.gtb. apply eqb_ltb_false in H. destruct H as [_ ->].
    reflexivity.
Qed.

Lemma gt0_not_zero (v : pyval) : Py.gt0 v = Ok true -> Py.is_zero v = false.
Proof.
  destruct v as [|n|f]; simpl; intros H; try discriminate;
    injection H as H.
  - apply Z.ltb_lt in H. apply Z.eqb_neq. lia.
  - unfold F64.gtb in H. apply ltb_eqb_false in H. tauto.
Qed.

Lemma ratio_zero (num den : pyval) :
  Py.is_zero den = true -> ratio num den = Ok (PInt 0).
Proof.
  intros H. unfold ratio. rewrite (is_zero_gt0 _ H). reflexivity.
Qed.

Lemma ratio_pct_zero (num den : pyval) :
  Py.is_zero den = true -> ratio_pct num den = Ok (PInt 0).
Proof.
  intros H. unfold ratio_pct. rewrite (is_zero_gt0 _ H). reflexivity.
Qed.

Lemma altman_z_zero (f : Fundamentals) (wc : pyval) :
  Py.is_zero (assets f) = true -> altman_z f wc = Ok (PFloat 0).
Proof.
  intros H. unfold altman_z. rewrite (is_zero_gt0 _ H). reflexivity.
Qed.

Lemma no_zdiv_Ok {A : Type} (a : A) : no_zdiv (Ok a).
Proof. discriminate. Qed.

Lemma no_zdiv_bind {A B : Type} (c : py A) (k : A -> py B) :
  no_zdiv c -> (forall a, c = Ok a -> no_zdiv (k a)) -> no_zdiv (bind c k).
Proof.
  unfold no_zdiv. intros Hc Hk H. apply bind_Raise in H.
  destruct H as [H | (a & Ha & H)]; [auto | exact (Hk a Ha H)].
Qed.

Lemma no_zdiv_float_of_int (n : Z) : no_zdiv (Py.float_of_int n).
Proof.
  unfold no_zdiv, Py.float_of_int.
  destruct (F64.is_finite (F64.of_Z n)); discriminate.
Qed.

Lemma no_zdiv_to_float (v : pyval) : no_zdiv (Py.to_float v).
Proof.
  destruct v; simpl; try discriminate. apply no_zdiv_float_of_int.
Qed.

Lemma no_zdiv_arith (opz : Z -> Z -> Z) (opf : float -> float -> float)
    (a b : pyval) : no_zdiv (Py.arith opz opf a b).
Proof.
  destruct a as [|x|x], b as [|y|y]; simpl; try discriminate;
    repeat (apply no_zdiv_bind;
            [ first [apply no_zdiv_float_of_int | apply no_zdiv_Ok] | intros ? _ ]);
    try apply no_zdiv_Ok.
Qed.

Lemma no_zdiv_abs (v : pyval) : no_zdiv (Py.abs v).
Proof. destruct v; discriminate. Qed.

Lemma no_zdiv_gt0 (v : pyval) : no_zdiv (Py.gt0 v).
Proof. destruct v; discriminate. Qed.

Lemma no_zdiv_isnan (v : pyval) : no_zdiv (Py.isnan v).
Proof. destruct v; discriminate. Qed.

Lemma no_zdiv_int_truediv (x y : Z) : no_zdiv (Py.int_truediv x y).
Proof.
  unfold Py.int_truediv, no_zdiv.
  destruct x; try discriminate;
    match goal with |- context [if ?c then _ else _] => destruct c end;
    discriminate.
Qed.

(** Dividing by a value that is not 0 does not raise
    [ZeroDivisionError]. *)
Lemma no_zdiv_truediv (a b : pyval) :
  Py.is_zero b = false -> no_zdiv (Py.truediv a b).
Proof.
  destruct a as [|x|x], b as [|y|y]; simpl; intros H; try discriminate;
    rewrite ?H.
  - apply no_zdiv_int_truediv.
  - apply no_zdiv_bind; [apply no_zdiv_float_of_int | intros fx _].
    apply no_zdiv_Ok.
  - apply no_zdiv_bind; [apply no_zdiv_float_of_int | intros fy _].
    apply no_zdiv_Ok.
  - apply no_zdiv_Ok.
Qed.

Lemma no_zdiv_ratio (num den : pyval) : no_zdiv (ratio num den).
Proof.
  unfold ratio. apply no_zdiv_bind; [apply no_zdiv_gt0 | intros [|] Hc].
  - apply no_zdiv_truediv, gt0_not_zero, Hc.
  - apply no_zdiv_Ok.
Qed.

Lemma no_zdiv_ratio_pct (num den : pyval) : no_zdiv (ratio_pct num den).
Proof.
  unfold ratio_pct. apply no_zdiv_bind; [apply no_zdiv_gt0 | intros [|] Hc].
  - apply no_zdiv_bind; [apply no_zdiv_truediv, gt0_not_zero, Hc | intros q _].
    apply no_zdiv_arith.
  - apply no_zdiv_Ok.
Qed.

Lemma no_zdiv_weighted (w : float) (x den : pyval) :
  Py.gt0 den = Ok true -> no_zdiv (weighted w x den).
Proof.
  intros H. unfold weighted.
  apply no_zdiv_bind; [apply no_zdiv_arith | intros p _].
  apply no_zdiv_truediv, gt0_not_zero, H.
Qed.

Lemma no_zdiv_altman_z (f : Fundamentals) (wc : pyval) :
  no_zdiv (altman_z f wc).
Proof.
  unfold altman_z.
  apply no_zdiv_bind; [apply no_zdiv_gt0 | intros [|] Hc];
    [ | apply no_zdiv_Ok ].
  apply no_zdiv_bind; [apply no_zdiv_weighted, Hc | intros t1 _].
  apply no_zdiv_bind; [apply no_zdiv_weighted, Hc | intros t2 _].
  apply no_zdiv_bind; [apply no_zdiv_arith | intros s2 _].
  apply no_zdiv_bind; [apply no_zdiv_weighted, Hc | intros t3 _].
  apply no_zdiv_bind; [apply no_zdiv_arith | intros s3 _].
  apply no_zdiv_bind; [ | intros t4 _].
  { apply no_zdiv_bind; [apply no_zdiv_gt0 | intros [|] Hd].
    - apply no_zdiv_weighted, Hd.
    - apply no_zdiv_Ok. }
  apply no_zdiv_bind; [apply no_zdiv_arith | intros s4 _].
  apply no_zdiv_bind; [apply no_zdiv_weighted, Hc | intros t5 _].
  apply no_zdiv_arith.
Qed.

Lemma no_zdiv_ratios_of (f : Fundamentals) : no_zdiv (ratios_of f).
Proof.
  unfold ratios_of.
  repeat (apply no_zdiv_bind;
          [ first [ apply no_zdiv_ratio | apply no_zdiv_ratio_pct
                  | apply no_zdiv_arith | apply no_zdiv_altman_z ]
          | intros ? _ ]).
  apply no_zdiv_Ok.
Qed.

Lemma no_zdiv_or_else (a : pyval) (b : py pyval) :
  no_zdiv b -> no_zdiv (Py.or_else a b).
Proof.
  intros H. unfold Py.or_else. destruct (Py.truthy a); [apply no_zdiv_Ok | exact H].
Qed.

Lemma no_zdiv_fundamentals_of (data : Snapshot) :
  no_zdiv (fundamentals_of data).
Proof.
  unfold fundamentals_of.
  apply no_zdiv_bind; [apply no_zdiv_or_else, no_zdiv_arith | intros debt _].
  apply no_zdiv_bind; [ | intros fcf _; apply no_zdiv_Ok].
  apply no_zdiv_or_else.
  match goal with |- context [if ?c then _ else _] => destruct c end;
    [ | apply no_zdiv_Ok].
  apply no_zdiv_bind; [apply no_zdiv_abs | intros a _; apply no_zdiv_arith].
Qed.

Lemma no_zdiv_market_of (data : Snapshot) : no_zdiv (market_of data).
Proof.
  unfold market_of.
  apply no_zdiv_bind; [apply no_zdiv_or_else, no_zdiv_Ok | intros c _].
  apply no_zdiv_Ok.
Qed.

Lemma no_zdiv_displayed_of (data : Snapshot) (f : Fundamentals) (m : Market) :
  no_zdiv (displayed_of data f m).
Proof.
  unfold displayed_of.
  apply no_zdiv_bind; [apply no_zdiv_isnan | intros ret_nan _].
  apply no_zdiv_bind; [apply no_zdiv_truediv; reflexivity | intros o _].
  apply no_zdiv_bind; [apply no_zdiv_truediv; reflexivity | intros o' _].
  apply no_zdiv_bind; [apply no_zdiv_isnan | intros vol_nan _].
  apply no_zdiv_bind; [ | intros v _; apply no_zdiv_Ok].
  destruct (negb vol_nan); [ | apply no_zdiv_Ok].
  apply no_zdiv_bind; [apply no_zdiv_to_float | intros v _; apply no_zdiv_Ok].
Qed.

Lemma no_zdiv_body (data : Snapshot) (today : datetime) :
  no_zdiv (calculate_all_metrics_body data today).
Proof.
  unfold calculate_all_metrics_body.
  apply no_zdiv_bind; [apply no_zdiv_fundamentals_of | intros f _].
  apply no_zdiv_bind; [apply no_zdiv_market_of | intros m _].
  apply no_zdiv_bind; [apply no_zdiv_ratios_of | intros r _].
  apply no_zdiv_bind; [apply no_zdiv_displayed_of | intros x _].
  apply no_zdiv_Ok.
Qed.

(** C3. Zero-guard laws: when the total assets read from the snapshot are 0
    the features Asset_Turnover, Equity_Ratio and ROA_% are the integer 0
    and Altman_Z_Score is 0.0; when the equity is 0, Debt_to_Equity and
    ROE_% are 0; when the debt is 0, OCF_to_Debt is 0; and the extraction
    never raises a division error. *)
Theorem zero_guard_laws (data : Snapshot) (today : datetime)
    (f : Fundamentals) (d : Metrics) :
  fundamentals_of data = Ok f ->
  calculate_all_metrics data today = Some d ->
  (Py.is_zero (assets f) = true ->
     dict_get d "Asset_Turnover" = Some (PInt 0) /\
     dict_get d "Equity_Ratio" = Some (PInt 0) /\
     dict_get d "ROA_%" = Some (PInt 0) /\
     dict_get d "Altman_Z_Score" = Some (PFloat 0)) /\
  (Py.is_zero (equity f) = true ->
     dict_get d "Debt_to_Equity" = Some (PInt 0) /\
     dict_get d "ROE_%" = Some (PInt 0)) /\
  (Py.is_zero (debt f) = true ->
     dict_get d "OCF_to_Debt" = Some (PInt 0)) /\
  calculate_all_metrics_body data today <> Raise ZeroDivisionError.
Proof.
  intros Hf Hd.
  apply calculate_all_metrics_Some in Hd.
  destruct Hd as (f' & m & r & x & Hf' & Hm & Hr & Hx & ->).
  rewrite Hf in Hf'. injection Hf' as <-.
  unfold ratios_of in Hr.
  bind_inv Hr. rename a into v_eq_r, Ha into E_eq_r.
  bind_inv Hr. rename a into v_at, Ha into E_at.
  bind_inv Hr. rename a into v_o2d, Ha into E_o2d.
  bind_inv Hr. rename a into v_d2e, Ha into E_d2e.
  bind_inv Hr. rename a into v_roe, Ha into E_roe.
  bind_inv Hr. rename a into v_roa, Ha into E_roa.
  bind_inv Hr. rename a into v_npm, Ha into E_npm.
  bind_inv Hr. rename a into wc, Ha into E_wc.
  bind_inv Hr. rename a into v_z, Ha into E_z.
  injection Hr as <-. simpl.
  split; [intros H; repeat split | split; [intros H; split | split; [intros H | ]]].
  - rewrite (ratio_zero _ _ H) in E_at. congruence.
  - rewrite (ratio_zero _ _ H) in E_eq_r. congruence.
  - rewrite (ratio_pct_zero _ _ H) in E_roa. congruence.
  - rewrite (altman_z_zero _ _ H) in E_z. congruence.
  - rewrite (ratio_zero _ _ H) in E_d2e. congruence.
  - rewrite (ratio_pct_zero _ _ H) in E_roe. congruence.
  - rewrite (ratio_zero _ _ H) in E_o2d. congruence.
  - apply no_zdiv_body.
Qed.

End ZeroGuards.

(* ================================================================== *)
(** * When the extraction cannot fail *)
(* ================================================================== *)

Section Totality.
Import F64Facts.
Local Open Scope float_scope.

Lemma float_or_zero_cases (v : pyval) :
  float_or_zero v = true -> (exists f, v = PFloat f) \/ v = PInt 0.
Proof.
  destruct v as [|n|f]; simpl; intros H; try discriminate.
  - right. apply Z.eqb_eq in H. subst. reflexivity.
  - left. eauto.
Qed.

Ltac foz v H :=
  let f := fresh "f" in
  destruct (float_or_zero_cases v H) as [[f ->] | ->].

Lemma gv_float_or_zero (series : Series) (key : string) (default : pyval) :
  float_or_zero default = true -> float_or_zero (gv series key default) = true.
Proof.
  intros H. unfold gv.
  destruct (filter _ series) as [|[k v] [|? ?]]; simpl; auto.
Qed.

Lemma arith_float_or_zero (opz : Z -> Z -> Z) (opf : float -> float -> float)
    (a b : pyval) :
  opz 0%Z 0%Z = 0%Z ->
  float_or_zero a = true -> float_or_zero b = true ->
  exists v, Py.arith opz opf a b = Ok v /\ float_or_zero v = true.
Proof.
  intros Hz Ha Hb. foz a Ha; foz b Hb; simpl; eauto.
  rewrite Hz. eauto.
Qed.

Lemma abs_float_or_zero (a : pyval) :
  float_or_zero a = true ->
  exists v, Py.abs a = Ok v /\ float_or_zero v = true.
Proof. intros Ha. foz a Ha; simpl; eauto. Qed.

Lemma or_else_float_or_zero (a : pyval) (b : py pyval) :
  float_or_zero a = true ->
  (exists v, b = Ok v /\ float_or_zero v = true) ->
  exists v, Py.or_else a b = Ok v /\ float_or_zero v = true.
Proof.
  intros Ha Hb. unfold Py.or_else. destruct (Py.truthy a); eauto.
Qed.

Lemma gt0_float_or_zero (v : pyval) :
  float_or_zero v = true ->
  exists c, Py.gt0 v = Ok c /\
            (c = true -> exists f, v = PFloat f /\ (f =? 0) = false).
Proof.
  intros H. foz v H; simpl.
  - eexists; split; [reflexivity|]. intros Hc. exists f. split; [reflexivity|].
    unfold F64.gtb in Hc. apply ltb_eqb_false in Hc. tauto.
  - eexists; split; [reflexivity|]. discriminate.
Qed.

Lemma truediv_float_or_zero (a : pyval) (y : float) :
  float_or_zero a = true -> (y =? 0) = false ->
  exists q, Py.truediv a (PFloat y) = Ok (PFloat q).
Proof.
  intros Ha Hy. foz a Ha; simpl; rewrite Hy; eauto.
Qed.

Lemma ratio_float_or_zero (num den : pyval) :
  float_or_zero num = true -> float_or_zero den = true ->
  exists v, ratio num den = Ok v /\ float_or_zero v = true.
Proof.
  intros Hn Hd. unfold ratio.
  destruct (gt0_float_or_zero den Hd) as (c & -> & Hc). simpl.
  destruct c; [ | eauto].
  destruct (Hc eq_refl) as (y & -> & Hy).
  destruct (truediv_float_or_zero num y Hn Hy) as (q & ->). eauto.
Qed.

Lemma mul_100_float (q : float) :
  exists p, Py.mul (PFloat q) (PInt 100) = Ok (PFloat p).
Proof.
  unfold Py.mul, Py.arith, Py.to_float.
  assert (E : Py.float_of_int 100 = Ok 100) by (vm_compute; reflexivity).
  rewrite E. simpl. eauto.
Qed.

Lemma ratio_pct_float_or_zero (num den : pyval) :
  float_or_zero num = true -> float_or_zero den = true ->
  exists v, ratio_pct num den = Ok v /\ float_or_zero v = true.
Proof.
  intros Hn Hd. unfold ratio_pct.
  destruct (gt0_float_or_zero den Hd) as (c & -> & Hc). simpl.
  destruct c; [ | eauto].
  destruct (Hc eq_refl) as (y & -> & Hy).
  destruct (truediv_float_or_zero num y Hn Hy) as (q & ->).
  cbn [bind]. destruct (mul_100_float q) as (p & ->). eauto.
Qed.

Lemma weighted_float_or_zero (w : float) (x : pyval) (y : float) :
  float_or_zero x = true -> (y =? 0) = false ->
  exists q, weighted w x (PFloat y) = Ok (PFloat q).
Proof.
  intros Hx Hy. unfold weighted. foz x Hx; simpl; rewrite Hy; eauto.
Qed.

Lemma altman_z_float_or_zero (f : Fundamentals) (wc : pyval) :
  float_or_zero (assets f) = true -> float_or_zero (retained f) = true ->
  float_or_zero (ebit f) = true -> float_or_zero (equity f) = true ->
  float_or_zero (debt f) = true -> float_or_zero (revenue f) = true ->
  float_or_zero wc = true ->
  exists v, altman_z f wc = Ok v /\ float_or_zero v = true.
Proof.
  intros Ha Hre He Heq Hd Hrv Hwc. unfold altman_z.
  destruct (gt0_float_or_zero _ Ha) as (c & -> & Hc). simpl.
  destruct c; [ | eauto].
  destruct (Hc eq_refl) as (y & -> & Hy).
  destruct (weighted_float_or_zero 1.2 wc y Hwc Hy) as (t1 & ->). simpl.
  destruct (weighted_float_or_zero 1.4 _ y Hre Hy) as (t2 & ->). simpl.
  destruct (weighted_float_or_zero 3.3 _ y He Hy) as (t3 & ->). simpl.
  destruct (gt0_float_or_zero _ Hd) as (c & -> & Hc'). simpl.
  destruct c.
  - destruct (Hc' eq_refl) as (yd & -> & Hyd).
    destruct (weighted_float_or_zero 0.6 _ yd Heq Hyd) as (t4 & ->). simpl.
    destruct (weighted_float_or_zero 1.0 _ y Hrv Hy) as (t5 & ->). simpl.
    eauto.
  - simpl.
    destruct (weighted_float_or_zero 1.0 _ y Hrv Hy) as (t5 & ->). simpl.
    eauto.
Qed.

Lemma fundamentals_of_total (data : Snapshot) :
  plain_info data ->
  exists f, fundamentals_of data = Ok f /\ plain_figures f.
Proof.
  intros [HA HE]. unfold fundamentals_of.
  set (lbs := Pd.latest_column (balance_sheet data)).
  set (lfin := Pd.latest_column (financials data)).
  set (lcf := Pd.latest_column (cash_flow data)).
  assert (G : forall s k, float_or_zero (gv s k (PInt 0)) = true)
    by (intros; apply gv_float_or_zero; reflexivity).
  destruct (or_else_float_or_zero (gv lbs "Total Debt" (PInt 0))
              (Py.add (gv lbs "Long Term Debt" (PInt 0))
                      (gv lbs "Short Long Term Debt" (PInt 0))))
    as (debt & -> & Hdebt); [apply G | | ].
  { apply arith_float_or_zero; auto. }
  simpl.
  match goal with
  | |- context [Py.or_else ?a ?b] =>
      destruct (or_else_float_or_zero a b) as (fcf & -> & Hfcf)
  end; [apply G | | ].
  { destruct (Py.truthy _); [ | eauto].
    destruct (abs_float_or_zero _ (G lcf "Capital Expenditures"))
      as (a & -> & Ha). simpl.
    apply arith_float_or_zero; auto. }
  simpl. eexists; split; [reflexivity|].
  unfold plain_figures; simpl.
  repeat split; auto using gv_float_or_zero.
Qed.

Lemma ratios_of_total (f : Fundamentals) :
  plain_figures f -> exists r, ratios_of f = Ok r.
Proof.
  intros (Ha & He & Hca & Hcl & Hre & Hd & Hn & Hrv & Heb & Ho & Hcx & Hf).
  unfold ratios_of.
  destruct (ratio_float_or_zero _ _ He Ha) as (v1 & -> & _). simpl.
  destruct (ratio_float_or_zero _ _ Hrv Ha) as (v2 & -> & _). simpl.
  destruct (ratio_float_or_zero _ _ Ho Hd) as (v3 & -> & _). simpl.
  destruct (ratio_float_or_zero _ _ Hd He) as (v4 & -> & _). simpl.
  destruct (ratio_pct_float_or_zero _ _ Hn He) as (v5 & -> & _). simpl.
  destruct (ratio_pct_float_or_zero _ _ Hn Ha) as (v6 & -> & _). simpl.
  destruct (ratio_pct_float_or_zero _ _ Hn Hrv) as (v7 & -> & _). simpl.
  destruct (arith_float_or_zero Z.sub PrimFloat.sub _ _ eq_refl Hca Hcl)
    as (wc & Ewc & Hwc).
  unfold Py.sub. rewrite Ewc. simpl.
  destruct (altman_z_float_or_zero f wc Ha Hre Heb He Hd Hrv Hwc)
    as (z & -> & _). simpl. eauto.
Qed.

Lemma market_of_total (data : Snapshot) :
  exists m, market_of data = Ok m /\
            float_or_zero (lat_ret m) = true /\
            float_or_zero (vol_20 m) = true.
Proof.
  unfold market_of, Py.or_else.
  destruct (Py.truthy _); simpl; eexists; (split; [reflexivity|]); simpl;
    unfold lat_ret_of, vol_20_of;
    split; match goal with |- context [if ?c then _ else _] => destruct c end;
    reflexivity.
Qed.

Lemma displayed_of_total (data : Snapshot) (f : Fundamentals) (m : Market) :
  plain_figures f ->
  float_or_zero (lat_ret m) = true -> float_or_zero (vol_20 m) = true ->
  exists x, displayed_of data f m = Ok x.
Proof.
  intros (Ha & He & Hca & Hcl & Hre & Hd & Hn & Hrv & Heb & Ho & Hcx & Hf)
         Hl Hv.
  unfold displayed_of.
  assert (N : forall v, float_or_zero v = true -> exists b, Py.isnan v = Ok b).
  { intros v H. foz v H; simpl; eauto. }
  destruct (N _ Hl) as (b1 & ->). simpl.
  destruct (truediv_float_or_zero (ocf f) 1e6 Ho eq_refl) as (q1 & ->). simpl.
  destruct (truediv_float_or_zero (fcf f) 1e6 Hf eq_refl) as (q2 & ->). simpl.
  destruct (N _ Hv) as (b2 & ->). simpl.
  destruct (negb b2); simpl; [ | eauto].
  foz (vol_20 m) Hv; simpl; eauto.
Qed.

(** With plain defaults in [info] the extraction returns a vector. *)
Lemma calculate_all_metrics_total (data : Snapshot) (today : datetime) :
  plain_info data -> exists d, calculate_all_metrics data today = Some d.
Proof.
  intros H.
  destruct (fundamentals_of_total data H) as (f & Ef & Hf).
  destruct (market_of_total data) as (m & Em & Hl & Hv).
  destruct (ratios_of_total f Hf) as (r & Er).
  destruct (displayed_of_total data f m Hf Hl Hv) as (x & Ex).
  exists (feature_dict today m r x).
  unfold calculate_all_metrics, calculate_all_metrics_body.
  rewrite Ef. simpl. rewrite Em. simpl. rewrite Er. simpl. rewrite Ex.
  reflexivity.
Qed.

End Totality.

(* ================================================================== *)
(** * The feature vector: names, order, kinds of value *)
(* ================================================================== *)

Section FeatureVector.
Local Open Scope float_scope.

Lemma arith_number (opz : Z -> Z -> Z) (opf : float -> float -> float)
    (a b v : pyval) :
  Py.arith opz opf a b = Ok v -> is_number v = true.
Proof.
  destruct a as [|x|x], b as [|y|y]; simpl; intros H; try discriminate;
    try (injection H as <-; reflexivity);
    repeat match type of H with
           | bind ?c _ = Ok _ => destruct c; simpl in H; try discriminate
           end;
    injection H as <-; reflexivity.
Qed.

Lemma int_truediv_number (x y : Z) (v : pyval) :
  Py.int_truediv x y = Ok v -> is_number v = true.
Proof.
  unfold Py.int_truediv.
  destruct x; intros H;
    try (injection H as <-; reflexivity);
    match type of H with
    | (if ?c then _ else _) = _ => destruct c; try discriminate
    end; injection H as <-; reflexivity.
Qed.

Lemma truediv_number (a b v : pyval) :
  Py.truediv a b = Ok v -> is_number v = true.
Proof.
  destruct a as [|x|x], b as [|y|y]; simpl; intros H; try discriminate;
    repeat match type of H with
           | (if ?c then _ else _) = Ok _ => destruct c; try discriminate
           | bind ?c _ = Ok _ => destruct c; simpl in H; try discriminate
           end;
    try (injection H as <-; reflexivity).
  eapply int_truediv_number, H.
Qed.

Lemma ratio_number (num den v : pyval) :
  ratio num den = Ok v -> is_number v = true.
Proof.
  unfold ratio. intros H. bind_inv H. destruct a.
  - eapply truediv_number, H.
  - injection H as <-. reflexivity.
Qed.

Lemma ratio_pct_number (num den v : pyval) :
  ratio_pct num den = Ok v -> is_number v = true.
Proof.
  unfold ratio_pct. intros H. bind_inv H. destruct a.
  - bind_inv H. eapply arith_number, H.
  - injection H as <-. reflexivity.
Qed.

Lemma altman_z_number (f : Fundamentals) (wc v : pyval) :
  altman_z f wc = Ok v -> is_number v = true.
Proof.
  unfold altman_z. intros H. bind_inv H. destruct a.
  - do 8 bind_inv H. eapply arith_number, H.
  - injection H as <-. reflexivity.
Qed.

Lemma ratios_of_numbers (f : Fundamentals) (r : Ratios) :
  ratios_of f = Ok r ->
  is_number (eq_r r) = true /\ is_number (at_ r) = true /\
  is_number (o2d r) = true /\ is_number (d2e r) = true /\
  is_number (roe r) = true /\ is_number (roa r) = true /\
  is_number (npm r) = true /\ is_number (z r) = true.
Proof.
  unfold ratios_of. intros H.
  bind_inv H. apply ratio_number in Ha.
  bind_inv H. apply ratio_number in Ha0.
  bind_inv H. apply ratio_number in Ha1.
  bind_inv H. apply ratio_number in Ha2.
  bind_inv H. apply ratio_pct_number in Ha3.
  bind_inv H. apply ratio_pct_number in Ha4.
  bind_inv H. apply ratio_pct_number in Ha5.
  bind_inv H. bind_inv H. apply altman_z_number in Ha7.
  injection H as <-. simpl. tauto.
Qed.

Lemma market_of_numbers (data : Snapshot) (m : Market) :
  market_of data = Ok m ->
  is_number (mkt_cap m) = true /\ is_number (lat_ret m) = true /\
  is_number (vol_20 m) = true /\ is_number (pr_pct m) = true /\
  is_number (tr m) = true /\ is_number (dc m) = true /\
  is_number (rsi14 m) = true /\ is_number (roc20 m) = true.
Proof.
  unfold market_of. intros H. bind_inv H. injection H as <-. simpl.
  assert (Hc : is_number a = true).
  { unfold Py.or_else in Ha.
    destruct (Py.truthy _) eqn:T in Ha; injection Ha as <-;
      [ | reflexivity].
    destruct (dict_get_default (info data) "marketCap" (PInt 0));
      [discriminate T | reflexivity | reflexivity]. }
  unfold lat_ret_of, vol_20_of, pr_pct_of, tr_of, dc_of, rsi14_of, roc20_of.
  repeat split; try assumption;
    match goal with
    | |- context [if ?c then _ else _] => destruct c
    | _ => idtac
    end; reflexivity.
Qed.

Lemma displayed_of_numbers (data : Snapshot) (f : Fundamentals) (m : Market)
    (x : Displayed) :
  is_number (lat_ret m) = true ->
  displayed_of data f m = Ok x ->
  is_number (low x) = true /\ is_number (volume x) = true /\
  is_number (daily x) = true /\ is_number (ocf_m x) = true /\
  is_number (fcf_m x) = true /\ is_number (vol x) = true.
Proof.
  unfold displayed_of. intros Hl H.
  bind_inv H. bind_inv H. apply truediv_number in Ha0.
  bind_inv H. apply truediv_number in Ha1.
  bind_inv H. bind_inv H. injection H as <-. simpl.
  assert (Hv : is_number a3 = true).
  { destruct (negb a2).
    - bind_inv Ha3. injection Ha3 as <-. reflexivity.
    - injection Ha3 as <-. reflexivity. }
  repeat split; try assumption;
    match goal with
    | |- context [if ?c then _ else _] => destruct c
    end; auto.
Qed.

Lemma feature_dict_numbers (data : Snapshot) (today : datetime)
    (d : Metrics) :
  calculate_all_metrics data today = Some d ->
  Forall (fun v => is_number v = true) (values d).
Proof.
  intros H. apply calculate_all_metrics_Some in H.
  destruct H as (f & m & r & x & Hf & Hm & Hr & Hx & ->).
  apply ratios_of_numbers in Hr.
  apply market_of_numbers in Hm.
  destruct Hm as (M1 & M2 & M3 & M4 & M5 & M6 & M7 & M8).
  apply (displayed_of_numbers _ _ _ _ M2) in Hx.
  destruct Hr as (R1 & R2 & R3 & R4 & R5 & R6 & R7 & R8).
  destruct Hx as (X1 & X2 & X3 & X4 & X5 & X6).
  unfold feature_dict, values. simpl.
  repeat (constructor; [first [assumption | reflexivity] | ]).
  constructor.
Qed.

(** With no statement column and no fallback in [info], every figure is
    the default 0 and every financial feature is 0. *)
Lemma empty_statements_zero (data : Snapshot) (today : datetime)
    (d : Metrics) :
  financials data = [] -> balance_sheet data = [] -> cash_flow data = [] ->
  dict_get (info data) "totalAssets" = None ->
  dict_get (info data) "totalStockholderEquity" = None ->
  calculate_all_metrics data today = Some d ->
  forall k, In k FINANCIAL_FEATURES ->
            exists v, dict_get d k = Some v /\ Py.is_zero v = true.
Proof.
  intros Hfin Hbs Hcf HA HE H k Hk.
  apply calculate_all_metrics_Some in H.
  destruct H as (f & m & r & x & Hf & Hm & Hr & Hx & ->).
  unfold fundamentals_of, dict_get_default in Hf.
  rewrite Hfin, Hbs, Hcf, HA, HE in Hf. vm_compute in Hf.
  injection Hf as <-.
  vm_compute in Hr. injection Hr as <-.
  unfold displayed_of in Hx.
  bind_inv Hx. cbn [ocf fcf] in Hx.
  assert (E : Py.truediv (PInt 0) (PFloat 1e6) = Ok (PFloat 0))
    by (vm_compute; reflexivity).
  rewrite E in Hx. cbn [bind] in Hx.
  bind_inv Hx. bind_inv Hx. injection Hx as <-.
  simpl in Hk.
  repeat (destruct Hk as [<- | Hk];
          [ eexists; split; [reflexivity | reflexivity] | ]).
  contradiction.
Qed.

(** C1 (as the code has it). The canonical list has 45 names.  Whenever the
    extraction returns a vector, its names are exactly the 45 canonical
    names in canonical order and every value is an int or a float; it does
    return one when the fallbacks read from [info] are floats, 0 or absent;
    and with empty statement frames and no fallback every financial
    feature is 0. *)
Theorem calculate_all_metrics_feature_vector (data : Snapshot)
    (today : datetime) :
  (forall d, calculate_all_metrics data today = Some d ->
     keys d = SELECTED_FEATURES /\ List.length d = 45%nat /\
     NoDup (keys d) /\
     Forall (fun v => is_number v = true) (values d)) /\
  (plain_info data -> exists d, calculate_all_metrics data today = Some d) /\
  (financials data = [] -> balance_sheet data = [] -> cash_flow data = [] ->
   dict_get (info data) "totalAssets" = None ->
   dict_get (info data) "totalStockholderEquity" = None ->
   exists d, calculate_all_metrics data today = Some d /\
     forall k, In k FINANCIAL_FEATURES ->
               exists v, dict_get d k = Some v /\ Py.is_zero v = true).
Proof.
  split; [ | split].
  - intros d H. pose proof (feature_dict_numbers _ _ _ H) as Hn.
    apply calculate_all_metrics_Some in H.
    destruct H as (f & m & r & x & _ & _ & _ & _ & ->).
    repeat split.
    + apply SELECTED_FEATURES_NoDup.
    + exact Hn.
  - apply calculate_all_metrics_total.
  - intros Hfin Hbs Hcf HA HE.
    destruct (calculate_all_metrics_total data today) as (d & Hd).
    { unfold plain_info, dict_get_default. rewrite HA, HE. split; reflexivity. }
    exists d. split; [exact Hd|].
    eapply empty_statements_zero; eassumption.
Qed.

End FeatureVector.

(* ================================================================== *)
(** * The extraction on the sample snapshots *)
(* ================================================================== *)

Section FeatureVectorSamples.
Local Open Scope float_scope.

(** C1, as stated, fails: on the snapshot with empty frames the vector has
    45 names, not 44; and on a snapshot whose cash-flow statement holds a
    NaN the feature Operating Cf_M is NaN, which is not a finite float. *)
Lemma feature_vector_not_44_finite :
  (exists d, calculate_all_metrics Samples.empty_snapshot Samples.today = Some d
             /\ keys d = SELECTED_FEATURES
             /\ List.length (keys d) = 45%nat
             /\ List.length (keys d) <> 44%nat) /\
  (exists d, calculate_all_metrics Samples.nan_snapshot Samples.today = Some d
             /\ dict_get d "Operating Cf_M" = Some (PFloat nan)
             /\ F64.is_finite nan = false
             /\ ~ all_finite_floats d).
Proof.
  split.
  - eexists. split; [vm_compute; reflexivity|].
    repeat split. simpl. discriminate.
  - eexists. split; [vm_compute; reflexivity|].
    split; [vm_compute; reflexivity|]. split; [reflexivity|].
    unfold all_finite_floats. intros H.
    apply Forall_inv in H. destruct H as (f & Hf & _). discriminate Hf.
Qed.

(** The end-to-end scenario: Equity_Ratio 0.4, ROA_% 5.0, ROE_% 12.5,
    OCF_to_Debt 80/300, and tier High for a probability of 0.62. *)
Example scenario_features :
  exists d,
    calculate_all_metrics Samples.scenario_snapshot Samples.today = Some d /\
    dict_get d "Equity_Ratio" = Some (PFloat 0.4) /\
    dict_get d "ROA_%" = Some (PFloat 5) /\
    dict_get d "ROE_%" = Some (PFloat 12.5) /\
    dict_get d "OCF_to_Debt" = Some (PFloat (80 / 300)) /\
    risk_tier 0.62 = High.
Proof.
  eexists. split; [vm_compute; reflexivity|].
  repeat split; vm_compute; reflexivity.
Qed.

Lemma calculate_all_metrics_feature_vector_witness :
  exists d, calculate_all_metrics Samples.empty_snapshot Samples.today = Some d
            /\ forall k, In k FINANCIAL_FEATURES ->
                 exists v, dict_get d k = Some v /\ Py.is_zero v = true.
Proof.
  apply (calculate_all_metrics_feature_vector
           Samples.empty_snapshot Samples.today); reflexivity.
Defined.

Lemma zero_guard_laws_witness :
  exists f d,
    fundamentals_of Samples.no_assets_snapshot = Ok f /\
    calculate_all_metrics Samples.no_assets_snapshot Samples.today = Some d /\
    Py.is_zero (assets f) = true /\
    dict_get d "Altman_Z_Score" = Some (PFloat 0).
Proof.
  eexists. eexists.
  split; [vm_compute; reflexivity|].
  split; [vm_compute; reflexivity|].
  split; [vm_compute; reflexivity|].
  eapply (zero_guard_laws Samples.no_assets_snapshot Samples.today);
    vm_compute; reflexivity.
Defined.

Lemma calculate_all_metrics_deterministic_witness :
  calculate_all_metrics Samples.scenario_snapshot Samples.today
  = calculate_all_metrics Samples.scenario_snapshot Samples.tonight.
Proof.
  apply calculate_all_metrics_deterministic; reflexivity.
Defined.

End FeatureVectorSamples.

(* ================================================================== *)
(** * The narrative template against the tier *)
(* ================================================================== *)

Section TemplateChoice.
Import F64 F64Facts.
Local Open Scope float_scope.

Lemma template_of_tier_inj (a b : risk_level) :
  template_of_tier a = template_of_tier b -> a = b.
Proof.
  destruct a, b; simpl; intros H; try reflexivity; discriminate H.
Qed.




End TemplateChoice.

(* ================================================================== *)
(** * Model loading and the probability capability *)
(* ================================================================== *)

Section ModelLoading.

(** What the loader does check: an artifact that is not a dict, or a dict
    with no true value under ["final_model"] and ["best_model"], is
    accepted only with [predict_proba]; without it the run stops. *)
Lemma resolve_model_checked (raw : pyobj) :
  has_predict_proba raw = false ->
  match raw with
  | ODict items =>
      obj_truthy (get_or_None items "final_model") = false /\
      obj_truthy (get_or_None items "best_model") = false /\
      forallb (fun v => negb (has_predict_proba v)) (values items) = true
  | _ => True
  end ->
  exists err, resolve_model raw = Stopped err.
Proof.
  intros Hraw H. unfold resolve_model. rewrite Hraw.
  destruct raw as [| id c | items]; eauto.
  destruct H as (H1 & H2 & H3). rewrite H1, H2.
  unfold first_with_predict_proba.
  destruct (find has_predict_proba (values items)) as [v|] eqn:E.
  - apply find_some in E. destruct E as [Hin Hv].
    rewrite forallb_forall in H3. specialize (H3 v Hin).
    rewrite Hv in H3. discriminate.
  - simpl. eauto.
Qed.

(** A model that was returned without [predict_proba] came from one of the
    two named keys of a dict. *)
Lemma resolve_model_unchecked_path (raw model : pyobj) :
  resolve_model raw = Returned model ->
  has_predict_proba model = false ->
  exists items, raw = ODict items /\
    (model = get_or_None items "final_model" \/
     model = get_or_None items "best_model").
Proof.
  unfold resolve_model. intros H Hm.
  destruct (has_predict_proba raw) eqn:Hraw.
  { injection H as <-. congruence. }
  destruct raw as [| id c | items]; try discriminate.
  exists items. split; [reflexivity|].
  destruct (obj_truthy (get_or_None items "final_model")).
  { simpl in H. destruct (is_None _); [discriminate|].
    injection H as <-. auto. }
  destruct (obj_truthy (get_or_None items "best_model")).
  { simpl in H. destruct (is_None _); [discriminate|].
    injection H as <-. auto. }
  destruct (is_None _) eqn:N; [discriminate|]. injection H as <-.
  unfold first_with_predict_proba in *.
  destruct (find has_predict_proba (values items)) as [v|] eqn:E.
  - apply find_some in E. destruct E as [_ Hv]. congruence.
  - discriminate N.
Qed.

(** C7 on the legacy pickle [{"final_model": e, "scaler": s}] where neither
    [e] nor [s] has [predict_proba]: the dict has none either, no value in
    it has one, and yet loading returns [e] as the model, with no error;
    the failure only shows when [make_prediction] calls [predict_proba]. *)
Theorem load_model_resources_unchecked_final_model :
  has_predict_proba Samples.legacy_pickle = false /\
  forallb (fun v => negb (has_predict_proba v))
          (match Samples.legacy_pickle with
           | ODict items => values items
           | _ => []
           end) = true /\
  load_model_resources Samples.legacy_env
  = Returned (Samples.label_only_estimator, Samples.scaler_object, None) /\
  has_predict_proba Samples.label_only_estimator = false /\
  (forall metrics x,
     feature_row metrics = Ok x ->
     make_prediction Samples.label_only_estimator Samples.scaler_object metrics
     = Raise AttributeError).
Proof.
  repeat split; try reflexivity.
  intros metrics x Hx. unfold make_prediction. rewrite Hx. reflexivity.
Qed.

End ModelLoading.

(* ================================================================== *)
(** * Dicts built key by key *)
(* ================================================================== *)

Section DictFacts.
Context {V : Type}.

Lemma dict_get_None_keys (d : dict V) (k : string) :
  dict_get d k = None <-> ~ In k (keys d).
Proof.
  induction d as [|[k' v'] d IH]; simpl.
  - tauto.
  - destruct (String.eqb_spec k' k) as [->|Hne].
    + split; [discriminate | intros H; exfalso; apply H; auto].
    + rewrite IH. split; [intros H [E|E]; [congruence | auto] | tauto].
Qed.

Lemma dict_set_new (d : dict V) (k : string) (v : V) :
  ~ In k (keys d) -> dict_set d k v = d ++ [(k, v)].
Proof.
  induction d as [|[k' v'] d IH]; simpl; intros H.
  - reflexivity.
  - destruct (String.eqb_spec k' k) as [->|Hne].
    + exfalso. apply H. auto.
    + rewrite IH by tauto. reflexivity.
Qed.

Lemma fold_dict_set_new (items d : dict V) :
  NoDup (keys items) ->
  (forall k, In k (keys items) -> ~ In k (keys d)) ->
  fold_left (fun d kv => dict_set d (fst kv) (snd kv)) items d = d ++ items.
Proof.
  revert d. induction items as [|[k v] items IH]; simpl; intros d Hnd Hd.
  - rewrite app_nil_r. reflexivity.
  - inversion Hnd as [|? ? Hk Hnd']; subst.
    rewrite dict_set_new by (apply Hd; auto).
    rewrite IH; [rewrite <- app_assoc; reflexivity | assumption | ].
    intros k' Hk'. unfold keys. rewrite map_app, in_app_iff. simpl.
    intros [H | [<- | []]]; [apply (Hd k'); auto | contradiction].
Qed.

Lemma dict_of_distinct (items : dict V) :
  NoDup (keys items) -> dict_of items = items.
Proof.
  intros H. unfold dict_of. rewrite fold_dict_set_new; auto.
Qed.

Lemma dict_get_app (d1 d2 : dict V) (k : string) :
  dict_get (d1 ++ d2) k =
  match dict_get d1 k with Some v => Some v | None => dict_get d2 k end.
Proof.
  induction d1 as [|[k' v'] d1 IH]; simpl; [reflexivity|].
  destruct (String.eqb k' k); [reflexivity | exact IH].
Qed.

Lemma dict_get_In (d : dict V) (k : string) (v : V) :
  NoDup (keys d) -> In (k, v) d -> dict_get d k = Some v.
Proof.
  induction d as [|[k' v'] d IH]; simpl; intros Hnd Hin; [contradiction|].
  inversion Hnd as [|? ? Hk Hnd']; subst.
  destruct Hin as [E | Hin].
  - injection E as -> ->. rewrite String.eqb_refl. reflexivity.
  - destruct (String.eqb_spec k' k) as [->|Hne]; [ | auto].
    exfalso. apply Hk. unfold keys. apply in_map_iff.
    exists (k, v). auto.
Qed.

End DictFacts.

(* ================================================================== *)
(** * Four decimals *)
(* ================================================================== *)

Section FixedFormat.
Import Fmt.

Lemma string_length_app (s t : string) :
  String.length (s ++ t)%string = String.length s + String.length t.
Proof. induction s; simpl; [reflexivity | rewrite IHs; reflexivity]. Qed.

Lemma list_ascii_app (s t : string) :
  list_ascii_of_string (s ++ t)%string
  = list_ascii_of_string s ++ list_ascii_of_string t.
Proof. induction s; simpl; [reflexivity | rewrite IHs; reflexivity]. Qed.

Lemma digit_is_digit (n : Z) : (0 <= n < 10)%Z -> is_digit (digit n) = true.
Proof.
  intros H. unfold is_digit, digit.
  rewrite nat_ascii_embedding by lia.
  apply andb_true_intro. split; apply Nat.leb_le; lia.
Qed.

Lemma frac_digits_length (nd : nat) (n : Z) :
  String.length (frac_digits nd n) = nd.
Proof.
  revert n. induction nd as [|nd IH]; intros n; [reflexivity|].
  cbn [frac_digits]. rewrite string_length_app, IH.
  cbn [String.length]. lia.
Qed.

Lemma frac_digits_digits (nd : nat) (n : Z) :
  forallb is_digit (list_ascii_of_string (frac_digits nd n)) = true.
Proof.
  revert n. induction nd as [|nd IH]; intros n; [reflexivity|].
  cbn [frac_digits]. rewrite list_ascii_app, forallb_app, IH.
  cbn [list_ascii_of_string forallb andb].
  assert (D : is_digit (digit (n mod 10)) = true)
    by (apply digit_is_digit, Z.mod_pos_bound; lia).
  rewrite D. reflexivity.
Qed.

Lemma string_of_uint_no_point (u : Decimal.uint) :
  existsb (Ascii.eqb ".") (list_ascii_of_string (NilEmpty.string_of_uint u))
  = false.
Proof. induction u; simpl; auto. Qed.

Lemma int_digits_no_point (n : Z) :
  existsb (Ascii.eqb ".") (list_ascii_of_string (int_digits n)) = false.
Proof.
  unfold int_digits, NilZero.string_of_uint.
  destruct (N.to_uint (Z.to_N n)); try apply string_of_uint_no_point.
  reflexivity.
Qed.

Lemma fixed_has_decimals (nd : nat) (negative : bool) (n : Z) :
  has_decimals (S nd) (fixed (S nd) negative n).
Proof.
  unfold has_decimals, fixed.
  exists ((if negative then "-" else EmptyString)
          ++ int_digits (n / 10 ^ Z.of_nat (S nd)))%string.
  exists (frac_digits (S nd) (n mod 10 ^ Z.of_nat (S nd))).
  split; [ | split; [ | split]].
  - induction (if negative then "-" else EmptyString)%string as [|c s IH];
      simpl; [reflexivity|]. f_equal. exact IH.
  - apply frac_digits_length.
  - apply frac_digits_digits.
  - rewrite list_ascii_app, existsb_app, int_digits_no_point.
    destruct negative; reflexivity.
Qed.

(** A finite float printed with [.4f] ends in a point and four digits. *)
Lemma format_fixed_has_decimals (f : float) :
  F64.is_finite f = true -> has_decimals 4 (format_fixed 4 f).
Proof.
  unfold F64.is_finite, format_fixed.
  destruct (Prim2SF f); intros H; try discriminate;
    apply fixed_has_decimals.
Qed.

End FixedFormat.

(* ================================================================== *)
(** * The feature cells of the report *)
(* ================================================================== *)

Section Report.

(** C9 (as the code has it). In the exported record every feature of the
    vector has its cell, under its display label.  A feature whose value is
    a float is written with [.4f]: exactly four decimals when the float is
    finite.  A feature whose value is an int (the fixed defaults, the
    flags, the month, a guarded ratio that fell back to 0) is exported as
    that int, unformatted.  The identifying fields and the prediction
    result come first, the probability with four decimals. *)
Theorem report_row_feature_cells
    (sel_name ticker country sector sel_period_label : string)
    (now : datetime) (pred : Z) (prob : float) (risk : risk_level)
    (data : Snapshot) (today : datetime) (d : Metrics) :
  calculate_all_metrics data today = Some d ->
  let row := report_row sel_name ticker country sector sel_period_label
                        now pred prob risk d in
  keys row = REPORT_FIELDS ++ _labels SELECTED_FEATURES /\
  dict_get row "Probability" = Some (CStr (Fmt.format_fixed 4 prob)) /\
  (forall k v, In (k, v) d ->
     dict_get row (feature_label k) = Some (report_cell v) /\
     (forall f, v = PFloat f ->
        report_cell v = CStr (Fmt.format_fixed 4 f) /\
        (F64.is_finite f = true ->
         Fmt.has_decimals 4 (Fmt.format_fixed 4 f))) /\
     (forall n, v = PInt n -> report_cell v = CVal (PInt n))).
Proof.
  intros H row.
  apply calculate_all_metrics_Some in H.
  destruct H as (f & m & r & x & _ & _ & _ & _ & ->).
  set (d := feature_dict today m r x) in *.
  set (cells := map (fun kv : string * pyval =>
                       (feature_label (fst kv), report_cell (snd kv))) d).
  assert (Kc : keys cells = _labels SELECTED_FEATURES).
  { unfold cells, keys. rewrite map_map. reflexivity. }
  assert (Nc : NoDup (keys cells)).
  { rewrite Kc. apply nodupb_NoDup. reflexivity. }
  assert (E : row =
    [ ("Company", CStr sel_name); ("Ticker", CStr ticker);
      ("Country", CStr country); ("Sector", CStr sector);
      ("Period", CStr sel_period_label); ("Date", CStr (strftime_Ymd now));
      ("Result", CStr (if (pred =? 1)%Z then "Distressed" else "Healthy"));
      ("Probability", CStr (Fmt.format_fixed 4 prob));
      ("Risk Level", CStr (risk_name risk)) ] ++ cells).
  { unfold row, report_row, report_features. fold cells.
    rewrite (dict_of_distinct cells Nc).
    rewrite dict_of_distinct by (apply nodupb_NoDup; reflexivity).
    apply fold_dict_set_new; [exact Nc|].
    rewrite Kc. intros k Hk.
    simpl in Hk.
    repeat (destruct Hk as [<- | Hk];
            [ simpl; intros Hin;
              repeat (destruct Hin as [Hin | Hin]; [discriminate Hin|]);
              exact Hin | ]).
    contradiction. }
  split; [ | split].
  - rewrite E. unfold keys. rewrite map_app. fold (keys cells).
    rewrite Kc. reflexivity.
  - rewrite E. reflexivity.
  - intros k v Hin. split; [ | split].
    + rewrite E, dict_get_app.
      assert (Hc : dict_get cells (feature_label k) = Some (report_cell v)).
      { apply dict_get_In; [exact Nc|]. unfold cells.
        apply in_map_iff. exists (k, v). auto. }
      rewrite Hc.
      assert (Hlab : In (feature_label k) (_labels SELECTED_FEATURES)).
      { unfold _labels. apply in_map. change SELECTED_FEATURES with (keys d).
        unfold keys. apply in_map_iff. exists (k, v). auto. }
      simpl in Hlab.
      repeat (destruct Hlab as [<- | Hlab]; [reflexivity|]).
      contradiction.
    + intros f0 ->. split; [reflexivity|].
      apply format_fixed_has_decimals.
    + intros n ->. reflexivity.
Qed.

End Report.

Section ReportSamples.
Local Open Scope float_scope.

(** C9, as stated, fails: for the scenario company the features US_10Y,
    RSI_14 and Month_x are exported as the integers 0, 50 and 2, not as
    strings with four decimals, while Equity_Ratio is exported as
    ["0.4000"]. *)
Lemma report_integer_cells_unformatted :
  exists d,
    calculate_all_metrics Samples.scenario_snapshot Samples.today = Some d /\
    dict_get (scenario_row d) (feature_label "US_10Y") = Some (CVal (PInt 0)) /\
    dict_get (scenario_row d) (feature_label "RSI_14") = Some (CVal (PInt 50)) /\
    dict_get (scenario_row d) (feature_label "Month_x") = Some (CVal (PInt 2)) /\
    dict_get (scenario_row d) (feature_label "Equity_Ratio")
    = Some (CStr "0.4000").
Proof.
  eexists. split; [vm_compute; reflexivity|].
  repeat split; vm_compute; reflexivity.
Qed.

Lemma report_row_feature_cells_witness :
  exists d,
    calculate_all_metrics Samples.scenario_snapshot Samples.today = Some d /\
    dict_get (scenario_row d) "Probability" = Some (CStr "0.6200").
Proof.
  eexists. split; [vm_compute; reflexivity|].
  eapply (report_row_feature_cells "Almarai" "2280.SR" "Saudi Arabia"
            "Food & Beverages" "1 Year" Samples.today 1 0.62 High
            Samples.scenario_snapshot Samples.today).
  vm_compute. reflexivity.
Defined.

End ReportSamples.

(* ================================================================== *)
(** * The category partition and the category sums *)
(* ================================================================== *)

Lemma nodup_nat_NoDup (l : list nat) : nodup_nat l = true -> NoDup l.
Proof.
  induction l as [|x l IH]; simpl; intros H; constructor.
  - apply andb_prop in H. destruct H as [H _]. apply negb_true_iff in H.
    intros Hin.
    assert (E : existsb (Nat.eqb x) l = true).
    { apply existsb_exists. exists x. split; [assumption|apply Nat.eqb_refl]. }
    congruence.
  - apply andb_prop in H. apply IH, H.
Qed.

Lemma subset_nat_incl (l l' : list nat) : subset_nat l l' = true -> incl l l'.
Proof.
  unfold subset_nat. rewrite forallb_forall. intros H x Hx.
  specialize (H x Hx). apply existsb_exists in H.
  destruct H as (y & Hy & E). apply Nat.eqb_eq in E. subst. exact Hy.
Qed.

Lemma same_positions_Permutation (l l' : list nat) :
  same_positions l l' = true -> Permutation l l'.
Proof.
  unfold same_positions. intros H.
  apply andb_prop in H. destruct H as [H H4].
  apply andb_prop in H. destruct H as [H H3].
  apply andb_prop in H. destruct H as [H1 H2].
  apply NoDup_Permutation.
  - apply nodup_nat_NoDup, H1.
  - apply nodup_nat_NoDup, H2.
  - intros x. split; [apply subset_nat_incl, H3 | apply subset_nat_incl, H4].
Qed.

Lemma mapM_map {A B : Type} (f : A -> py B) (g : A -> B) (xs : list A) :
  (forall x, In x xs -> f x = Ok (g x)) -> mapM f xs = Ok (map g xs).
Proof.
  induction xs as [|x xs IH]; simpl; intros H; [reflexivity|].
  rewrite (H x) by auto. simpl. rewrite IH by auto. reflexivity.
Qed.

Lemma take_map {A : Type} (d : A) (vals : list A) (idx : list nat) :
  (forall i, In i idx -> i < List.length vals) ->
  take vals idx = Ok (map (fun i => nth i vals d) idx).
Proof.
  intros H. unfold take. apply mapM_map. intros i Hi.
  destruct (nth_error vals i) as [v|] eqn:E.
  - rewrite (nth_error_nth _ _ d E). reflexivity.
  - apply nth_error_None in E. specialize (H i Hi). lia.
Qed.

Lemma map_nth_seq {A : Type} (d : A) (vals : list A) :
  map (fun i => nth i vals d) (seq 0 (List.length vals)) = vals.
Proof.
  apply (nth_ext _ _ d d).
  - rewrite length_map, length_seq. reflexivity.
  - intros n Hn. rewrite length_map, length_seq in Hn.
    rewrite (nth_indep _ _ (nth 0 vals d))
      by (rewrite length_map, length_seq; exact Hn).
    rewrite (map_nth (fun i => nth i vals d) (seq 0 (List.length vals)) 0 n).
    rewrite seq_nth by exact Hn. reflexivity.
Qed.

(** In binary64, as in any arithmetic, each category sum adds the
    contributions of the category's features in the order the category
    lists them. *)
Lemma cat_vals_sums {A : Type} (add : A -> A -> A) (zero : A) (vals : list A) :
  List.length vals = List.length SELECTED_FEATURES ->
  cat_vals add zero vals
  = Ok (map (fun item : string * list string =>
               (fst item,
                np_sum add zero
                  (map (fun i => nth i vals zero) (positions (snd item)))))
            FEATURE_CATEGORIES).
Proof.
  intros Hlen. unfold cat_vals. apply mapM_map. intros item Hitem.
  rewrite (take_map zero); [reflexivity|].
  intros i Hi. rewrite Hlen.
  assert (B : forallb (fun it : string * list string =>
                         forallb (fun i => (i <? List.length SELECTED_FEATURES)%nat)
                                 (positions (snd it)))
                      FEATURE_CATEGORIES = true) by reflexivity.
  rewrite forallb_forall in B. specialize (B item Hitem).
  rewrite forallb_forall in B. apply Nat.ltb_lt, B, Hi.
Qed.

Section ExactSums.
(** Sums in exact arithmetic: an addition that is associative and
    commutative, with a neutral element (integers, rationals, reals). *)
Context {A : Type}.
Variable add : A -> A -> A.
Variable zero : A.
Hypothesis add_assoc : forall x y z, add x (add y z) = add (add x y) z.
Hypothesis add_comm : forall x y, add x y = add y x.
Hypothesis add_zero_l : forall x, add zero x = x.

Lemma fold_add_Permutation (l l' : list A) :
  Permutation l l' -> forall a, fold_left add l a = fold_left add l' a.
Proof.
  induction 1 as [| x l l' _ IH | x y l | l l' l'' _ IH1 _ IH2];
    intros a; simpl.
  - reflexivity.
  - apply IH.
  - f_equal. rewrite <- !add_assoc. f_equal. apply add_comm.
  - rewrite IH1. apply IH2.
Qed.

Lemma np_sum_Permutation (l l' : list A) :
  Permutation l l' -> np_sum add zero l = np_sum add zero l'.
Proof. intros H. apply fold_add_Permutation, H. Qed.

Lemma fold_add_acc (l : list A) (a : A) :
  fold_left add l a = add a (fold_left add l zero).
Proof.
  revert a. induction l as [|x l IH]; intros a; simpl.
  - rewrite add_comm, add_zero_l. reflexivity.
  - rewrite IH, (IH (add zero x)), add_zero_l, add_assoc. reflexivity.
Qed.

Lemma np_sum_concat (groups : list (list A)) :
  np_sum add zero (map (np_sum add zero) groups)
  = np_sum add zero (List.concat groups).
Proof.
  unfold np_sum. induction groups as [|g groups IH]; [reflexivity|].
  cbn [map fold_left List.concat]. rewrite fold_left_app.
  rewrite (fold_add_acc (map _ groups) (add zero _)).
  rewrite (fold_add_acc (List.concat groups) (fold_left add g zero)).
  rewrite add_zero_l. f_equal. exact IH.
Qed.

(** C5 (with 45 features, in exact arithmetic). The six categories list
    every canonical feature exactly once: their feature sets are pairwise
    disjoint and jointly cover the 45 canonical features.  For every vector
    of 45 contributions the aggregation returns six sums, in category
    order; each is the sum of the contributions of exactly the features of
    its category; and the six sums add up to the sum of all 45
    contributions. *)
Theorem category_sums_partition (vals : list A) :
  List.length vals = List.length SELECTED_FEATURES ->
  List.length SELECTED_FEATURES = 45 /\
  NoDup (List.concat (values FEATURE_CATEGORIES)) /\
  Permutation (List.concat (values FEATURE_CATEGORIES)) SELECTED_FEATURES /\
  (forall f, In f SELECTED_FEATURES -> exists cat, categories_of f = [cat]) /\
  exists sums,
    cat_vals add zero vals = Ok sums /\
    keys sums = keys FEATURE_CATEGORIES /\
    List.length sums = 6 /\
    (forall cat s, In (cat, s) sums ->
       s = np_sum add zero
             (map (fun i => nth i vals zero) (canonical_positions cat))) /\
    np_sum add zero (values sums) = np_sum add zero vals.
Proof.
  intros Hlen.
  split; [reflexivity|].
  split; [apply nodupb_NoDup; reflexivity|].
  split.
  { apply NoDup_Permutation.
    - apply nodupb_NoDup. reflexivity.
    - apply SELECTED_FEATURES_NoDup.
    - intros f. split; intros H; simpl in H |- *;
        repeat (destruct H as [<- | H]; [tauto|]); contradiction. }
  split.
  { intros f H. simpl in H.
    repeat (destruct H as [<- | H]; [eexists; reflexivity|]).
    contradiction. }
  set (nthv := fun i => nth i vals zero).
  set (sums := map (fun item : string * list string =>
                      (fst item, np_sum add zero (map nthv (positions (snd item)))))
                   FEATURE_CATEGORIES).
  exists sums. split; [ | split; [ | split; [ | split]]].
  - apply cat_vals_sums, Hlen.
  - unfold sums, keys. rewrite map_map. reflexivity.
  - unfold sums. rewrite length_map. reflexivity.
  - intros cat s Hs. unfold sums in Hs. apply in_map_iff in Hs.
    destruct Hs as (item & E & Hitem). injection E as <- <-.
    apply np_sum_Permutation, Permutation_map.
    apply same_positions_Permutation.
    assert (B : forallb (fun it : string * list string =>
                           same_positions (positions (snd it))
                                          (canonical_positions (fst it)))
                        FEATURE_CATEGORIES = true) by (vm_compute; reflexivity).
    rewrite forallb_forall in B. apply B, Hitem.
  - unfold sums, values. rewrite map_map. cbn [snd].
    rewrite <- (map_map (fun item : string * list string =>
                           map nthv (positions (snd item)))
                        (np_sum add zero)).
    rewrite np_sum_concat.
    rewrite <- (map_map (fun item : string * list string => positions (snd item))
                        (map nthv)).
    rewrite <- concat_map.
    replace (np_sum add zero vals)
      with (np_sum add zero (map nthv (seq 0 (List.length vals))))
      by (unfold nthv; rewrite map_nth_seq; reflexivity).
    apply np_sum_Permutation, Permutation_map.
    rewrite Hlen. apply same_positions_Permutation.
    vm_compute. reflexivity.
Qed.

End ExactSums.

Section CategorySamples.
Local Open Scope float_scope.

Lemma category_sums_partition_witness :
  exists sums,
    cat_vals Z.add 0%Z integer_contributions = Ok sums /\
    np_sum Z.add 0%Z (values sums) = np_sum Z.add 0%Z integer_contributions.
Proof.
  destruct (category_sums_partition Z.add 0%Z Z.add_assoc Z.add_comm
              Z.add_0_l integer_contributions eq_refl)
    as (_ & _ & _ & _ & sums & H1 & _ & _ & _ & H2).
  exists sums. split; assumption.
Defined.

(** C5, as stated, fails: the canonical list has 45 features, not 44; and
    in binary64 the six category sums (here 1, 0, 0, 0, 0, 0) need not add
    up to the left-to-right sum of the 45 contributions (here 0). *)
Lemma category_sums_not_44_exact :
  List.length SELECTED_FEATURES = 45%nat /\
  List.length SELECTED_FEATURES <> 44%nat /\
  List.length (List.concat (values FEATURE_CATEGORIES)) = 45%nat /\
  List.length cancelling_contributions = 45%nat /\
  exists sums,
    shap_category_values cancelling_contributions = Ok sums /\
    F64.sum (values sums) = 1 /\
    F64.sum cancelling_contributions = 0 /\
    F64.sum (values sums) <> F64.sum cancelling_contributions.
Proof.
  split; [reflexivity|]. split; [discriminate|].
  split; [reflexivity|]. split; [reflexivity|].
  eexists. split; [vm_compute; reflexivity|].
  split; [vm_compute; reflexivity|]. split; [vm_compute; reflexivity|].
  intros H. vm_compute in H.
  assert (E : PrimFloat.eqb 1 0 = true) by (rewrite H; reflexivity).
  vm_compute in E. discriminate E.
Qed.

End CategorySamples.

(* ================================================================== *)
(** * The relative-strength index when no recent change is a loss *)
(* ================================================================== *)

Section RSI.
Import F64Facts.
Local Open Scope float_scope.

Lemma last_map_default {A B : Type} (g : A -> B) (l : list A) (d : A) :
  last (map g l) (g d) = g (last l d).
Proof.
  induction l as [|x [|y l] IH]; try reflexivity.
  change (last (map g (y :: l)) (g d) = g (last (y :: l) d)). exact IH.
Qed.

Lemma last_map2 {A B C : Type} (f : A -> B -> C) (xs : list A) (ys : list B)
    (dx : A) (dy : B) :
  List.length xs = List.length ys ->
  last (Pd.map2 f xs ys) (f dx dy) = f (last xs dx) (last ys dy).
Proof.
  revert ys. induction xs as [|x xs IH]; intros [|y ys] H;
    try discriminate; [reflexivity|].
  injection H as H. specialize (IH ys H).
  destruct xs as [|x' xs], ys as [|y' ys]; try discriminate; [reflexivity|].
  exact IH.
Qed.

Lemma rolling_mean_length (n : nat) (xs : list float) :
  List.length (Pd.rolling_mean n xs) = List.length xs.
Proof. unfold Pd.rolling_mean. rewrite length_map, length_seq. reflexivity. Qed.

(** The last value of a rolling mean is the mean of the last window. *)
Lemma rolling_mean_last (n : nat) (xs : list float) :
  xs <> [] ->
  last (Pd.rolling_mean n xs) nan = Pd.window_mean n (Pd.tail n xs).
Proof.
  intros Hne. unfold Pd.rolling_mean.
  destruct (List.length xs) as [|k] eqn:E.
  { destruct xs; [contradiction | discriminate]. }
  rewrite seq_S, map_app. cbn [map]. rewrite last_last. cbn [Nat.add].
  rewrite <- E, firstn_all. reflexivity.
Qed.

Lemma tail_map {A B : Type} (g : A -> B) (n : nat) (l : list A) :
  Pd.tail n (map g l) = map g (Pd.tail n l).
Proof. unfold Pd.tail. rewrite length_map, skipn_map. reflexivity. Qed.

Lemma tail_length_le {A : Type} (n : nat) (l : list A) :
  List.length (Pd.tail n l) <= n.
Proof. unfold Pd.tail. rewrite length_skipn. lia. Qed.

(** The losses of a window without a negative change are all [-0.0]. *)
Lemma losses_without_loss (w : list float) :
  (forall d, In d w -> (d <? 0) = false) ->
  map PrimFloat.opp (Pd.where_ (fun d => d <? 0) w 0)
  = repeat (-0) (List.length w).
Proof.
  induction w as [|d w IH]; intros H; [reflexivity|].
  cbn [Pd.where_ map List.length repeat].
  rewrite (H d) by (left; reflexivity). f_equal.
  apply IH. intros d' Hd'. apply H. right. exact Hd'.
Qed.

(** The mean of a window of at most 14 such losses is NaN (window not
    full) or 0, and [replace(0, nan)] turns both into NaN. *)
Lemma window_of_zero_losses (k : nat) :
  k <= 14 ->
  (fun x => if x =? 0 then nan else x) (Pd.window_mean 14 (repeat (-0) k))
  = nan.
Proof.
  intros H.
  do 15 (destruct k as [|k]; [vm_compute; reflexivity|]). lia.
Qed.

(** With no negative change among the last 14, the last RSI value is
    NaN. *)
Lemma rsi_last_nan (hist : History) :
  (forall d, In d (Pd.tail 14 (delta hist)) -> (d <? 0) = false) ->
  Pd.iloc_last (Pd.replace_0_nan (loss hist)) = nan /\
  Pd.iloc_last (rsi_s hist) = nan.
Proof.
  intros H. unfold Pd.iloc_last.
  assert (Hloss : last (Pd.replace_0_nan (loss hist)) nan = nan).
  { unfold Pd.replace_0_nan.
    change nan with ((fun x => if x =? 0 then nan else x) nan) at 2.
    rewrite last_map_default. unfold loss.
    set (L := map PrimFloat.opp (Pd.where_ (fun d => d <? 0) (delta hist) 0)).
    assert (T : Pd.tail 14 L
                = repeat (-0) (List.length (Pd.tail 14 (delta hist)))).
    { unfold L. rewrite tail_map. unfold Pd.where_. rewrite tail_map.
      apply (losses_without_loss _ H). }
    destruct L as [|l0 L'] eqn:EL; [reflexivity|].
    rewrite rolling_mean_last by discriminate. rewrite T.
    apply window_of_zero_losses, tail_length_le. }
  split; [exact Hloss|].
  unfold rsi_s, rs.
  change nan with (neutral_input nan) at 1.
  change (fun r => 100 - 100 / (1 + r)) with neutral_input.
  rewrite last_map_default.
  change nan with (nan / nan) at 1.
  rewrite last_map2.
  - rewrite Hloss, div_nan_r. reflexivity.
  - unfold gain, loss, Pd.replace_0_nan.
    rewrite length_map, !rolling_mean_length.
    unfold Pd.where_. rewrite !length_map. reflexivity.
Qed.

Lemma rsi14_neutral (hist : History) :
  (forall d, In d (Pd.tail 14 (delta hist)) -> (d <? 0) = false) ->
  rsi14_of hist = PInt 50.
Proof.
  intros H. unfold rsi14_of.
  destruct (rsi_last_nan hist H) as [_ ->].
  rewrite andb_comm. reflexivity.
Qed.

(** C10. For every price history whose last 14 daily changes are all
    non-negative the average loss is replaced by NaN before the division,
    the last RSI value is NaN, and the extraction returns RSI_14 = 50 (the
    neutral default); it does return a vector when the fallbacks read from
    [info] are plain. *)
Theorem rsi_without_losses_is_neutral (data : Snapshot) (today : datetime) :
  (forall d, In d (Pd.tail 14 (delta (history data))) -> F64.geb d 0 = true) ->
  Pd.iloc_last (Pd.replace_0_nan (loss (history data))) = nan /\
  Pd.iloc_last (rsi_s (history data)) = nan /\
  (forall m, calculate_all_metrics data today = Some m ->
             dict_get m "RSI_14" = Some (PInt 50)) /\
  (plain_info data ->
   exists m, calculate_all_metrics data today = Some m /\
             dict_get m "RSI_14" = Some (PInt 50)).
Proof.
  intros H.
  assert (H' : forall d, In d (Pd.tail 14 (delta (history data))) ->
                         (d <? 0) = false).
  { intros d Hd. apply leb_not_ltb, (H d Hd). }
  destruct (rsi_last_nan _ H') as [E1 E2].
  assert (G : forall m, calculate_all_metrics data today = Some m ->
                        dict_get m "RSI_14" = Some (PInt 50)).
  { intros m Hm. apply calculate_all_metrics_Some in Hm.
    destruct Hm as (f & mk & r & x & _ & Hmk & _ & _ & ->).
    unfold market_of in Hmk. bind_inv Hmk. injection Hmk as <-.
    cbn. rewrite (rsi14_neutral _ H'). reflexivity. }
  repeat split; try assumption.
  intros Hp. destruct (calculate_all_metrics_total data today Hp) as (m & Hm).
  exists m. split; [exact Hm | apply G, Hm].
Qed.

Lemma rsi_without_losses_is_neutral_witness :
  exists m,
    calculate_all_metrics Samples.scenario_snapshot Samples.today = Some m /\
    dict_get m "RSI_14" = Some (PInt 50).
Proof.
  apply (rsi_without_losses_is_neutral Samples.scenario_snapshot Samples.today).
  - intros d Hd. vm_compute in Hd.
    repeat (destruct Hd as [<- | Hd]; [vm_compute; reflexivity|]).
    contradiction.
  - split; reflexivity.
Defined.

End RSI.

(* ================================================================== *)
(** * Ranking by absolute contribution *)
(* ================================================================== *)

Section SortedOrders.
Import F64Facts.
Local Open Scope float_scope.

Variable keys : list float.
Hypothesis keys_numbers : forallb (fun k => negb (F64.isnan k)) keys = true.

Lemma key_number (i : nat) : in_range keys i -> F64.isnan (key keys i) = false.
Proof.
  intros H. rewrite forallb_forall in keys_numbers.
  apply negb_true_iff, keys_numbers, nth_In, H.
Qed.

Lemma may_precede_outranks (i j : nat) :
  in_range keys i -> in_range keys j ->
  Ranking.may_precede (key keys i) (key keys j) = (key keys j <=? key keys i).
Proof.
  intros Hi Hj. unfold Ranking.may_precede, Ranking.before.
  rewrite (key_number i Hi), (key_number j Hj). simpl.
  rewrite (ltb_negb_leb (key keys j) (key keys i)) by (apply key_number; assumption).
  apply negb_involutive.
Qed.

Lemma before_strictly (i j : nat) :
  in_range keys i -> in_range keys j ->
  Ranking.before (key keys j) (key keys i) = (key keys i <? key keys j).
Proof.
  intros Hi Hj. unfold Ranking.before.
  rewrite (key_number i Hi), (key_number j Hj). reflexivity.
Qed.

Lemma outranks_trans : Relations_1.Transitive (outranks keys).
Proof.
  intros i j k Hij Hjk. unfold outranks in *. eapply leb_trans; eassumption.
Qed.

Lemma descending_Sorted (order : list nat) :
  Forall (in_range keys) order ->
  Ranking.descending (map (key keys) order) = true -> Sorted (outranks keys) order.
Proof.
  induction order as [|i [|j rest] IH]; intros Hr H.
  - constructor.
  - repeat constructor.
  - inversion Hr as [|? ? Hi Hr']; subst.
    inversion Hr' as [|? ? Hj _]; subst.
    cbn [map Ranking.descending] in H. apply andb_prop in H.
    destruct H as [H1 H2]. constructor.
    + apply IH; assumption.
    + constructor. unfold outranks.
      rewrite <- (may_precede_outranks i j Hi Hj). exact H1.
Qed.

Lemma range_Permutation (order : list nat) :
  Ranking.is_permutation_of_range order (List.length keys) = true ->
  Permutation order (seq 0 (List.length keys)).
Proof.
  unfold Ranking.is_permutation_of_range. intros H.
  apply andb_prop in H. destruct H as [Hl Hall].
  apply Nat.eqb_eq in Hl. symmetry. apply NoDup_Permutation_bis.
  - apply seq_NoDup.
  - rewrite length_seq. lia.
  - intros i Hi. rewrite forallb_forall in Hall. specialize (Hall i Hi).
    apply existsb_exists in Hall. destruct Hall as (j & Hj & E).
    apply Nat.eqb_eq in E. subst. exact Hj.
Qed.

Lemma Permutation_in_range (order : list nat) :
  Permutation order (seq 0 (List.length keys)) -> Forall (in_range keys) order.
Proof.
  intros H. apply Forall_forall. intros i Hi.
  apply (Permutation_in _ H), in_seq in Hi. unfold in_range. lia.
Qed.

(** An admissible order is a permutation of the positions in which every
    position outranks all that follow it. *)
Lemma descending_order_sorted (order : list nat) :
  Ranking.is_descending_order keys order = true ->
  Permutation order (seq 0 (List.length keys)) /\
  StronglySorted (outranks keys) order.
Proof.
  unfold Ranking.is_descending_order. intros H.
  apply andb_prop in H. destruct H as [Hp Hd].
  pose proof (range_Permutation order Hp) as P. split; [exact P|].
  apply (Sorted_StronglySorted outranks_trans).
  apply descending_Sorted; [apply Permutation_in_range, P | exact Hd].
Qed.

Lemma StronglySorted_filter (R : nat -> nat -> Prop) (p : nat -> bool)
    (l : list nat) :
  StronglySorted R l -> StronglySorted R (filter p l).
Proof.
  induction 1 as [|a l Hs IH Ha]; simpl; [constructor|].
  destruct (p a); [ | exact IH].
  constructor; [exact IH|].
  apply Forall_forall. intros x Hx. apply filter_In in Hx.
  rewrite Forall_forall in Ha. apply Ha, Hx.
Qed.

(** In a sorted list every element of a prefix outranks every element
    outside it. *)
Lemma StronglySorted_prefix (R : nat -> nat -> Prop) (n : nat) (l : list nat) :
  StronglySorted R l ->
  forall i j, In i (firstn n l) -> In j l -> ~ In j (firstn n l) -> R i j.
Proof.
  intros Hs. revert n. induction Hs as [|a l Hs IH Ha]; intros n i j Hi Hj Hn.
  - destruct n; contradiction.
  - destruct n as [|n]; [contradiction|]. cbn [firstn] in Hi, Hn.
    destruct Hj as [<- | Hj]; [exfalso; apply Hn; left; reflexivity|].
    destruct Hi as [<- | Hi].
    + rewrite Forall_forall in Ha. apply Ha, Hj.
    + apply (IH n); [exact Hi | exact Hj | ].
      intros H. apply Hn. right. exact H.
Qed.

(** ** The stable order *)

Lemma insert_Permutation (i : nat) (l : list nat) :
  Permutation (Ranking.insert keys i l) (i :: l).
Proof.
  induction l as [|j rest IH]; simpl; [reflexivity|].
  destruct (Ranking.before _ _); [ | reflexivity].
  rewrite IH. apply perm_swap.
Qed.

Lemma fold_insert_Permutation (l : list nat) :
  Permutation (fold_right (Ranking.insert keys) [] l) l.
Proof.
  induction l as [|i l IH]; simpl; [reflexivity|].
  rewrite insert_Permutation. constructor. exact IH.
Qed.

Lemma stable_order_Permutation :
  Permutation (Ranking.stable_order keys) (seq 0 (List.length keys)).
Proof. apply fold_insert_Permutation. Qed.

Lemma insert_Sorted (i : nat) (l : list nat) :
  in_range keys i -> Forall (in_range keys) l ->
  Sorted (outranks keys) l -> Sorted (outranks keys) (Ranking.insert keys i l).
Proof.
  intros Hi. induction l as [|j rest IH]; intros Hr Hs.
  - repeat constructor.
  - inversion Hr as [|? ? Hj Hr']; subst.
    inversion Hs as [|? ? Hs' Hd]; subst.
    cbn [Ranking.insert]. fold (key keys i) (key keys j).
    rewrite (before_strictly i j Hi Hj).
    destruct (key keys i <? key keys j) eqn:E.
    + constructor; [apply IH; assumption|].
      destruct rest as [|j' rest'].
      * constructor. apply ltb_leb, E.
      * cbn [Ranking.insert].
        destruct (Ranking.before _ _); constructor.
        -- inversion Hd; assumption.
        -- apply ltb_leb, E.
    + constructor; [exact Hs|]. constructor. unfold outranks.
      rewrite (ltb_negb_leb (key keys j) (key keys i)) in E
        by (apply key_number; assumption).
      apply negb_false_iff, E.
Qed.

Lemma fold_insert_Sorted (l : list nat) :
  Forall (in_range keys) l -> Sorted (outranks keys) (fold_right (Ranking.insert keys) [] l).
Proof.
  induction l as [|i l IH]; intros Hr; simpl; [constructor|].
  inversion Hr as [|? ? Hi Hr']; subst.
  apply insert_Sorted; [exact Hi | | apply IH, Hr'].
  apply Forall_forall. intros x Hx.
  apply (Permutation_in _ (fold_insert_Permutation l)) in Hx.
  rewrite Forall_forall in Hr'. apply Hr', Hx.
Qed.

Lemma stable_order_sorted : StronglySorted (outranks keys) (Ranking.stable_order keys).
Proof.
  apply (Sorted_StronglySorted outranks_trans), fold_insert_Sorted.
  apply Forall_forall. intros i Hi. apply in_seq in Hi. unfold in_range. lia.
Qed.

(** ** Without ties the order is unique *)

Lemma strict_of_sorted (l : list nat) :
  no_ties keys -> Forall (in_range keys) l -> NoDup l ->
  StronglySorted (outranks keys) l -> StronglySorted (strictly_outranks keys) l.
Proof.
  intros T Hr Hn Hs. induction Hs as [|a l Hs IH Ha]; [constructor|].
  inversion Hr as [|? ? Hra Hr']; subst.
  inversion Hn as [|? ? Hna Hn']; subst.
  constructor; [apply IH; assumption|].
  apply Forall_forall. intros j Hj.
  rewrite Forall_forall in Ha, Hr'. unfold strictly_outranks.
  apply leb_neq_ltb; [apply Ha, Hj|].
  apply T; [apply Hr', Hj | exact Hra | ].
  intros ->. contradiction.
Qed.

Lemma strictly_sorted_unique (l1 l2 : list nat) :
  StronglySorted (strictly_outranks keys) l1 ->
  StronglySorted (strictly_outranks keys) l2 ->
  Permutation l1 l2 -> l1 = l2.
Proof.
  intros H1. revert l2. induction H1 as [|a l1 H1 IH Ha]; intros l2 H2 P.
  - apply Permutation_nil in P. subst. reflexivity.
  - destruct l2 as [|b l2].
    { symmetry in P. apply Permutation_nil in P. discriminate. }
    apply StronglySorted_inv in H2. destruct H2 as [H2 Hb].
    assert (E : a = b).
    { assert (Ia : In a (b :: l2))
        by (apply (Permutation_in _ P); left; reflexivity).
      assert (Ib : In b (a :: l1))
        by (apply (Permutation_in _ (Permutation_sym P)); left; reflexivity).
      destruct Ia as [-> | Ia]; [reflexivity|].
      destruct Ib as [-> | Ib]; [reflexivity|].
      rewrite Forall_forall in Ha, Hb.
      specialize (Ha b Ib). specialize (Hb a Ia).
      unfold strictly_outranks in Ha, Hb.
      apply ltb_asym in Ha. congruence. }
    subst b. f_equal. apply IH; [exact H2|].
    apply (Permutation_cons_inv P).
Qed.

Lemma descending_order_unique (order : list nat) :
  no_ties keys ->
  Ranking.is_descending_order keys order = true ->
  order = Ranking.stable_order keys.
Proof.
  intros T H. destruct (descending_order_sorted order H) as [P S].
  apply strictly_sorted_unique.
  - apply strict_of_sorted; try assumption.
    + apply Permutation_in_range, P.
    + apply (Permutation_NoDup (Permutation_sym P)), seq_NoDup.
  - apply strict_of_sorted; try assumption.
    + apply Permutation_in_range, stable_order_Permutation.
    + apply (Permutation_NoDup (Permutation_sym stable_order_Permutation)),
        seq_NoDup.
    + apply stable_order_sorted.
  - rewrite P. symmetry. apply stable_order_Permutation.
Qed.

End SortedOrders.

(* ================================================================== *)
(** * What the narrative selects *)
(* ================================================================== *)

Section NarrativeSelection.
Import F64Facts.
Local Open Scope float_scope.

Lemma StronglySorted_impl {A : Type} (R R' : A -> A -> Prop) (l : list A) :
  (forall a b, R a b -> R' a b) -> StronglySorted R l -> StronglySorted R' l.
Proof.
  intros H. induction 1 as [|a l Hs IH Ha]; constructor; [exact IH|].
  apply Forall_forall. intros b Hb. rewrite Forall_forall in Ha.
  apply H, Ha, Hb.
Qed.

Lemma key_abs (shap_vals : list float) (i : nat) :
  key (map abs shap_vals) i = abs (nth i shap_vals nan).
Proof.
  unfold key. change nan with (abs nan) at 1. apply map_nth.
Qed.

Lemma abs_numbers (shap_vals : list float) :
  forallb (fun v => negb (F64.isnan v)) shap_vals = true ->
  forallb (fun k => negb (F64.isnan k)) (map abs shap_vals) = true.
Proof.
  intros H. rewrite forallb_forall in *. intros k Hk.
  apply in_map_iff in Hk. destruct Hk as (v & <- & Hv).
  rewrite isnan_abs. apply H, Hv.
Qed.

(** The rows of [df_abs]: label and contribution of each ranked position. *)
Lemma reindex_rows (order : list nat) (shap_vals : list float) :
  List.length shap_vals = List.length SELECTED_FEATURES ->
  reindex order (combine (_labels SELECTED_FEATURES) shap_vals)
  = map (fun i => (label_at i, nth i shap_vals nan)) order.
Proof.
  intros H. unfold reindex. apply map_ext. intros i.
  apply combine_nth. unfold _labels. rewrite length_map. symmetry. exact H.
Qed.


End NarrativeSelection.

Section RankingSamples.
Local Open Scope float_scope.



End RankingSamples.

(* ================================================================== *)
(** * Short price histories *)
(* ================================================================== *)

Section ShortHistory.
Import F64Facts.
Local Open Scope float_scope.

Lemma map2_length_le {A B C : Type} (f : A -> B -> C) (xs : list A)
    (ys : list B) :
  (List.length (Pd.map2 f xs ys) <= List.length xs)%nat.
Proof.
  revert ys. induction xs as [|x xs IH]; intros [|y ys]; simpl; try lia.
  specialize (IH ys). lia.
Qed.

Lemma filter_length_le {A : Type} (p : A -> bool) (l : list A) :
  (List.length (filter p l) <= List.length l)%nat.
Proof.
  induction l as [|x l IH]; simpl; [lia|]. destruct (p x); simpl; lia.
Qed.

(** The first percentage change has no predecessor: it is NaN and
    [dropna] removes it, so there is one return fewer than there are
    rows. *)
Lemma rets_length (hist : History) :
  (List.length (rets hist) <= List.length hist - 1)%nat.
Proof.
  unfold rets, closes, Pd.pct_change, Pd.shift1.
  destruct hist as [|b hist]; [simpl; lia|].
  cbn [map Pd.map2 List.length]. rewrite div_nan_r.
  change (nan - 1) with nan. unfold Pd.dropna. cbn [filter].
  change (negb (F64.isnan nan)) with false. cbv iota.
  etransitivity; [apply filter_length_le|].
  etransitivity; [apply map2_length_le|].
  rewrite length_map. lia.
Qed.

Lemma window_mean_short (n : nat) (w : list float) :
  (List.length w < n)%nat -> Pd.window_mean n w = nan.
Proof.
  intros H. unfold Pd.window_mean.
  apply Nat.ltb_lt in H. rewrite H. reflexivity.
Qed.

(** The last rolling mean over [n] rows of a series shorter than [n] is
    NaN. *)
Lemma rolling_mean_short (n : nat) (xs : list float) :
  (List.length xs < n)%nat -> Pd.iloc_last (Pd.rolling_mean n xs) = nan.
Proof.
  intros H. unfold Pd.iloc_last. destruct xs as [|x xs]; [reflexivity|].
  rewrite rolling_mean_last by discriminate.
  apply window_mean_short.
  unfold Pd.tail. rewrite length_skipn. lia.
Qed.

Lemma dc_of_short (hist : History) :
  (List.length hist < 200)%nat -> dc_of hist = PInt 0.
Proof.
  intros H. unfold dc_of, ma200.
  rewrite (rolling_mean_short 200) by (unfold closes; rewrite length_map; lia).
  change (F64.isnan nan) with true. cbn [negb].
  rewrite andb_false_r, andb_false_l. reflexivity.
Qed.

(** The last RSI value is NaN whenever the last average loss is. *)
Lemma rsi_last_of_loss (hist : History) :
  Pd.iloc_last (Pd.replace_0_nan (loss hist)) = nan ->
  Pd.iloc_last (rsi_s hist) = nan.
Proof.
  unfold Pd.iloc_last. intros Hloss. unfold rsi_s, rs.
  change nan with (neutral_input nan) at 1.
  change (fun r => 100 - 100 / (1 + r)) with neutral_input.
  rewrite last_map_default.
  change nan with (nan / nan) at 1.
  rewrite last_map2.
  - rewrite Hloss, div_nan_r. reflexivity.
  - unfold gain, loss, Pd.replace_0_nan.
    rewrite length_map, !rolling_mean_length.
    unfold Pd.where_. rewrite !length_map. reflexivity.
Qed.

Lemma diff_length (xs : list float) :
  List.length (Pd.diff xs) = List.length xs.
Proof.
  unfold Pd.diff, Pd.shift1. destruct xs as [|x xs]; [reflexivity|].
  assert (G : forall (ys zs : list float), List.length ys = List.length zs ->
              List.length (Pd.map2 (fun cur prev => cur - prev) ys zs)
              = List.length ys).
  { induction ys as [|y ys IH]; intros [|z zs] E; simpl in *;
      try discriminate; [reflexivity|]. f_equal. apply IH. lia. }
  apply G. cbn [List.length]. f_equal.
  generalize x. induction xs as [|y ys IH]; intros x0; [reflexivity|].
  change (removelast (x0 :: y :: ys)) with (x0 :: removelast (y :: ys)).
  cbn [List.length]. f_equal. apply IH.
Qed.

Lemma rsi14_of_short (hist : History) :
  (List.length hist < 14)%nat -> rsi14_of hist = PInt 50.
Proof.
  intros H. unfold rsi14_of.
  rewrite rsi_last_of_loss; [rewrite andb_comm; reflexivity|].
  unfold Pd.iloc_last, Pd.replace_0_nan.
  change nan with ((fun x => if x =? 0 then nan else x) nan) at 2.
  rewrite last_map_default.
  fold (Pd.iloc_last (loss hist)). unfold loss.
  rewrite rolling_mean_short; [reflexivity|].
  unfold Pd.where_, delta, closes.
  rewrite !length_map, diff_length, length_map. lia.
Qed.

Lemma vol_20_of_short (hist : History) :
  (List.length hist <= 20)%nat -> vol_20_of hist = PInt 0.
Proof.
  intros H. unfold vol_20_of.
  assert (L := rets_length hist).
  destruct (Nat.leb_spec 20 (List.length (rets hist))); [lia | reflexivity].
Qed.

Lemma lat_ret_of_short (hist : History) :
  (List.length hist <= 1)%nat -> lat_ret_of hist = PInt 0.
Proof.
  intros H. unfold lat_ret_of.
  assert (L := rets_length hist).
  destruct (Nat.ltb_spec 0 (List.length (rets hist))); [lia | reflexivity].
Qed.

(** What a successful extraction holds under the keys computed from the
    market data. *)
Lemma market_features (data : Snapshot) (today : datetime) (d : Metrics) :
  calculate_all_metrics data today = Some d ->
  exists f m x,
    displayed_of data f m = Ok x /\
    lat_ret m = lat_ret_of (history data) /\
    vol_20 m = vol_20_of (history data) /\
    dict_get d "Low" = Some (low x) /\
    dict_get d "Volume" = Some (volume x) /\
    dict_get d "Daily_Return_%" = Some (daily x) /\
    dict_get d "Volatility_20" = Some (vol x) /\
    dict_get d "Price_Range_%" = Some (pr_pct_of (history data)) /\
    dict_get d "Death_Cross" = Some (dc_of (history data)) /\
    dict_get d "True_Range" = Some (tr_of (history data)) /\
    dict_get d "RSI_14" = Some (rsi14_of (history data)) /\
    dict_get d "ROC_20" = Some (roc20_of (history data)).
Proof.
  intros Hd. apply calculate_all_metrics_Some in Hd.
  destruct Hd as (f & m & r & x & _ & Hm & _ & Hx & ->).
  unfold market_of in Hm. bind_inv Hm. injection Hm as <-.
  exists f. eexists. exists x. split; [exact Hx|].
  repeat split; reflexivity.
Qed.

(** X1. With a price history too short for an indicator the extraction
    returns the indicator's default: fewer than 200 rows give
    Death_Cross 0, fewer than 14 give RSI_14 50, at most 20 give
    Volatility_20 0.0 and ROC_20 0.0, at most one gives True_Range 0.0 and
    Daily_Return_% 0, and none gives Low 0, Volume 0 and Price_Range_%
    0.0. *)
Theorem short_history_defaults (data : Snapshot) (today : datetime)
    (d : Metrics) :
  calculate_all_metrics data today = Some d ->
  let n := List.length (history data) in
  ((n < 200)%nat -> dict_get d "Death_Cross" = Some (PInt 0)) /\
  ((n < 14)%nat -> dict_get d "RSI_14" = Some (PInt 50)) /\
  ((n <= 20)%nat -> dict_get d "Volatility_20" = Some (PFloat 0) /\
                    dict_get d "ROC_20" = Some (PFloat 0)) /\
  ((n <= 1)%nat -> dict_get d "True_Range" = Some (PFloat 0) /\
                   dict_get d "Daily_Return_%" = Some (PInt 0)) /\
  (n = 0%nat -> dict_get d "Low" = Some (PInt 0) /\
                dict_get d "Volume" = Some (PInt 0) /\
                dict_get d "Price_Range_%" = Some (PFloat 0)).
Proof.
  intros Hd n.
  destruct (market_features _ _ _ Hd)
    as (f & m & x & Hx & El & Ev & Hlow & Hvolume & Hdaily & Hvol & Hpr
        & Hdc & Htr & Hrsi & Hroc).
  unfold displayed_of in Hx.
  bind_inv Hx. rename a into ret_nan, Ha into Eret.
  bind_inv Hx. rename a into o1, Ha into Eo1.
  bind_inv Hx. rename a into o2, Ha into Eo2.
  bind_inv Hx. rename a into vol_nan, Ha into Evol.
  bind_inv Hx. rename a into v, Ha into Ev'.
  injection Hx as <-. cbn [low volume daily vol] in *.
  split; [|split; [|split; [|split]]].
  - intros H. rewrite Hdc, dc_of_short by exact H. reflexivity.
  - intros H. rewrite Hrsi, rsi14_of_short by exact H. reflexivity.
  - intros H. split.
    + rewrite Hvol. f_equal.
      rewrite Ev, vol_20_of_short in Evol, Ev' by exact H.
      injection Evol as <-. vm_compute in Ev'. congruence.
    + rewrite Hroc. unfold roc20_of.
      destruct (Nat.ltb_spec 20 (List.length (history data)));
        [unfold n in H; lia | reflexivity].
  - intros H. split.
    + rewrite Htr. unfold tr_of.
      destruct (Nat.ltb_spec 1 (List.length (history data)));
        [unfold n in H; lia | reflexivity].
    + rewrite Hdaily. f_equal.
      rewrite El, lat_ret_of_short in Eret |- * by exact H.
      injection Eret as <-. reflexivity.
  - intros H. unfold n in H. rewrite Hlow, Hvolume, Hpr.
    unfold pr_pct_of. rewrite H. repeat split; reflexivity.
Qed.

Lemma short_history_defaults_witness :
  exists d,
    calculate_all_metrics Cases.recent_listing Samples.today = Some d /\
    dict_get d "Death_Cross" = Some (PInt 0) /\
    dict_get d "RSI_14" = Some (PInt 50) /\
    dict_get d "Volatility_20" = Some (PFloat 0).
Proof.
  destruct (calculate_all_metrics Cases.recent_listing Samples.today)
    as [d|] eqn:E; [|vm_compute in E; discriminate].
  exists d. split; [reflexivity|].
  destruct (short_history_defaults _ _ _ E) as (H1 & H2 & H3 & _).
  split; [apply H1; vm_compute; lia|].
  split; [apply H2; vm_compute; lia|].
  apply H3. vm_compute. lia.
Defined.

(** X2. The three guarded market features are never NaN: whatever the
    snapshot, a returned Daily_Return_%, Volatility_20 or RSI_14 that is a
    float is not NaN (a NaN return or volatility is replaced by 0, a NaN
    RSI by 50). *)
Theorem guarded_features_not_nan (data : Snapshot) (today : datetime)
    (d : Metrics) (k : string) (v : float) :
  calculate_all_metrics data today = Some d ->
  In k ["Daily_Return_%"; "Volatility_20"; "RSI_14"] ->
  dict_get d k = Some (PFloat v) ->
  F64.isnan v = false.
Proof.
  intros Hd Hk Hv.
  destruct (market_features _ _ _ Hd)
    as (f & m & x & Hx & El & Ev & _ & _ & Hdaily & Hvol & _ & _ & _ & Hrsi & _).
  unfold displayed_of in Hx.
  bind_inv Hx. rename a into ret_nan, Ha into Eret.
  bind_inv Hx. rename a into o1, Ha into Eo1.
  bind_inv Hx. rename a into o2, Ha into Eo2.
  bind_inv Hx. rename a into vol_nan, Ha into Evol.
  bind_inv Hx. rename a into w, Ha into Ew.
  injection Hx as <-. cbn [low volume daily vol] in *.
  destruct Hk as [<- | [<- | [<- | []]]].
  - rewrite Hdaily in Hv. injection Hv as Hv.
    destruct ret_nan; cbn [negb] in Hv; [discriminate|].
    rewrite Hv in Eret. simpl in Eret. congruence.
  - rewrite Hvol in Hv. injection Hv as ->.
    destruct vol_nan; cbn [negb] in Ew; [discriminate|].
    bind_inv Ew. injection Ew as <-.
    destruct (vol_20 m) as [|z|g]; simpl in *; try discriminate.
    + unfold Py.float_of_int in Ha.
      destruct (F64.is_finite (F64.of_Z z)) eqn:Fin; [|discriminate].
      injection Ha as <-. rewrite isnan_spec.
      unfold F64.is_finite in Fin.
      destruct (Prim2SF (F64.of_Z z)); try discriminate; reflexivity.
    + congruence.
  - rewrite Hrsi in Hv. unfold rsi14_of in Hv.
    destruct (0 <? List.length (rsi_s (history data)))%nat; [|discriminate].
    destruct (F64.isnan (Pd.iloc_last (rsi_s (history data)))) eqn:N;
      [discriminate|].
    simpl in Hv. congruence.
Qed.

Lemma guarded_features_not_nan_witness :
  exists d v,
    calculate_all_metrics Cases.recent_listing Samples.today = Some d /\
    dict_get d "Daily_Return_%" = Some (PFloat v) /\
    F64.isnan v = false.
Proof.
  destruct (calculate_all_metrics Cases.recent_listing Samples.today)
    as [d|] eqn:E; [|vm_compute in E; discriminate].
  destruct (dict_get d "Daily_Return_%") as [[|z|v]|] eqn:G;
    try (vm_compute in E; injection E as <-; vm_compute in G; discriminate).
  exists d, v. split; [reflexivity|]. split; [exact G|].
  apply (guarded_features_not_nan Cases.recent_listing Samples.today d
           "Daily_Return_%" v E); [left; reflexivity | exact G].
Defined.

End ShortHistory.

(* ================================================================== *)
(** * Denominators that are not positive *)
(* ================================================================== *)

Section Denominators.
Local Open Scope float_scope.

Lemma ratio_not_positive (num den : pyval) :
  Py.gt0 den = Ok false -> ratio num den = Ok (PInt 0).
Proof. intros H. unfold ratio. rewrite H. reflexivity. Qed.

Lemma ratio_pct_not_positive (num den : pyval) :
  Py.gt0 den = Ok false -> ratio_pct num den = Ok (PInt 0).
Proof. intros H. unfold ratio_pct. rewrite H. reflexivity. Qed.

Lemma altman_z_not_positive (f : Fundamentals) (wc : pyval) :
  Py.gt0 (assets f) = Ok false -> altman_z f wc = Ok (PFloat 0).
Proof. intros H. unfold altman_z. rewrite H. reflexivity. Qed.

(** A negative or NaN float, like a zero, is not [> 0]. *)
Lemma gt0_negative (x : float) :
  (x <? 0) = true \/ F64.isnan x = true -> Py.gt0 (PFloat x) = Ok false.
Proof.
  intros [H | H]; simpl; unfold F64.gtb; f_equal.
  - apply F64Facts.ltb_asym, H.
  - apply F64Facts.isnan_eq in H. subst. reflexivity.
Qed.

(** X3. A denominator that is not greater than 0 (zero, negative or NaN)
    switches its ratios off: with such total assets Asset_Turnover,
    Equity_Ratio and ROA_% are the integer 0 and
    Altman_Z_Score is 0.0; with such equity Debt_to_Equity and ROE_% are 0;
    with such debt OCF_to_Debt is 0; with such revenue Net_Profit_Margin_%
    is 0.  In particular a company with negative book equity is given a
    Debt_to_Equity and a ROE_% of 0. *)
Theorem non_positive_denominators (data : Snapshot) (today : datetime)
    (f : Fundamentals) (d : Metrics) :
  fundamentals_of data = Ok f ->
  calculate_all_metrics data today = Some d ->
  (Py.gt0 (assets f) = Ok false ->
     dict_get d "Asset_Turnover" = Some (PInt 0) /\
     dict_get d "Equity_Ratio" = Some (PInt 0) /\
     dict_get d "ROA_%" = Some (PInt 0) /\
     dict_get d "Altman_Z_Score" = Some (PFloat 0)) /\
  (Py.gt0 (equity f) = Ok false ->
     dict_get d "Debt_to_Equity" = Some (PInt 0) /\
     dict_get d "ROE_%" = Some (PInt 0)) /\
  (Py.gt0 (debt f) = Ok false ->
     dict_get d "OCF_to_Debt" = Some (PInt 0)) /\
  (Py.gt0 (revenue f) = Ok false ->
     dict_get d "Net_Profit_Margin_%" = Some (PInt 0)) /\
  (forall e, equity f = PFloat e -> (e <? 0) = true ->
     dict_get d "Debt_to_Equity" = Some (PInt 0) /\
     dict_get d "ROE_%" = Some (PInt 0)).
Proof.
  intros Hf Hd.
  apply calculate_all_metrics_Some in Hd.
  destruct Hd as (f' & m & r & x & Hf' & Hm & Hr & Hx & ->).
  rewrite Hf in Hf'. injection Hf' as <-.
  unfold ratios_of in Hr.
  bind_inv Hr. rename a into v_eq_r, Ha into E_eq_r.
  bind_inv Hr. rename a into v_at, Ha into E_at.
  bind_inv Hr. rename a into v_o2d, Ha into E_o2d.
  bind_inv Hr. rename a into v_d2e, Ha into E_d2e.
  bind_inv Hr. rename a into v_roe, Ha into E_roe.
  bind_inv Hr. rename a into v_roa, Ha into E_roa.
  bind_inv Hr. rename a into v_npm, Ha into E_npm.
  bind_inv Hr. rename a into wc, Ha into E_wc.
  bind_inv Hr. rename a into v_z, Ha into E_z.
  injection Hr as <-. simpl.
  assert (HE : Py.gt0 (equity f) = Ok false ->
               Some v_d2e = Some (PInt 0) /\ Some v_roe = Some (PInt 0)).
  { intros H. split.
    - rewrite (ratio_not_positive _ _ H) in E_d2e. congruence.
    - rewrite (ratio_pct_not_positive _ _ H) in E_roe. congruence. }
  split; [|split; [|split; [|split]]].
  - intros H. repeat split.
    + rewrite (ratio_not_positive _ _ H) in E_at. congruence.
    + rewrite (ratio_not_positive _ _ H) in E_eq_r. congruence.
    + rewrite (ratio_pct_not_positive _ _ H) in E_roa. congruence.
    + rewrite (altman_z_not_positive _ _ H) in E_z. congruence.
  - exact HE.
  - intros H. rewrite (ratio_not_positive _ _ H) in E_o2d. congruence.
  - intros H. rewrite (ratio_pct_not_positive _ _ H) in E_npm. congruence.
  - intros e He Hneg. apply HE. rewrite He. apply gt0_negative. left. exact Hneg.
Qed.

Lemma non_positive_denominators_witness :
  exists d,
    calculate_all_metrics Cases.negative_equity Samples.today = Some d /\
    dict_get d "Debt_to_Equity" = Some (PInt 0) /\
    dict_get d "ROE_%" = Some (PInt 0).
Proof.
  destruct (fundamentals_of Cases.negative_equity) as [f|] eqn:F;
    [|vm_compute in F; discriminate].
  destruct (calculate_all_metrics Cases.negative_equity Samples.today)
    as [d|] eqn:E; [|vm_compute in E; discriminate].
  exists d. split; [reflexivity|].
  destruct (non_positive_denominators _ _ _ _ F E) as (_ & _ & _ & _ & H).
  apply (H (-400)).
  - vm_compute in F. injection F as <-. reflexivity.
  - reflexivity.
Defined.

End Denominators.

(* ================================================================== *)
(** * Reading a line item *)
(* ================================================================== *)

Section LineItems.
Local Open Scope float_scope.

Lemma filter_label_count (series : Series) (key : string) :
  List.length (filter (fun kv => String.eqb (fst kv) key) series)
  = count_occ string_dec (labels_of series) key.
Proof.
  induction series as [|[k v] series IH]; [reflexivity|].
  cbn [filter labels_of map fst count_occ].
  destruct (String.eqb_spec k key) as [->|Hne].
  - destruct (string_dec key key) as [_|C]; [|contradiction].
    cbn [List.length]. f_equal. exact IH.
  - destruct (string_dec k key) as [C|_]; [contradiction | exact IH].
Qed.

Lemma gv_absent (series : Series) (key : string) (default : pyval) :
  ~ In key (labels_of series) -> gv series key default = default.
Proof.
  intros H. unfold gv.
  pose proof (filter_label_count series key) as E.
  rewrite (proj1 (count_occ_not_In string_dec _ _) H) in E.
  destruct (filter _ series); [reflexivity | discriminate].
Qed.

Lemma gv_cons_other (l key : string) (v : float) (series : Series)
    (default : pyval) :
  String.eqb l key = false ->
  gv ((l, v) :: series) key default = gv series key default.
Proof. intros H. unfold gv. cbn [filter fst]. rewrite H. reflexivity. Qed.

Lemma gv_cons_new (key : string) (v : float) (series : Series)
    (default : pyval) :
  ~ In key (labels_of series) ->
  gv ((key, v) :: series) key default = PFloat v.
Proof.
  intros H. unfold gv. cbn [filter fst]. rewrite String.eqb_refl.
  pose proof (filter_label_count series key) as E.
  rewrite (proj1 (count_occ_not_In string_dec _ _) H) in E.
  destruct (filter _ series); [reflexivity | discriminate].
Qed.



Lemma calculate_all_metrics_fundamentals (data data' : Snapshot)
    (today : datetime) :
  history data' = history data -> info data' = info data ->
  fundamentals_of data' = fundamentals_of data ->
  calculate_all_metrics data' today = calculate_all_metrics data today.
Proof.
  intros Hh Hi Hf.
  unfold calculate_all_metrics, calculate_all_metrics_body.
  rewrite Hf. unfold market_of, displayed_of. rewrite Hh, Hi. reflexivity.
Qed.

(** X5. A reported zero is treated as a missing figure where the code
    writes [gv(...) or fallback]: a latest cash-flow column that reports
    "Free Cash Flow" as 0 gives the same feature vector as the column
    without that line (the figure is then derived from the operating cash
    flow and the capital expenditures), and a balance sheet that reports
    "Total Debt" as 0 gives the same vector as one without that line (the
    debt is then long-term plus short-term debt). *)
Theorem reported_zero_is_missing (data : Snapshot) (today : datetime)
    (rows : Series) (zero : float) :
  (zero =? 0) = true ->
  (~ In "Free Cash Flow" (labels_of rows) ->
   calculate_all_metrics
     (with_cash_flow data (("Free Cash Flow", zero) :: rows)) today
   = calculate_all_metrics (with_cash_flow data rows) today) /\
  (~ In "Total Debt" (labels_of rows) ->
   calculate_all_metrics
     (with_balance_sheet data (("Total Debt", zero) :: rows)) today
   = calculate_all_metrics (with_balance_sheet data rows) today).
Proof.
  intros Hz. split; intros Hl;
    (apply calculate_all_metrics_fundamentals; [reflexivity | reflexivity |]);
    unfold fundamentals_of, with_cash_flow, with_balance_sheet;
    cbn [cash_flow balance_sheet financials info Pd.latest_column];
    rewrite gv_cons_new by exact Hl;
    rewrite !gv_cons_other by reflexivity;
    rewrite (gv_absent rows _ (PInt 0) Hl);
    unfold Py.or_else at 1 2 3 4; cbn [Py.truthy]; rewrite Hz;
    reflexivity.
Qed.

Lemma reported_zero_is_missing_witness :
  calculate_all_metrics
    (with_cash_flow Samples.scenario_snapshot
       (("Free Cash Flow", 0) :: Cases.cash_flow_lines)) Samples.today
  = calculate_all_metrics
      (with_cash_flow Samples.scenario_snapshot Cases.cash_flow_lines)
      Samples.today.
Proof.
  apply (reported_zero_is_missing Samples.scenario_snapshot Samples.today
           Cases.cash_flow_lines 0 eq_refl).
  vm_compute. intros [H|[H|[]]]; discriminate.
Defined.

End LineItems.

(* ================================================================== *)
(** * From the feature vector to the prediction *)
(* ================================================================== *)

Section Prediction.
Local Open Scope float_scope.

(** Looking up the keys of a dict without repeated keys, in order, returns
    its values: no default is used. *)
Lemma dict_get_own_keys {V : Type} (d : dict V) (default : V) :
  NoDup (keys d) ->
  map (fun k => dict_get_default d k default) (keys d) = values d.
Proof.
  unfold keys, values.
  assert (G : forall pre, NoDup (map fst (pre ++ d)) ->
                map (fun k => dict_get_default (pre ++ d) k default) (map fst d)
                = map snd d).
  { induction d as [|[k v] d IH]; intros pre H; [reflexivity|].
    cbn [map fst snd]. f_equal.
    - unfold dict_get_default.
      rewrite (dict_get_In (pre ++ (k, v) :: d) k v H); [reflexivity|].
      apply in_or_app. right. left. reflexivity.
    - specialize (IH (pre ++ [(k, v)])).
      rewrite <- app_assoc in IH. apply IH, H. }
  intros H. apply (G [] H).
Qed.

Lemma mapM_compose {A B C : Type} (f : B -> py C) (g : A -> B) (xs : list A) :
  mapM (fun x => f (g x)) xs = mapM f (map g xs).
Proof.
  induction xs as [|x xs IH]; [reflexivity|].
  cbn [mapM map]. rewrite IH. reflexivity.
Qed.

Lemma mapM_length {A B : Type} (f : A -> py B) (xs : list A) (ys : list B) :
  mapM f xs = Ok ys -> List.length ys = List.length xs.
Proof.
  revert ys. induction xs as [|x xs IH]; intros ys H; simpl in H.
  - injection H as <-. reflexivity.
  - bind_inv H. bind_inv H. injection H as <-.
    cbn [List.length]. f_equal. apply IH. assumption.
Qed.

(** Converting numbers can fail in one way only. *)
Lemma to_float_number (v : pyval) (e : exn) :
  is_number v = true -> Py.to_float v = Raise e -> e = OverflowError.
Proof.
  destruct v as [|z|f]; simpl; intros Hn H; try discriminate.
  unfold Py.float_of_int in H.
  destruct (F64.is_finite (F64.of_Z z)); [discriminate|].
  injection H as <-. reflexivity.
Qed.

Lemma mapM_to_float_numbers (vs : list pyval) (e : exn) :
  Forall (fun v => is_number v = true) vs ->
  mapM Py.to_float vs = Raise e -> e = OverflowError.
Proof.
  induction 1 as [|v vs Hv Hvs IH]; simpl; intros H; [discriminate|].
  apply bind_Raise in H. destruct H as [H | (y & _ & H)].
  - apply (to_float_number v e Hv H).
  - apply bind_Raise in H. destruct H as [H | (ys & _ & H)];
      [apply IH, H | discriminate].
Qed.

Lemma feature_row_extracted (data : Snapshot) (today : datetime)
    (d : Metrics) :
  calculate_all_metrics data today = Some d ->
  feature_row d = mapM Py.to_float (values d).
Proof.
  intros Hd. unfold feature_row.
  rewrite (mapM_compose Py.to_float (fun f => dict_get_default d f (PInt 0))).
  apply calculate_all_metrics_Some in Hd.
  destruct Hd as (f & m & r & x & _ & _ & _ & _ & ->).
  rewrite <- (feature_dict_keys today m r x).
  rewrite dict_get_own_keys; [reflexivity|].
  rewrite feature_dict_keys. apply SELECTED_FEATURES_NoDup.
Qed.



End Prediction.

(* ================================================================== *)
(** * The narrative's lists *)
(* ================================================================== *)

Section NarrativeLists.
Import F64Facts.
Local Open Scope float_scope.

Lemma filter_empty_iff {A : Type} (p : A -> bool) (l : list A) :
  filter p l = [] <-> forall x, In x l -> p x = false.
Proof.
  induction l as [|a l IH]; simpl; [tauto|].
  destruct (p a) eqn:E; split.
  - discriminate.
  - intros H. specialize (H a (or_introl eq_refl)). congruence.
  - intros H x [<- | Hx]; [exact E | apply IH; assumption].
  - intros H. apply IH. intros x Hx. apply H. auto.
Qed.

Lemma firstn_empty {A : Type} (n : nat) (l : list A) :
  firstn (S n) l = [] -> l = [].
Proof. destruct l; [reflexivity | discriminate]. Qed.

Lemma In_prefix {A : Type} (n : nat) (l : list A) (x : A) :
  In x (firstn n l) -> In x l.
Proof.
  intros H. rewrite <- (firstn_skipn n l). apply in_or_app. left. exact H.
Qed.

Lemma labels_NoDup : NoDup (_labels SELECTED_FEATURES).
Proof. apply nodupb_NoDup. vm_compute. reflexivity. Qed.

(** Distinct features have distinct display labels. *)
Lemma label_at_inj (i j : nat) :
  (i < 45)%nat -> (j < 45)%nat -> label_at i = label_at j -> i = j.
Proof.
  intros Hi Hj. unfold label_at.
  apply (proj1 (NoDup_nth (_labels SELECTED_FEATURES) EmptyString) labels_NoDup);
    assumption.
Qed.

(** X7. The lists of the narrative, for 45 contributions (NaN allowed) and
    any order that lists each position once: at most three labels raise
    the risk, at most three lower it, exactly one is the primary driver;
    no label is in both lists; a list is empty exactly when no
    contribution has its sign (zero and NaN contributions are in neither),
    and then the sentence uses the fixed wording in its place.  With
    another number of contributions the call raises ValueError. *)
Theorem render_shap_narrative_lists (order : list nat)
    (shap_vals : list float) (pred : Z) (prob : float) :
  (List.length shap_vals <> 45%nat ->
   render_shap_narrative order shap_vals pred prob = Raise ValueError) /\
  (List.length shap_vals = 45%nat ->
   Ranking.is_permutation_of_range order 45 = true ->
   exists n,
     render_shap_narrative order shap_vals pred prob = Ok n /\
     (List.length (top_pos n) <= 3)%nat /\
     (List.length (top_neg n) <= 3)%nat /\
     List.length (top_all n) = 1%nat /\
     (forall l, In l (top_pos n) -> ~ In l (top_neg n)) /\
     (top_pos n = [] <-> forall v, In v shap_vals -> F64.gtb v 0 = false) /\
     (top_neg n = [] <-> forall v, In v shap_vals -> (v <? 0) = false) /\
     (top_pos n = [] -> pos_text n = "no strong positive contributors") /\
     (top_neg n = [] -> neg_text n = "no strong negative contributors")).
Proof.
  split.
  - intros H. unfold render_shap_narrative.
    destruct (Nat.eqb_spec (List.length (_labels SELECTED_FEATURES))
                           (List.length shap_vals)) as [E|_]; [|reflexivity].
    exfalso. apply H. rewrite <- E. reflexivity.
  - intros Hlen Hperm.
    assert (P : Permutation order (seq 0 45)).
    { rewrite <- Hlen. apply range_Permutation. rewrite Hlen. exact Hperm. }
    assert (Hin : forall i, In i order <-> (i < 45)%nat).
    { intros i. split; intros H.
      - apply (Permutation_in _ P), in_seq in H. lia.
      - apply (Permutation_in _ (Permutation_sym P)), in_seq. lia. }
    assert (Hval : forall (p : float -> bool),
               (forall i, In i order -> p (nth i shap_vals nan) = false) <->
               (forall v, In v shap_vals -> p v = false)).
    { intros p. split; intros H.
      - intros v Hv. destruct (In_nth _ _ nan Hv) as (i & Hi & <-).
        apply H, Hin. lia.
      - intros i Hi. apply H, nth_In. apply Hin in Hi. lia. }
    unfold render_shap_narrative.
    replace (Nat.eqb (List.length (_labels SELECTED_FEATURES))
                     (List.length shap_vals)) with true
      by (rewrite Hlen; reflexivity).
    cbn [negb]. rewrite (reindex_rows order shap_vals Hlen).
    eexists. split; [reflexivity|].
    cbn [top_pos top_neg top_all pos_text neg_text].
    rewrite !filter_map_swap, !firstn_map, !map_map. cbn [fst snd].
    set (positive := filter (fun i => F64.gtb (nth i shap_vals nan) 0) order).
    set (negative := filter (fun i => nth i shap_vals nan <? 0) order).
    split; [rewrite length_map; apply firstn_le_length|].
    split; [rewrite length_map; apply firstn_le_length|].
    split.
    { rewrite length_map. destruct order as [|o rest]; [|reflexivity].
      apply Permutation_length in P. discriminate. }
    assert (Epos : map label_at (firstn 3 positive) = [] <-> positive = []).
    { split; intros H.
      - apply map_eq_nil in H. apply firstn_empty in H. exact H.
      - rewrite H. reflexivity. }
    assert (Eneg : map label_at (firstn 3 negative) = [] <-> negative = []).
    { split; intros H.
      - apply map_eq_nil in H. apply firstn_empty in H. exact H.
      - rewrite H. reflexivity. }
    split; [|split; [|split; [|split]]].
    + intros l Hp Hn.
      apply in_map_iff in Hp. destruct Hp as (i & <- & Hi).
      apply in_map_iff in Hn. destruct Hn as (j & Hl & Hj).
      apply In_prefix, filter_In in Hi. destruct Hi as [Hio Hi].
      apply In_prefix, filter_In in Hj. destruct Hj as [Hjo Hj].
      apply label_at_inj in Hl; [|apply Hin; assumption|apply Hin; assumption].
      subst j. unfold F64.gtb in Hi. apply ltb_asym in Hj. congruence.
    + rewrite Epos. unfold positive. rewrite filter_empty_iff.
      apply (Hval (fun v => F64.gtb v 0)).
    + rewrite Eneg. unfold negative. rewrite filter_empty_iff.
      apply (Hval (fun v => v <? 0)).
    + intros H. rewrite H. reflexivity.
    + intros H. rewrite H. reflexivity.
Qed.

Lemma render_shap_narrative_lists_witness :
  exists n,
    render_shap_narrative canonical_order tied_contributions 0 0.2 = Ok n /\
    List.length (top_all n) = 1%nat /\
    (forall l, In l (top_pos n) -> ~ In l (top_neg n)).
Proof.
  destruct (render_shap_narrative_lists canonical_order tied_contributions
              0 0.2) as [_ H].
  destruct (H eq_refl eq_refl) as (n & E & _ & _ & L & D & _).
  exists n. split; [exact E|]. split; [exact L | exact D].
Defined.

End NarrativeLists.

(* ================================================================== *)
(** * Where a model artifact is taken from *)
(* ================================================================== *)

(** The names for which an ID is configured are the keys of the table:
    no ID in it is empty or a placeholder. *)
Lemma configured_iff (filename : string) :
  In filename (keys GDRIVE_FILE_IDS) <->
  not_configured (dict_get_default GDRIVE_FILE_IDS filename EmptyString)
  = false.
Proof.
  unfold dict_get_default. cbn [GDRIVE_FILE_IDS dict_get].
  destruct (String.eqb_spec "final_production_model.pkl" filename) as [<-|N1];
    [split; intros _; [reflexivity | left; reflexivity]|].
  destruct (String.eqb_spec "scaler.pkl" filename) as [<-|N2];
    [split; intros _; [reflexivity | right; left; reflexivity]|].
  destruct (String.eqb_spec "fairness_report.json" filename) as [<-|N3];
    [split; intros _; [reflexivity | right; right; left; reflexivity]|].
  split; [|intros H; vm_compute in H; discriminate].
  intros H. simpl in H. destruct H as [H|[H|[H|[]]]]; contradiction.
Qed.

Section ModelFileFacts.

Variable World : Type.
Variable path_exists : World -> string -> bool.
Variable getsize : World -> string -> Z.
Variable makedirs : World -> string -> option World.
Variable import_gdown : World -> import_result.
Variable pip_install_gdown : World -> World * option string.
Variable gdown_download : World -> string -> string -> World * option string.
Variable app_dir : string.

Local Abbreviation present := (present World path_exists getsize).
Local Abbreviation download :=
  (_download_from_drive World path_exists getsize import_gdown
                        pip_install_gdown gdown_download).
Local Abbreviation get_model_file :=
  (_get_model_file World path_exists getsize makedirs import_gdown
                   pip_install_gdown gdown_download app_dir).

(** A download reports success only for a destination that exists and is
    not empty afterwards, and then shows nothing; a warning means
    failure. *)
Lemma download_from_drive_cases (w w' : World) (file_id dest : string)
    (shown : list message) (success : bool) :
  download w file_id dest = (w', shown, success) ->
  (success = true /\ shown = [] /\ present w' dest = true) \/
  (success = false /\ shown = [] /\ present w' dest = false) \/
  (success = false /\ exists text, shown = [download_warning dest text]).
Proof.
  unfold _download_from_drive.
  destruct (_ensure_gdown _ _ _ w) as [w1 [text|]].
  - intros H. injection H as <- <- <-. right. right. eauto.
  - destruct (gdown_download w1 _ dest) as [w2 [text|]].
    + intros H. injection H as <- <- <-. right. right. eauto.
    + intros H. injection H as <- <- <-.
      destruct (present w2 dest) eqn:E; [left | right; left]; auto.
Qed.

(** X8. A path returned by [_get_model_file] names a file that exists and
    is not empty when the call returns, and it is the file next to the
    script or the file of that name in the cache directory.  Likewise
    [_download_from_drive] returns True only when its destination exists
    and is not empty after the download, and it never shows a warning in
    that case. *)
Theorem get_model_file_returns_present (w w' : World) (filename p : string)
    (shown : list message) :
  get_model_file w filename = Some (w', shown, Some p) ->
  present w' p = true /\
  (p = Path.join app_dir filename \/
   p = Path.join (CACHE_DIR app_dir) filename) /\
  (forall text, ~ In (Warning text) shown).
Proof.
  unfold _get_model_file.
  destruct (present w (Path.join app_dir filename)) eqn:L.
  { intros H. injection H as <- <- <-. split; [exact L|]. split; [auto|].
    intros text []. }
  destruct (makedirs w (CACHE_DIR app_dir)) as [w1|]; [|discriminate].
  destruct (present w1 (Path.join (CACHE_DIR app_dir) filename)) eqn:C.
  { intros H. injection H as <- <- <-. split; [exact C|]. split; [auto|].
    intros text []. }
  destruct (not_configured _); [discriminate|].
  destruct (download w1 _ _) as [[w2 shown'] success] eqn:D.
  intros H. injection H as <- <- Hp.
  destruct success; [|discriminate]. injection Hp as <-.
  destruct (download_from_drive_cases _ _ _ _ _ _ D)
    as [(_ & -> & P) | [(F & _) | (F & _)]]; try discriminate.
  split; [exact P|]. split; [auto|].
  intros text [H|[]]. discriminate.
Qed.

(** X9. The search order of [_get_model_file].  A non-empty file next to
    the script is returned at once: the state is untouched (no cache
    directory is made) and nothing is shown.  Otherwise a non-empty
    cached file is returned without any download.  A download is started,
    and announced, exactly when both are missing or empty and an ID is
    configured for the name; for a name without an ID the answer is None
    and nothing is shown.  For the three artifacts of the application an
    ID is configured, so None is returned for them only after a download
    was started. *)
Theorem get_model_file_search_order (w : World) (filename : string) :
  let local := Path.join app_dir filename in
  let cached := Path.join (CACHE_DIR app_dir) filename in
  (present w local = true ->
   get_model_file w filename = Some (w, [], Some local)) /\
  (forall w1, present w local = false ->
     makedirs w (CACHE_DIR app_dir) = Some w1 ->
     present w1 cached = true ->
     get_model_file w filename = Some (w1, [], Some cached)) /\
  (forall w' shown r, get_model_file w filename = Some (w', shown, r) ->
     (shown <> [] <->
      present w local = false /\
      exists w1, makedirs w (CACHE_DIR app_dir) = Some w1 /\
                 present w1 cached = false /\
                 In filename (keys GDRIVE_FILE_IDS))) /\
  (forall w' shown, get_model_file w filename = Some (w', shown, None) ->
     In filename (keys GDRIVE_FILE_IDS) ->
     exists text rest, shown = Info text :: rest).
Proof.
  intros local cached.
  pose proof (configured_iff filename) as Hconf.
  unfold _get_model_file. fold local. fold cached.
  split; [intros ->; reflexivity|].
  split; [intros w1 -> -> ->; reflexivity|].
  split.
  - intros w' shown r.
    destruct (present w local) eqn:L.
    { intros H. injection H as <- <- <-. split; [congruence|].
      intros [C _]. discriminate. }
    destruct (makedirs w (CACHE_DIR app_dir)) as [w1|]; [|discriminate].
    destruct (present w1 cached) eqn:C.
    { intros H. injection H as <- <- <-. split; [congruence|].
      intros (_ & w1' & E & C' & _). injection E as <-. congruence. }
    destruct (not_configured _) eqn:N.
    { intros H. injection H as <- <- <-. split; [congruence|].
      intros (_ & _ & _ & _ & K). apply Hconf in K. congruence. }
    destruct (download w1 _ _) as [[w2 shown'] success].
    intros H. injection H as <- <- <-. split; [|discriminate].
    intros _. split; [reflexivity|]. exists w1.
    split; [reflexivity|]. split; [exact C|]. apply Hconf. reflexivity.
  - intros w' shown H K. apply Hconf in K.
    destruct (present w local); [discriminate|].
    destruct (makedirs w (CACHE_DIR app_dir)) as [w1|]; [|discriminate].
    destruct (present w1 cached); [discriminate|].
    rewrite K in H.
    destruct (download w1 _ _) as [[w2 shown'] success].
    injection H as <- <- _. eauto.
Qed.

End ModelFileFacts.

Lemma get_model_file_returns_present_witness :
  _get_model_file Cases.disk Cases.disk_exists Cases.disk_getsize
    Cases.disk_makedirs Cases.disk_import Cases.disk_pip
    Cases.disk_download "/app" Cases.deployment "final_production_model.pkl"
  = Some (dict_set Cases.deployment
            "/app/.model_cache/final_production_model.pkl" 2048%Z,
          [Info "Downloading `final_production_model.pkl` from Google Drive… (first run only)"],
          Some "/app/.model_cache/final_production_model.pkl") /\
  present Cases.disk Cases.disk_exists Cases.disk_getsize
    (dict_set Cases.deployment
       "/app/.model_cache/final_production_model.pkl" 2048%Z)
    "/app/.model_cache/final_production_model.pkl" = true.
Proof.
  assert (E : _get_model_file Cases.disk Cases.disk_exists Cases.disk_getsize
                Cases.disk_makedirs Cases.disk_import Cases.disk_pip
                Cases.disk_download "/app" Cases.deployment
                "final_production_model.pkl"
              = Some (dict_set Cases.deployment
                        "/app/.model_cache/final_production_model.pkl" 2048%Z,
                      [Info "Downloading `final_production_model.pkl` from Google Drive… (first run only)"],
                      Some "/app/.model_cache/final_production_model.pkl"))
    by (vm_compute; reflexivity).
  split; [exact E|].
  apply (get_model_file_returns_present _ _ _ _ _ _ _ _ _ _ _ _ _ E).
Defined.

Lemma get_model_file_search_order_witness :
  _get_model_file Cases.disk Cases.disk_exists Cases.disk_getsize
    Cases.disk_makedirs Cases.disk_import Cases.disk_pip
    Cases.offline_download "/app" Cases.deployment "scaler.pkl"
  = Some (Cases.deployment, [], Some "/app/.model_cache/scaler.pkl").
Proof.
  destruct (get_model_file_search_order Cases.disk Cases.disk_exists
              Cases.disk_getsize Cases.disk_makedirs Cases.disk_import
              Cases.disk_pip Cases.offline_download "/app" Cases.deployment
              "scaler.pkl") as (_ & H & _).
  apply (H Cases.deployment); reflexivity.
Defined.

(* ================================================================== *)
(** * The order of strings *)
(* ================================================================== *)

Section StringOrder.

Lemma ascii_compare_refl (a : ascii) : Ascii.compare a a = Eq.
Proof. unfold Ascii.compare. apply N.compare_refl. Qed.

Lemma ascii_compare_lt_trans (a b c : ascii) :
  Ascii.compare a b = Lt -> Ascii.compare b c = Lt -> Ascii.compare a c = Lt.
Proof.
  unfold Ascii.compare. rewrite !N.compare_lt_iff. lia.
Qed.

Lemma string_compare_refl (s : string) : String.compare s s = Eq.
Proof.
  induction s as [|c s IH]; [reflexivity|].
  cbn [String.compare]. rewrite ascii_compare_refl. exact IH.
Qed.

Lemma string_compare_lt_trans (s1 s2 s3 : string) :
  String.compare s1 s2 = Lt -> String.compare s2 s3 = Lt ->
  String.compare s1 s3 = Lt.
Proof.
  revert s2 s3. induction s1 as [|c1 s1 IH]; intros [|c2 s2] [|c3 s3];
    cbn [String.compare]; try discriminate; try reflexivity.
  destruct (Ascii.compare c1 c2) eqn:E12; try discriminate;
    destruct (Ascii.compare c2 c3) eqn:E23; try discriminate; intros H1 H2.
  - apply Ascii.compare_eq_iff in E12, E23. subst.
    rewrite ascii_compare_refl. apply (IH s2 s3 H1 H2).
  - apply Ascii.compare_eq_iff in E12. subst. rewrite E23. reflexivity.
  - apply Ascii.compare_eq_iff in E23. subst. rewrite E12. reflexivity.
  - rewrite (ascii_compare_lt_trans _ _ _ E12 E23). reflexivity.
Qed.

Lemma string_compare_gt_lt (s1 s2 : string) :
  String.compare s1 s2 = Gt -> String.compare s2 s1 = Lt.
Proof.
  intros H. rewrite String.compare_antisym, H. reflexivity.
Qed.

Lemma string_compare_lt_neq (s1 s2 : string) :
  String.compare s1 s2 = Lt -> s1 <> s2.
Proof.
  intros H ->. rewrite string_compare_refl in H. discriminate.
Qed.

Lemma In_insert_new (s x : string) (l : list string) :
  In x (Str.insert_new s l) <-> x = s \/ In x l.
Proof.
  induction l as [|y l IH]; cbn [Str.insert_new].
  - simpl. intuition.
  - destruct (String.compare s y) eqn:E.
    + apply String.compare_eq_iff in E. subst. simpl. intuition.
    + simpl. intuition.
    + simpl. rewrite IH. intuition.
Qed.

Lemma In_sorted_set (x : string) (xs : list string) :
  In x (Str.sorted_set xs) <-> In x xs.
Proof.
  induction xs as [|y xs IH]; [reflexivity|].
  cbn [Str.sorted_set fold_right]. rewrite In_insert_new.
  fold (Str.sorted_set xs). rewrite IH. simpl. intuition.
Qed.

Lemma insert_new_sorted (s : string) (l : list string) :
  StronglySorted str_lt l -> StronglySorted str_lt (Str.insert_new s l).
Proof.
  induction 1 as [|y l Hs IH Hy]; cbn [Str.insert_new].
  - repeat constructor.
  - destruct (String.compare s y) eqn:E.
    + constructor; assumption.
    + constructor; [constructor; assumption|].
      constructor; [exact E|].
      apply Forall_forall. intros z Hz. rewrite Forall_forall in Hy.
      apply (string_compare_lt_trans s y z E), Hy, Hz.
    + constructor; [exact IH|].
      apply Forall_forall. intros z Hz. apply In_insert_new in Hz.
      destruct Hz as [-> | Hz].
      * apply string_compare_gt_lt, E.
      * rewrite Forall_forall in Hy. apply Hy, Hz.
Qed.

Lemma sorted_set_sorted (xs : list string) :
  StronglySorted str_lt (Str.sorted_set xs).
Proof.
  induction xs as [|y xs IH]; [constructor|].
  cbn [Str.sorted_set fold_right]. apply insert_new_sorted, IH.
Qed.

Lemma sorted_NoDup (l : list string) : StronglySorted str_lt l -> NoDup l.
Proof.
  induction 1 as [|y l Hs IH Hy]; constructor; [|exact IH].
  intros Hin. rewrite Forall_forall in Hy.
  apply (string_compare_lt_neq y y (Hy y Hin)). reflexivity.
Qed.

End StringOrder.

(* ================================================================== *)
(** * Selecting a company *)
(* ================================================================== *)

Section SelectionFacts.

Lemma find_by_name (l : list company) (n : string) :
  In n (map co_name l) ->
  exists c, find (fun c => String.eqb (co_name c) n) l = Some c /\
            In c l /\ co_name c = n.
Proof.
  induction l as [|c l IH]; simpl; [contradiction|].
  intros H. destruct (String.eqb_spec (co_name c) n) as [E|N].
  - exists c. auto.
  - destruct H as [H|H]; [contradiction|].
    destruct (IH H) as (c' & F & I & E). exists c'. auto.
Qed.

Lemma find_own_name (l : list company) (c : company) :
  NoDup (map co_name l) -> In c l ->
  find (fun c' => String.eqb (co_name c') (co_name c)) l = Some c.
Proof.
  induction l as [|c0 l IH]; simpl; [contradiction|].
  intros Hnd Hin. inversion Hnd as [|? ? Hc0 Hnd']; subst.
  destruct Hin as [-> | Hin].
  - rewrite String.eqb_refl. reflexivity.
  - destruct (String.eqb_spec (co_name c0) (co_name c)) as [E|N].
    + exfalso. apply Hc0. rewrite E. apply in_map, Hin.
    + apply IH; assumption.
Qed.

(** A selection of companies with distinct names has distinct names. *)
Lemma selected_names_NoDup (keep : company -> bool) (comps : list company) :
  NoDup (map co_name comps) -> NoDup (map co_name (filter keep comps)).
Proof.
  intros Hnd. induction comps as [|c comps IH]; [constructor|].
  cbn [map] in Hnd. apply NoDup_cons_iff in Hnd. destruct Hnd as [Hc Hrest].
  cbn [filter]. destruct (keep c); [|apply IH, Hrest].
  cbn [map]. apply NoDup_cons; [|apply IH, Hrest].
  intros Hin. apply Hc. apply in_map_iff in Hin.
  destruct Hin as (x & E & Hx). apply filter_In in Hx.
  rewrite <- E. apply in_map, Hx.
Qed.

Lemma filtered_spec (all_co : list company) (s : string) (c : company) :
  In c (filtered all_co s) <->
  In c all_co /\ (s = "All Sectors" \/ co_sector c = s).
Proof.
  unfold filtered. destruct (String.eqb_spec s "All Sectors") as [->|N].
  - intuition.
  - rewrite filter_In. destruct (String.eqb_spec (co_sector c) s); intuition.
    discriminate.
Qed.

(** X10. The three selection boxes, for any list of companies of a
    country.  The sector box offers "All Sectors" and then every sector of
    the list exactly once, in ascending order.  Every sector offered has
    at least one company, so the company box is never empty (unless the
    country has no company at all).  Whatever is picked in the company box
    is found by [next(...)]: the lookup does not raise, and the record it
    returns is a company of the country, has the picked name and, unless
    "All Sectors" is picked, the picked sector. *)
Theorem company_selection (all_co : list company) :
  (forall s, In s (sectors all_co) <->
             s = "All Sectors" \/ exists c, In c all_co /\ co_sector c = s) /\
  StronglySorted str_lt (List.tl (sectors all_co)) /\
  NoDup (List.tl (sectors all_co)) /\
  (all_co <> [] ->
   forall s, In s (sectors all_co) -> company_options all_co s <> []) /\
  (forall s n, In n (company_options all_co s) ->
     exists c, co_info all_co s n = Some c /\ In c all_co /\
               co_name c = n /\ (s <> "All Sectors" -> co_sector c = s)).
Proof.
  assert (S : forall s, In s (sectors all_co) <->
              s = "All Sectors" \/ exists c, In c all_co /\ co_sector c = s).
  { intros s. unfold sectors. cbn [In]. rewrite In_sorted_set, in_map_iff.
    split; intros [H|H]; auto.
    - right. destruct H as (c & E & Hc). eauto.
    - right. destruct H as (c & Hc & E). eauto. }
  split; [exact S|].
  split; [apply sorted_set_sorted|].
  split; [apply sorted_NoDup, sorted_set_sorted|].
  split.
  - intros Hne s Hs. apply S in Hs. unfold company_options.
    destruct Hs as [-> | (c & Hc & E)].
    + unfold filtered. cbn. destruct all_co; [contradiction | discriminate].
    + assert (Hin : In c (filtered all_co s)) by (apply filtered_spec; auto).
      destruct (filtered all_co s); [contradiction | discriminate].
  - intros s n Hn. unfold company_options in Hn. unfold co_info.
    destruct (find_by_name _ _ Hn) as (c & F & I & E).
    exists c. split; [exact F|].
    apply filtered_spec in I. destruct I as [I [A|A]]; intuition.
Qed.

Lemma company_selection_witness :
  exists c,
    co_info (dict_get_default MENA_COMPANIES "Qatar" []) "Telecom" "Ooredoo"
    = Some c /\ co_sector c = "Telecom".
Proof.
  destruct (company_selection (dict_get_default MENA_COMPANIES "Qatar" []))
    as (_ & _ & _ & _ & H).
  destruct (H "Telecom" "Ooredoo") as (c & E & _ & _ & Hs).
  - vm_compute. tauto.
  - exists c. split; [exact E|]. apply Hs. discriminate.
Defined.

(** The names of the database are pairwise distinct within each
    country, and so are the countries. *)
Lemma MENA_COMPANIES_names :
  forall country all_co, In (country, all_co) MENA_COMPANIES ->
                         NoDup (map co_name all_co).
Proof.
  intros country all_co H.
  assert (A : forallb (fun item => nodupb (map co_name (snd item)))
                      MENA_COMPANIES = true) by (vm_compute; reflexivity).
  rewrite forallb_forall in A. apply nodupb_NoDup, (A _ H).
Qed.

Lemma MENA_COMPANIES_countries : NoDup (keys MENA_COMPANIES).
Proof. apply nodupb_NoDup. vm_compute. reflexivity. Qed.

(** X11. Every company of the database can be selected, and selecting it
    gives its own record: for each country (looked up by name) and each
    of its companies, the company's sector is among the sector options,
    its name is among the company options under "All Sectors" and under
    its own sector, and with either choice [co_info] is the company's own
    record, so the ticker fetched is the company's own. *)
Theorem every_company_selectable (country : string) (all_co : list company)
    (c : company) :
  In (country, all_co) MENA_COMPANIES -> In c all_co ->
  dict_get MENA_COMPANIES country = Some all_co /\
  In (co_sector c) (sectors all_co) /\
  In (co_name c) (company_options all_co "All Sectors") /\
  In (co_name c) (company_options all_co (co_sector c)) /\
  co_info all_co "All Sectors" (co_name c) = Some c /\
  co_info all_co (co_sector c) (co_name c) = Some c.
Proof.
  intros Hc Hin.
  pose proof (MENA_COMPANIES_names _ _ Hc) as Hnd.
  assert (F : forall s, NoDup (map co_name (filtered all_co s))).
  { intros s. unfold filtered. destruct (String.eqb s "All Sectors");
      [exact Hnd | apply selected_names_NoDup, Hnd]. }
  assert (I1 : In c (filtered all_co "All Sectors"))
    by (apply filtered_spec; auto).
  assert (I2 : In c (filtered all_co (co_sector c)))
    by (apply filtered_spec; auto).
  split; [apply dict_get_In; [apply MENA_COMPANIES_countries | exact Hc]|].
  split; [right; apply In_sorted_set, in_map, Hin|].
  split; [apply in_map, I1|]. split; [apply in_map, I2|].
  split; apply find_own_name; auto.
Qed.

Lemma every_company_selectable_witness :
  co_info (dict_get_default MENA_COMPANIES "Saudi Arabia" []) "Food & Beverages"
          "Almarai"
  = Some (mkCompany "Almarai" "2280.SR" "Food & Beverages").
Proof.
  apply (every_company_selectable "Saudi Arabia"
           (dict_get_default MENA_COMPANIES "Saudi Arabia" [])
           (mkCompany "Almarai" "2280.SR" "Food & Beverages")).
  - left. reflexivity.
  - vm_compute. tauto.
Defined.

End SelectionFacts.

(* ================================================================== *)
(** * The coverage page *)
(* ================================================================== *)

Section Coverage.

Lemma dict_get_set {V : Type} (d : dict V) (k k' : string) (v : V) :
  dict_get (dict_set d k v) k'
  = if String.eqb k k' then Some v else dict_get d k'.
Proof.
  induction d as [|[k0 v0] d IH]; cbn [dict_set dict_get]; [reflexivity|].
  destruct (String.eqb_spec k0 k) as [->|N]; cbn [dict_get].
  - destruct (String.eqb k k'); reflexivity.
  - rewrite IH. destruct (String.eqb_spec k0 k') as [->|N'];
      [|reflexivity].
    destruct (String.eqb_spec k k') as [->|_]; [contradiction | reflexivity].
Qed.

Lemma dict_set_keys_in {V : Type} (d : dict V) (k : string) (v : V) :
  In k (keys d) -> keys (dict_set d k v) = keys d.
Proof.
  induction d as [|[k0 v0] d IH]; cbn [dict_set keys map fst];
    [contradiction|].
  intros H. destruct (String.eqb_spec k0 k) as [->|N]; [reflexivity|].
  cbn [map fst]. f_equal. apply IH. destruct H; [contradiction | assumption].
Qed.

Lemma dict_set_NoDup {V : Type} (d : dict V) (k : string) (v : V) :
  NoDup (keys d) -> NoDup (keys (dict_set d k v)).
Proof.
  intros H. destruct (in_dec string_dec k (keys d)) as [I|I].
  - rewrite dict_set_keys_in by exact I. exact H.
  - rewrite dict_set_new by exact I. unfold keys. rewrite map_app.
    apply NoDup_app; [exact H | repeat constructor; intros [] |].
    intros x Hx [<-|[]]. contradiction.
Qed.

Lemma dict_get_Some_keys {V : Type} (d : dict V) (k : string) (v : V) :
  dict_get d k = Some v -> In k (keys d).
Proof.
  intros H. destruct (in_dec string_dec k (keys d)) as [I|I]; [exact I|].
  apply dict_get_None_keys in I. congruence.
Qed.

Lemma dict_get_Some_In {V : Type} (d : dict V) (k : string) (v : V) :
  dict_get d k = Some v -> In (k, v) d.
Proof.
  induction d as [|[k0 v0] d IH]; cbn [dict_get]; [discriminate|].
  destruct (String.eqb_spec k0 k) as [->|N].
  - intros H. injection H as ->. left. reflexivity.
  - intros H. right. apply IH, H.
Qed.

Local Abbreviation step :=
  (fun (grp : dict (list string)) (c : company) =>
     setdefault_append grp (co_sector c) (co_name c)).

Lemma setdefault_append_get (grp : dict (list string)) (sec name k : string) :
  dict_get (setdefault_append grp sec name) k
  = if String.eqb sec k
    then Some (match dict_get grp sec with
               | Some names => names ++ [name]
               | None => [name]
               end)
    else dict_get grp k.
Proof.
  unfold setdefault_append.
  destruct (dict_get grp sec); rewrite dict_get_set; reflexivity.
Qed.

Lemma setdefault_append_NoDup (grp : dict (list string)) (sec name : string) :
  NoDup (keys grp) -> NoDup (keys (setdefault_append grp sec name)).
Proof.
  unfold setdefault_append. destruct (dict_get grp sec);
    apply dict_set_NoDup.
Qed.

Lemma concat_dict_set_in (grp : dict (list string)) (k x : string)
    (l : list string) :
  dict_get grp k = Some l ->
  Permutation (List.concat (values (dict_set grp k (l ++ [x]))))
              (x :: List.concat (values grp)).
Proof.
  induction grp as [|[k0 v0] grp IH]; cbn [dict_get dict_set]; [discriminate|].
  destruct (String.eqb_spec k0 k) as [->|N]; intros H.
  - injection H as ->. cbn [values map snd List.concat].
    rewrite <- app_assoc. cbn [app].
    apply Permutation_sym, Permutation_middle.
  - cbn [values map snd List.concat].
    etransitivity; [apply Permutation_app_head, IH, H|].
    apply Permutation_sym, Permutation_middle.
Qed.

Lemma setdefault_append_concat (grp : dict (list string)) (sec name : string) :
  Permutation (List.concat (values (setdefault_append grp sec name)))
              (name :: List.concat (values grp)).
Proof.
  unfold setdefault_append. destruct (dict_get grp sec) as [l|] eqn:E.
  - apply concat_dict_set_in, E.
  - rewrite dict_set_new by (apply dict_get_None_keys, E).
    unfold values. rewrite map_app, concat_app. cbn.
    apply Permutation_sym, Permutation_cons_append.
Qed.

Lemma names_in_cons (sec : string) (c : company) (comps : list company) :
  names_in sec (c :: comps)
  = if String.eqb (co_sector c) sec then co_name c :: names_in sec comps
    else names_in sec comps.
Proof.
  unfold names_in. cbn [filter].
  destruct (String.eqb (co_sector c) sec); reflexivity.
Qed.

(** What the grouping loop leaves under each sector. *)
Lemma group_loop_get (comps : list company) (grp : dict (list string))
    (sec : string) :
  dict_get (fold_left step comps grp) sec
  = match dict_get grp sec with
    | Some l => Some (l ++ names_in sec comps)
    | None => match names_in sec comps with
              | [] => None
              | l => Some l
              end
    end.
Proof.
  revert grp. induction comps as [|c comps IH]; intros grp; cbn [fold_left].
  - cbn. destruct (dict_get grp sec); [rewrite app_nil_r|]; reflexivity.
  - rewrite IH, setdefault_append_get, names_in_cons.
    destruct (String.eqb_spec (co_sector c) sec) as [->|N]; [|reflexivity].
    destruct (dict_get grp sec) as [l|].
    + rewrite <- app_assoc. reflexivity.
    + reflexivity.
Qed.

Lemma group_loop_NoDup (comps : list company) (grp : dict (list string)) :
  NoDup (keys grp) -> NoDup (keys (fold_left step comps grp)).
Proof.
  revert grp. induction comps as [|c comps IH]; intros grp H; cbn [fold_left];
    [exact H|].
  apply IH, setdefault_append_NoDup, H.
Qed.

Lemma group_loop_concat (comps : list company) (grp : dict (list string)) :
  Permutation (List.concat (values (fold_left step comps grp)))
              (List.concat (values grp) ++ map co_name comps).
Proof.
  revert grp. induction comps as [|c comps IH]; intros grp; cbn [fold_left map].
  - rewrite app_nil_r. reflexivity.
  - etransitivity; [apply IH|].
    etransitivity; [apply Permutation_app_tail, setdefault_append_concat|].
    cbn [app]. apply Permutation_middle.
Qed.

Lemma insert_item_Permutation (a : string * list string)
    (l : list (string * list string)) :
  Permutation (Str.insert_item a l) (a :: l).
Proof.
  induction l as [|x l IH]; cbn [Str.insert_item]; [reflexivity|].
  destruct (Str.compare_items a x); try reflexivity;
    (etransitivity; [apply perm_skip, IH | apply perm_swap]).
Qed.

Lemma sorted_items_Permutation (items : list (string * list string)) :
  Permutation (Str.sorted_items items) items.
Proof.
  unfold Str.sorted_items.
  assert (G : forall acc, Permutation
                (fold_left (fun acc a => Str.insert_item a acc) items acc)
                (acc ++ items)).
  { induction items as [|a items IH]; intros acc; cbn [fold_left].
    - rewrite app_nil_r. reflexivity.
    - etransitivity; [apply IH|].
      etransitivity; [apply Permutation_app_tail, insert_item_Permutation|].
      cbn [app]. apply Permutation_middle. }
  apply (G []).
Qed.

Lemma insert_item_sorted (a : string * list string)
    (l : list (string * list string)) :
  ~ In (fst a) (map fst l) ->
  StronglySorted str_lt (map fst l) ->
  StronglySorted str_lt (map fst (Str.insert_item a l)).
Proof.
  induction l as [|x l IH]; cbn [Str.insert_item map]; intros Hn Hs.
  - repeat constructor.
  - inversion Hs as [|? ? Hs' Hx]; subst.
    assert (Hne : fst a <> fst x) by (intros E; apply Hn; left; auto).
    assert (Hn' : ~ In (fst a) (map fst l)) by (intros E; apply Hn; right; auto).
    unfold Str.compare_items.
    destruct (String.compare (fst a) (fst x)) eqn:E.
    + apply String.compare_eq_iff in E. contradiction.
    + cbn [map]. constructor; [exact Hs|].
      constructor; [exact E|].
      apply Forall_forall. intros y Hy. rewrite Forall_forall in Hx.
      apply (string_compare_lt_trans _ _ _ E), Hx, Hy.
    + cbn [map]. constructor; [apply IH; assumption|].
      apply Forall_forall. intros y Hy.
      apply (Permutation_in _ (Permutation_map fst (insert_item_Permutation a l)))
        in Hy.
      destruct Hy as [<- | Hy].
      * apply string_compare_gt_lt, E.
      * rewrite Forall_forall in Hx. apply Hx, Hy.
Qed.

Lemma sorted_items_sorted (items : list (string * list string)) :
  NoDup (map fst items) ->
  StronglySorted str_lt (map fst (Str.sorted_items items)).
Proof.
  unfold Str.sorted_items.
  assert (G : forall acc,
             NoDup (map fst (acc ++ items)) ->
             StronglySorted str_lt (map fst acc) ->
             StronglySorted str_lt
               (map fst (fold_left (fun acc a => Str.insert_item a acc)
                                   items acc))).
  { induction items as [|a items IH]; intros acc Hnd Hs; cbn [fold_left];
      [exact Hs|].
    rewrite map_app in Hnd. cbn [map] in Hnd.
    apply IH.
    - rewrite map_app.
      apply (Permutation_NoDup (l := map fst acc ++ fst a :: map fst items));
        [|exact Hnd].
      etransitivity; [apply Permutation_sym, Permutation_middle|].
      change (fst a :: map fst acc ++ map fst items)
        with ((fst a :: map fst acc) ++ map fst items).
      apply Permutation_app_tail.
      apply Permutation_sym.
      apply (Permutation_map fst (insert_item_Permutation a acc)).
    - apply insert_item_sorted; [|exact Hs].
      apply NoDup_remove_2 in Hnd. intros E. apply Hnd.
      apply in_or_app. left. exact E. }
  intros H. apply (G []); [exact H | constructor].
Qed.

(** Two strictly ascending lists with the same elements are equal. *)
Lemma sorted_unique (l1 l2 : list string) :
  StronglySorted str_lt l1 -> StronglySorted str_lt l2 ->
  (forall x, In x l1 <-> In x l2) -> l1 = l2.
Proof.
  intros H1. revert l2. induction H1 as [|a l1 Hs IH Ha]; intros l2 H2 E.
  - destruct l2 as [|b l2]; [reflexivity|].
    exfalso. apply (proj2 (E b)). left. reflexivity.
  - destruct H2 as [|b l2 Hs2 Hb].
    { exfalso. apply (proj1 (E a)). left. reflexivity. }
    rewrite Forall_forall in Ha, Hb.
    assert (Eab : a = b).
    { destruct (proj1 (E a) (or_introl eq_refl)) as [Hab | Hab]; [auto|].
      destruct (proj2 (E b) (or_introl eq_refl)) as [Hba | Hba]; [auto|].
      exfalso. apply (string_compare_lt_neq a a); [|reflexivity].
      apply (string_compare_lt_trans a b a); [apply Ha, Hba | apply Hb, Hab]. }
    subst b. f_equal. apply IH; [exact Hs2|].
    intros x. split; intros Hx.
    + destruct (proj1 (E x) (or_intror Hx)) as [<- | H]; [|exact H].
      exfalso. apply (string_compare_lt_neq a a (Ha a Hx)). reflexivity.
    + destruct (proj2 (E x) (or_intror Hx)) as [<- | H]; [|exact H].
      exfalso. apply (string_compare_lt_neq a a (Hb a Hx)). reflexivity.
Qed.

Lemma Permutation_concat_snd (l l' : list (string * list string)) :
  Permutation l l' ->
  Permutation (List.concat (map snd l)) (List.concat (map snd l')).
Proof.
  induction 1 as [| x l l' H IH | x y l | l l' l'' H1 IH1 H2 IH2];
    cbn [map List.concat].
  - reflexivity.
  - apply Permutation_app_head, IH.
  - rewrite !app_assoc. apply Permutation_app_tail, Permutation_app_comm.
  - etransitivity; eassumption.
Qed.

(** X12. The coverage page of a country, for any list of companies: the
    sections are the sectors of the list, each once, in ascending order
    (the same sectors, in the same order, as the sector box offers after
    "All Sectors"); under a sector stand exactly the companies of that
    sector, in the order of the database, and never none; and all
    sections together list every company of the country once, so the
    bullets number what the expander's title announces. *)
Theorem coverage_groups_partition (comps : list company) :
  let groups := coverage_groups comps in
  map fst groups = List.tl (sectors comps) /\
  StronglySorted str_lt (map fst groups) /\
  (forall sec names, In (sec, names) groups <->
     names = names_in sec comps /\ names <> []) /\
  Permutation (List.concat (map snd groups)) (map co_name comps) /\
  List.length (List.concat (map snd groups)) = List.length comps.
Proof.
  intros groups.
  pose proof (sorted_items_Permutation (group_by_sector comps)) as P.
  fold (coverage_groups comps) in P. fold groups in P.
  assert (Hnd : NoDup (keys (group_by_sector comps)))
    by (apply group_loop_NoDup; constructor).
  assert (Hget : forall sec, dict_get (group_by_sector comps) sec
                   = match names_in sec comps with
                     | [] => None
                     | l => Some l
                     end)
    by (intros sec; apply (group_loop_get comps [] sec)).
  assert (Hin : forall sec names, In (sec, names) groups <->
                  names = names_in sec comps /\ names <> []).
  { intros sec names. split.
    - intros H. apply (Permutation_in _ P) in H.
      apply (dict_get_In _ _ _ Hnd) in H. rewrite Hget in H.
      destruct (names_in sec comps); [discriminate|].
      injection H as <-. split; [reflexivity | discriminate].
    - intros [-> Hne]. apply (Permutation_in _ (Permutation_sym P)).
      apply dict_get_Some_In. rewrite Hget.
      destruct (names_in sec comps); [contradiction | reflexivity]. }
  assert (Hs : StronglySorted str_lt (map fst groups))
    by (apply sorted_items_sorted, Hnd).
  assert (Hc : Permutation (List.concat (map snd groups)) (map co_name comps)).
  { etransitivity; [apply Permutation_concat_snd, P|].
    apply (group_loop_concat comps []). }
  split; [|split; [exact Hs|split; [exact Hin|split; [exact Hc|]]]].
  - apply sorted_unique; [exact Hs | apply sorted_set_sorted |].
    intros x. unfold sectors. cbn [List.tl].
    rewrite In_sorted_set. split.
    + intros H. apply in_map_iff in H. destruct H as ([sec names] & <- & H).
      apply Hin in H. destruct H as [-> Hne]. cbn [fst].
      unfold names_in in Hne.
      destruct (filter _ comps) as [|c l] eqn:F; [contradiction|].
      assert (Hc' : In c (filter (fun c => String.eqb (co_sector c) sec) comps))
        by (rewrite F; left; reflexivity).
      apply filter_In in Hc'. destruct Hc' as [Hc1 Hc2].
      apply String.eqb_eq in Hc2. apply in_map_iff. eauto.
    + intros H. apply in_map_iff in H. destruct H as (c & <- & Hc').
      apply in_map_iff.
      exists (co_sector c, names_in (co_sector c) comps). split; [reflexivity|].
      apply Hin. split; [reflexivity|]. unfold names_in.
      assert (Hf : In c (filter (fun c' => String.eqb (co_sector c') (co_sector c))
                                comps))
        by (apply filter_In; split; [exact Hc' | apply String.eqb_refl]).
      destruct (filter _ comps); [contradiction | discriminate].
  - rewrite (Permutation_length Hc). apply length_map.
Qed.

Lemma coverage_groups_partition_witness :
  In ("Telecom", ["Ooredoo"; "Vodafone Qatar"])
     (coverage_groups (dict_get_default MENA_COMPANIES "Qatar" [])).
Proof.
  destruct (coverage_groups_partition
              (dict_get_default MENA_COMPANIES "Qatar" [])) as (_ & _ & H & _).
  apply (proj2 (H "Telecom" ["Ooredoo"; "Vodafone Qatar"])).
  split; [vm_compute; reflexivity | discriminate].
Defined.

End Coverage.

(* ================================================================== *)
(** * File name and caption *)
(* ================================================================== *)

Section PageStrings.

Lemma replace_char_absent (old new : ascii) (s : string) :
  old <> new -> Str.contains_char old (Str.replace_char old new s) = false.
Proof.
  intros H. induction s as [|c s IH]; [reflexivity|].
  cbn [Str.replace_char Str.contains_char]. rewrite IH, orb_false_r.
  destruct (Ascii.eqb_spec c old) as [->|N].
  - apply Ascii.eqb_neq. congruence.
  - apply Ascii.eqb_neq. exact N.
Qed.

Lemma replace_char_length (old new : ascii) (s : string) :
  String.length (Str.replace_char old new s) = String.length s.
Proof.
  induction s as [|c s IH]; [reflexivity|]. cbn. rewrite IH. reflexivity.
Qed.

Lemma replace_char_id (old new : ascii) (s : string) :
  Str.contains_char old s = false -> Str.replace_char old new s = s.
Proof.
  induction s as [|c s IH]; [reflexivity|].
  cbn [Str.replace_char Str.contains_char]. intros H.
  apply orb_false_iff in H. destruct H as [H1 H2].
  rewrite H1, IH by exact H2. reflexivity.
Qed.

Lemma replace_char_app (old new : ascii) (s t : string) :
  Str.replace_char old new (s ++ t)
  = (Str.replace_char old new s ++ Str.replace_char old new t)%string.
Proof.
  induction s as [|c s IH]; [reflexivity|]. cbn. rewrite IH. reflexivity.
Qed.

Lemma contains_char_app (c : ascii) (s t : string) :
  Str.contains_char c (s ++ t)
  = Str.contains_char c s || Str.contains_char c t.
Proof.
  induction s as [|c' s IH]; [reflexivity|]. cbn. rewrite IH.
  apply orb_assoc.
Qed.

Lemma substring_app (s t : string) (k : nat) :
  substring 0 (String.length s + k) (s ++ t)
  = (s ++ substring 0 k t)%string.
Proof.
  induction s as [|c s IH]; [reflexivity|]. cbn. rewrite IH. reflexivity.
Qed.

Lemma substring_all (s t : string) :
  substring 0 (String.length s) (s ++ t) = s.
Proof.
  induction s as [|c s IH]; cbn.
  - destruct t; reflexivity.
  - rewrite IH. reflexivity.
Qed.

(** X13. The name under which the report is downloaded: every blank of
    the company name is replaced by an underscore, so the file name holds
    no blank; it is as long as the company name plus the 20 characters of
    the suffix; a name without blanks is kept as it is; and two names that
    differ only in blank against underscore get the same file name. *)
Theorem report_file_name_no_blank (sel_name : string) :
  Str.contains_char " " (report_file_name sel_name) = false /\
  String.length (report_file_name sel_name) = String.length sel_name + 20 /\
  (Str.contains_char " " sel_name = false ->
   report_file_name sel_name
   = (sel_name ++ "_distress_report.csv")%string) /\
  report_file_name (Str.replace_char " " "_" sel_name)
  = report_file_name sel_name.
Proof.
  unfold report_file_name.
  assert (A : Str.contains_char " " (Str.replace_char " " "_" sel_name) = false)
    by (apply replace_char_absent; discriminate).
  split; [rewrite contains_char_app, A; reflexivity|].
  split; [rewrite string_length_app, replace_char_length; reflexivity|].
  split; [intros H; rewrite replace_char_id by exact H; reflexivity|].
  rewrite (replace_char_id " " "_" (Str.replace_char " " "_" sel_name))
    by exact A.
  reflexivity.
Qed.

(** X14. The caption of the fairness report keeps the first 19 characters
    of the time stamp and writes a blank for every T among them: for an
    ISO time stamp, a date of 10 characters, a T, a time of 8 characters
    and anything after (fraction, zone), the caption is the date, a blank
    and the time. *)
Theorem report_caption_iso (date time rest : string) :
  String.length date = 10 -> String.length time = 8 ->
  Str.contains_char "T" date = false -> Str.contains_char "T" time = false ->
  report_caption (date ++ "T" ++ time ++ rest)
  = (date ++ " " ++ time)%string.
Proof.
  intros Ld Lt Nd Nt. unfold report_caption.
  replace 19 with (String.length date + 9) by (rewrite Ld; reflexivity).
  rewrite substring_app.
  change ("T" ++ time ++ rest)%string with (String "T" (time ++ rest)).
  change (substring 0 9 (String "T" (time ++ rest)))
    with (String "T" (substring 0 8 (time ++ rest))).
  rewrite <- Lt, substring_all.
  rewrite replace_char_app. cbn [Str.replace_char].
  rewrite !replace_char_id by assumption.
  reflexivity.
Qed.

Lemma report_caption_iso_witness :
  report_caption "2026-02-18T09:30:00.123456" = "2026-02-18 09:30:00".
Proof.
  apply (report_caption_iso "2026-02-18" "09:30:00" ".123456");
    reflexivity.
Defined.

End PageStrings.

(* ================================================================== *)
(** * The gauges *)
(* ================================================================== *)

Section Gauges.
Import F64Facts.
Local Open Scope float_scope.

Lemma ltb_leb_trans (x y z : float) :
  (x <? y) = true -> (y <=? z) = true -> (x <? z) = true.
Proof.
  intros Hxy Hyz.
  pose proof (leb_trans _ _ _ (ltb_leb _ _ Hxy) Hyz) as Hxz.
  destruct (leb_not_nan _ _ Hxz) as [Nx Nz].
  rewrite (ltb_negb_leb z x Nz Nx).
  destruct (z <=? x) eqn:E; [|reflexivity].
  pose proof (leb_not_ltb _ _ (leb_trans _ _ _ Hyz E)) as C. congruence.
Qed.

(** X15. The bar of a gauge is green below 33, amber from 33 to below 66
    and red otherwise, NaN included; the three cases exclude each other;
    and the bar changes colour exactly where the background steps of the
    same gauge change: a value inside a step [lo, hi) has the bar colour
    that belongs to the step's background. *)
Theorem create_gauge_bands (value : float) (title : string) :
  let g := create_gauge value title in
  (g_bar g = "#27ae60" <-> (value <? 33) = true) /\
  (g_bar g = "#f39c12" <-> (33 <=? value) = true /\ (value <? 66) = true) /\
  (g_bar g = "#c0392b" <-> (value <? 66) = false) /\
  (F64.isnan value = true -> g_bar g = "#c0392b") /\
  (forall lo hi background,
     In (lo, hi, background) (g_steps g) ->
     (lo <=? value) = true -> (value <? hi) = true ->
     g_bar g = bar_on background).
Proof.
  cbn [create_gauge g_bar g_steps]. unfold gauge_colour.
  assert (T : (value <? 33) = true -> (value <? 66) = true).
  { intros H. apply (ltb_leb_trans _ _ _ H). reflexivity. }
  assert (L : (33 <=? value) = true -> (value <? 33) = false)
    by apply leb_not_ltb.
  assert (R : (value <? 33) = false -> (value <? 66) = true ->
              (33 <=? value) = true).
  { intros H3 H6.
    destruct (leb_not_nan _ _ (ltb_leb _ _ H6)) as [Nv _].
    rewrite (ltb_negb_leb 33 value) in H3 by first [exact Nv | reflexivity].
    apply negb_false_iff in H3. exact H3. }
  split; [|split; [|split; [|split]]].
  - destruct (value <? 33); [tauto|].
    destruct (value <? 66); split; intros H; discriminate.
  - destruct (value <? 33) eqn:H3.
    + split; [discriminate|]. intros [H _]. apply L in H. discriminate.
    + destruct (value <? 66) eqn:H6.
      * split; [intros _; split; [apply R; reflexivity | reflexivity] | reflexivity].
      * split; [discriminate | intros [_ H]; discriminate].
  - destruct (value <? 33) eqn:H3.
    + rewrite (T eq_refl). split; discriminate.
    + destruct (value <? 66); split; try discriminate; reflexivity.
  - intros N. apply isnan_eq in N. subst. reflexivity.
  - intros lo hi bg [H|[H|[H|[]]]] Hlo Hhi; injection H as <- <- <-.
    + rewrite Hhi. reflexivity.
    + rewrite (L Hlo), Hhi. reflexivity.
    + assert (H6 : (value <? 66) = false) by (apply leb_not_ltb, Hlo).
      assert (H3 : (value <? 33) = false).
      { destruct (value <? 33); [|reflexivity]. rewrite T in H6; auto. }
      rewrite H3, H6. reflexivity.
Qed.

End Gauges.

(* ================================================================== *)
(** * The analysis run *)
(* ================================================================== *)

Section AnalysisRun.
Local Open Scope float_scope.

Variable yf_Ticker : string -> py Stock.

(** A snapshot that was fetched has a price history of at least one
    row. *)
Lemma fetch_company_data_history (ticker period : string) (data : Snapshot) :
  fetch_company_data yf_Ticker ticker period = Some data ->
  history data <> [].
Proof.
  unfold fetch_company_data.
  destruct (yf_Ticker ticker) as [stock|e]; [|discriminate]. cbn [bind].
  destruct (s_history stock period) as [hist|e]; [|discriminate]. cbn [bind].
  destruct hist as [|b hist]; [discriminate|]. cbn [List.length Nat.eqb].
  destruct (s_financials stock); [|discriminate]. cbn [bind].
  destruct (s_balance_sheet stock); [|discriminate]. cbn [bind].
  destruct (s_cashflow stock); [|discriminate]. cbn [bind].
  destruct (s_info stock); [|discriminate]. cbn [bind].
  intros H. injection H as <-. discriminate.
Qed.


End AnalysisRun.


(* ================================================================== *)
(** * What loading returns *)
(* ================================================================== *)

Section LoadingOutcome.

Lemma resolve_model_not_None (raw model : pyobj) :
  resolve_model raw = Returned model -> is_None model = false.
Proof.
  unfold resolve_model. destruct (has_predict_proba raw) eqn:P.
  - intros H. injection H as <-. destruct raw; try discriminate. reflexivity.
  - destruct raw as [|i c|items]; try discriminate.
    match goal with
    | |- (if is_None ?m then _ else _) = _ -> _ =>
        destruct (is_None m) eqn:N; [discriminate|]
    end.
    intros H. injection H as <-. exact N.
Qed.

(** X17. What [load_model_resources] returns, and when.  It returns
    exactly when both artifacts were found and unpickled and a model was
    chosen from the first; the model returned is never None, and it is
    the unpickled object itself when that has [predict_proba].  The
    explainer decides nothing: when [shap.TreeExplainer] raises, loading
    returns with the explainer None, and two environments that differ in
    the explainer only stop with the same error or both return.  The
    scaler is returned as it was unpickled, unchecked. *)
Theorem load_model_resources_outcome (env : LoadEnv) :
  (forall model scaler explainer,
     load_model_resources env = Returned (model, scaler, explainer) <->
     exists raw,
       model_file env = Some (Ok raw) /\
       resolve_model raw = Returned model /\
       scaler_file env = Some (Ok scaler) /\
       explainer = except_None (tree_explainer env model)) /\
  (forall model scaler explainer,
     load_model_resources env = Returned (model, scaler, explainer) ->
     is_None model = false /\
     (forall raw, model_file env = Some (Ok raw) ->
                  has_predict_proba raw = true -> model = raw)) /\
  (forall explain',
     match load_model_resources env,
           load_model_resources
             (mkLoadEnv (model_file env) (scaler_file env) explain') with
     | Stopped err, Stopped err' => err = err'
     | Returned (m, s, _), Returned (m', s', _) => m = m' /\ s = s'
     | _, _ => False
     end).
Proof.
  assert (A : forall model scaler explainer,
     load_model_resources env = Returned (model, scaler, explainer) <->
     exists raw,
       model_file env = Some (Ok raw) /\
       resolve_model raw = Returned model /\
       scaler_file env = Some (Ok scaler) /\
       explainer = except_None (tree_explainer env model)).
  { intros model scaler explainer. unfold load_model_resources. split.
    - destruct (model_file env) as [[raw|e]|]; try discriminate.
      destruct (resolve_model raw) as [err|m] eqn:Er; try discriminate.
      destruct (scaler_file env) as [[s|e]|]; try discriminate.
      intros H. injection H as <- <- <-. exists raw.
      split; [reflexivity|]. split; [exact Er|]. split; [reflexivity|].
      destruct (tree_explainer env m); reflexivity.
    - intros (raw & -> & -> & -> & ->).
      destruct (tree_explainer env model); reflexivity. }
  split; [exact A|]. split.
  - intros model scaler explainer H. apply A in H.
    destruct H as (raw & Em & Er & _ & _).
    split; [apply (resolve_model_not_None raw), Er|].
    intros raw' Em' P. rewrite Em in Em'. injection Em' as <-.
    unfold resolve_model in Er. rewrite P in Er. injection Er as <-.
    reflexivity.
  - intros explain'. unfold load_model_resources. cbn [model_file scaler_file].
    destruct (model_file env) as [[raw|e]|]; try reflexivity.
    destruct (resolve_model raw) as [err|m]; try reflexivity.
    destruct (scaler_file env) as [[s|e]|]; try reflexivity.
    split; reflexivity.
Qed.

End LoadingOutcome.

(* ================================================================== *)
(** * The price chart and the bearish signal *)
(* ================================================================== *)

Section PriceChart.
Local Open Scope float_scope.

Lemma dc_of_flag (hist : History) :
  dc_of hist = PInt 1 ->
  (200 <= List.length hist)%nat /\
  (Pd.iloc_last (ma50 hist) <? Pd.iloc_last (ma200 hist)) = true.
Proof.
  intros H. split.
  - destruct (Nat.le_gt_cases 200 (List.length hist)) as [L|L]; [exact L|].
    rewrite (dc_of_short hist L) in H. discriminate.
  - unfold dc_of in H.
    destruct (Pd.iloc_last (ma50 hist) <? Pd.iloc_last (ma200 hist));
      [reflexivity|].
    rewrite andb_false_r in H. discriminate.
Qed.

(** X19. The price chart draws the closing price and the 50-day average,
    and the 200-day average exactly when the history has at least 200
    rows; every line has one point per row.  Whenever the extraction sets
    Death_Cross to 1, the chart of the same history shows all three
    lines, and the last point of the 50-day line lies below the last
    point of the 200-day line. *)
Theorem create_price_chart_traces (hist : History) (name : string) :
  let chart := create_price_chart hist name in
  map tr_name chart
  = (if (200 <=? List.length hist)%nat
     then ["Closing Price"; "50-Day Average"; "200-Day Average"]
     else ["Closing Price"; "50-Day Average"])%string /\
  Forall (fun t => List.length (tr_y t) = List.length hist) chart /\
  (dc_of hist = PInt 1 ->
   exists avg50 avg200,
     chart = [mkTrace "Closing Price" "#1e3c72" (closes hist);
              mkTrace "50-Day Average" "#e67e22" avg50;
              mkTrace "200-Day Average" "#c0392b" avg200] /\
     (Pd.iloc_last avg50 <? Pd.iloc_last avg200) = true).
Proof.
  cbv zeta. unfold create_price_chart.
  split; [destruct (200 <=? List.length hist)%nat; reflexivity|].
  split.
  - assert (Lc : List.length (closes hist) = List.length hist)
      by (unfold closes; apply length_map).
    destruct (200 <=? List.length hist)%nat;
      repeat constructor; cbn [tr_y];
      rewrite ?rolling_mean_length; exact Lc.
  - intros H. destruct (dc_of_flag hist H) as [L C].
    apply Nat.leb_le in L. rewrite L.
    eexists. eexists. split; [reflexivity | exact C].
Qed.

End PriceChart.

(* ================================================================== *)
(** * The signal chips of an extracted vector *)
(* ================================================================== *)

Section Chips.
Local Open Scope float_scope.

Lemma int_truediv_float (x y : Z) (v : pyval) :
  Py.int_truediv x y = Ok v -> exists f, v = PFloat f.
Proof.
  unfold Py.int_truediv. destruct x; intros H;
    try (injection H as <-; eauto);
    match type of H with
    | (if ?c then _ else _) = _ => destruct c; try discriminate
    end; injection H as <-; eauto.
Qed.

Lemma truediv_float (a b v : pyval) :
  Py.truediv a b = Ok v -> exists f, v = PFloat f.
Proof.
  destruct a as [|x|x], b as [|y|y]; simpl; intros H; try discriminate;
    repeat match type of H with
           | (if ?c then _ else _) = Ok _ => destruct c; try discriminate
           | bind ?c _ = Ok _ => destruct c; simpl in H; try discriminate
           end;
    try (injection H as <-; eauto).
  eapply int_truediv_float, H.
Qed.

Lemma arith_float_r (opz : Z -> Z -> Z) (opf : float -> float -> float)
    (a v : pyval) (y : float) :
  Py.arith opz opf a (PFloat y) = Ok v -> exists f, v = PFloat f.
Proof.
  destruct a as [|x|x]; simpl; intros H; try discriminate.
  - destruct (Py.float_of_int x); simpl in H; [|discriminate].
    injection H as <-. eauto.
  - injection H as <-. eauto.
Qed.

Lemma arith_float_l (opz : Z -> Z -> Z) (opf : float -> float -> float)
    (b v : pyval) (x : float) :
  Py.arith opz opf (PFloat x) b = Ok v -> exists f, v = PFloat f.
Proof.
  destruct b as [|y|y]; simpl; intros H; try discriminate.
  - destruct (Py.float_of_int y); simpl in H; [|discriminate].
    injection H as <-. eauto.
  - injection H as <-. eauto.
Qed.

Lemma ratio_indicator (num den v : pyval) :
  ratio num den = Ok v -> indicator_value v = true.
Proof.
  unfold ratio. intros H. bind_inv H. destruct a.
  - apply truediv_float in H. destruct H as [f ->]. reflexivity.
  - injection H as <-. reflexivity.
Qed.

Lemma ratio_pct_indicator (num den v : pyval) :
  ratio_pct num den = Ok v -> indicator_value v = true.
Proof.
  unfold ratio_pct. intros H. bind_inv H. destruct a.
  - bind_inv H. apply truediv_float in Ha0. destruct Ha0 as [f ->].
    apply arith_float_l in H. destruct H as [g ->]. reflexivity.
  - injection H as <-. reflexivity.
Qed.

Lemma weighted_float (w : float) (x den v : pyval) :
  weighted w x den = Ok v -> exists f, v = PFloat f.
Proof.
  unfold weighted. intros H. bind_inv H. apply (truediv_float _ _ _ H).
Qed.

Lemma altman_z_indicator (f : Fundamentals) (wc v : pyval) :
  altman_z f wc = Ok v -> indicator_value v = true.
Proof.
  unfold altman_z. intros H. bind_inv H. destruct a.
  - do 7 bind_inv H. bind_inv H.
    match goal with
    | W : weighted 1.0 _ _ = Ok ?t |- _ =>
        apply weighted_float in W; destruct W as [g ->]
    end.
    apply arith_float_r in H. destruct H as [h ->]. reflexivity.
  - injection H as <-. reflexivity.
Qed.

Lemma rsi14_indicator (hist : History) : indicator_value (rsi14_of hist) = true.
Proof. unfold rsi14_of. destruct (_ && _); reflexivity. Qed.

(** An indicator compares with every number and has every fixed
    format. *)
Lemma cmp_indicator (v c : pyval) :
  indicator_value v = true -> is_number c = true ->
  exists r, PyCmp.cmp v c = Ok r.
Proof.
  destruct v as [|x|x], c as [|y|y]; simpl; intros Hv Hc;
    try discriminate; eauto.
Qed.

Lemma gt_indicator (v c : pyval) :
  indicator_value v = true -> is_number c = true ->
  exists b, PyCmp.gt v c = Ok b.
Proof.
  intros Hv Hc. unfold PyCmp.gt.
  destruct (cmp_indicator v c Hv Hc) as [r ->]. simpl. eauto.
Qed.

Lemma lt_indicator (v c : pyval) :
  indicator_value v = true -> is_number c = true ->
  exists b, PyCmp.lt v c = Ok b.
Proof.
  intros Hv Hc. unfold PyCmp.lt.
  destruct (cmp_indicator v c Hv Hc) as [r ->]. simpl. eauto.
Qed.

Lemma format_indicator (nd : nat) (v : pyval) :
  indicator_value v = true -> exists t, PyCmp.format_fixed nd v = Ok t.
Proof.
  unfold PyCmp.format_fixed. destruct v as [|n|x]; simpl; intros H;
    try discriminate; [|eauto].
  assert (E0 : Py.float_of_int 0 = Ok 0) by (vm_compute; reflexivity).
  assert (E50 : Py.float_of_int 50 = Ok 50) by (vm_compute; reflexivity).
  apply orb_true_iff in H. destruct H as [H|H]; apply Z.eqb_eq in H; subst;
    [rewrite E0 | rewrite E50]; cbn [bind]; eauto.
Qed.

Lemma bind_if_Ok {A B : Type} (b : bool) (x y : A) (k : A -> py B) :
  bind (if b then Ok x else Ok y) k = k (if b then x else y).
Proof. destruct b; reflexivity. Qed.

Lemma gt_nan (c : pyval) :
  is_number c = true -> PyCmp.gt (PFloat nan) c = Ok false.
Proof. destruct c; simpl; intros H; try discriminate; reflexivity. Qed.

(** The indicators the chips read from an extracted vector. *)
Lemma extracted_indicators (data : Snapshot) (today : datetime) (d : Metrics) :
  calculate_all_metrics data today = Some d ->
  indicator_value (dict_get_default d "Altman_Z_Score" (PInt 0)) = true /\
  indicator_value (dict_get_default d "ROE_%" (PInt 0)) = true /\
  indicator_value (dict_get_default d "Debt_to_Equity" (PInt 0)) = true /\
  indicator_value (dict_get_default d "Operating Cf_M" (PInt 0)) = true /\
  indicator_value (dict_get_default d "RSI_14" (PInt 50)) = true /\
  exists flag : bool,
    dict_get_default d "Death_Cross" (PInt 0) = PInt (if flag then 1 else 0).
Proof.
  intros Hd. apply calculate_all_metrics_Some in Hd.
  destruct Hd as (f & m & r & x & _ & Hm & Hr & Hx & ->).
  unfold dict_get_default. cbn [feature_dict dict_get String.eqb Ascii.eqb
                                 Bool.eqb].
  unfold market_of in Hm. bind_inv Hm. injection Hm as <-.
  cbn [rsi14 dc].
  unfold ratios_of in Hr.
  bind_inv Hr. rename a0 into v1, Ha0 into R1.
  bind_inv Hr. rename a0 into v2, Ha0 into R2.
  bind_inv Hr. rename a0 into v3, Ha0 into R3.
  bind_inv Hr. rename a0 into v4, Ha0 into R4.
  bind_inv Hr. rename a0 into v5, Ha0 into R5.
  bind_inv Hr. rename a0 into v6, Ha0 into R6.
  bind_inv Hr. rename a0 into v7, Ha0 into R7.
  bind_inv Hr. rename a0 into v8, Ha0 into R8.
  bind_inv Hr. rename a0 into v9, Ha0 into R9.
  injection Hr as <-. cbn [z roe d2e].
  unfold displayed_of in Hx.
  bind_inv Hx. rename a0 into w1, Ha0 into X1.
  bind_inv Hx. rename a0 into w2, Ha0 into X2.
  bind_inv Hx. rename a0 into w3, Ha0 into X3.
  bind_inv Hx. rename a0 into w4, Ha0 into X4.
  bind_inv Hx. rename a0 into w5, Ha0 into X5.
  injection Hx as <-. cbn [ocf_m].
  split; [apply (altman_z_indicator _ _ _ R9)|].
  split; [apply (ratio_pct_indicator _ _ _ R5)|].
  split; [apply (ratio_indicator _ _ _ R4)|].
  split; [apply truediv_float in X2; destruct X2 as [g ->]; reflexivity|].
  split; [apply rsi14_indicator|].
  unfold dc_of. eexists. reflexivity.
Qed.

(** The chips of an extracted vector: four chips, the bearish chip when
    the flag is set, and the momentum chip. *)
Lemma chips_layout (data : Snapshot) (today : datetime) (d : Metrics) :
  calculate_all_metrics data today = Some d ->
  exists (c1 c2 c3 c4 c6 : chip) (flag : bool),
    explanation_chips d
    = Ok ([c1; c2; c3; c4] ++ (if flag then [bearish_chip] else []) ++ [c6]) /\
    dict_get d "Death_Cross" = Some (PInt (if flag then 1 else 0)) /\
    Forall (fun c : chip => In (fst c) ["chip-g"; "chip-a"; "chip-r"])
           [c1; c2; c3; c4; c6] /\
    (dict_get d "Altman_Z_Score" = Some (PFloat nan) ->
     c1 = ("chip-r", "Financial Health Score: nan  —  Weak")) /\
    (forall t,
       PyCmp.gt (dict_get_default d "ROE_%" (PInt 0)) (PInt 15) = Ok true ->
       PyCmp.format_fixed 1 (dict_get_default d "ROE_%" (PInt 0)) = Ok t ->
       c2 = ("chip-g", ("Return on Equity: " ++ t ++ "%  —  Strong")%string)).
Proof.
  intros Hd.
  destruct (extracted_indicators _ _ _ Hd) as (Iz & Iroe & Ide & Iocf & Irsi & flag & Edc).
  assert (Kdc : dict_get d "Death_Cross" = Some (PInt (if flag then 1 else 0))).
  { apply calculate_all_metrics_Some in Hd.
    destruct Hd as (f & m & r & x & _ & _ & _ & _ & ->).
    unfold dict_get_default in Edc.
    cbn [feature_dict dict_get String.eqb Ascii.eqb Bool.eqb] in Edc |- *.
    rewrite Edc. reflexivity. }
  assert (Kz : forall v, dict_get d "Altman_Z_Score" = Some v ->
                         dict_get_default d "Altman_Z_Score" (PInt 0) = v).
  { intros v H. unfold dict_get_default. rewrite H. reflexivity. }
  unfold explanation_chips. rewrite Edc.
  set (vz := dict_get_default d "Altman_Z_Score" (PInt 0)) in *.
  set (vroe := dict_get_default d "ROE_%" (PInt 0)) in *.
  set (vde := dict_get_default d "Debt_to_Equity" (PInt 0)) in *.
  set (vocf := dict_get_default d "Operating Cf_M" (PInt 0)) in *.
  set (vrsi := dict_get_default d "RSI_14" (PInt 50)) in *.
  destruct (gt_indicator vz (PFloat 2.99) Iz eq_refl) as [b1 E1].
  destruct (gt_indicator vz (PFloat 1.81) Iz eq_refl) as [b2 E2].
  destruct (format_indicator 2 vz Iz) as [t1 F1].
  destruct (gt_indicator vroe (PInt 15) Iroe eq_refl) as [b3 E3].
  destruct (gt_indicator vroe (PInt 5) Iroe eq_refl) as [b4 E4].
  destruct (format_indicator 1 vroe Iroe) as [t2 F2].
  destruct (lt_indicator vde (PFloat 1.0) Ide eq_refl) as [b5 E5].
  destruct (lt_indicator vde (PFloat 2.5) Ide eq_refl) as [b6 E6].
  destruct (format_indicator 2 vde Ide) as [t3 F3].
  destruct (gt_indicator vocf (PInt 0) Iocf eq_refl) as [b7 E7].
  destruct (format_indicator 0 vocf Iocf) as [t4 F4].
  destruct (lt_indicator vrsi (PInt 35) Irsi eq_refl) as [b8 E8].
  destruct (gt_indicator vrsi (PInt 65) Irsi eq_refl) as [b9 E9].
  destruct (format_indicator 0 vrsi Irsi) as [t5 F5].
  rewrite E1, E2, F1, E3, E4, F2, E5, E6, F3, E7, F4, E8, E9, F5.
  cbn [bind]. rewrite !bind_if_Ok. cbn [bind].
  replace (PyCmp.eq (PInt (if flag then 1 else 0)) (PInt 1)) with flag
    by (destruct flag; reflexivity).
  do 5 eexists. exists flag. split; [reflexivity|].
  split; [exact Kdc|]. split; [|split].
  - assert (C : forall (b : bool) (x y : chip),
               In (fst x) ["chip-g"; "chip-a"; "chip-r"]%string ->
               In (fst y) ["chip-g"; "chip-a"; "chip-r"]%string ->
               In (fst (if b then x else y))
                  ["chip-g"; "chip-a"; "chip-r"]%string)
      by (intros [] x y Hx Hy; assumption).
    repeat (constructor; [repeat apply C; cbn; auto|]); constructor.
  - intros H. apply Kz in H. fold vz in H. rewrite H in E1, E2, F1.
    rewrite gt_nan in E1, E2 by reflexivity.
    injection E1 as <-. injection E2 as <-.
    assert (T : PyCmp.format_fixed 2 (PFloat nan) = Ok "nan"%string)
      by (vm_compute; reflexivity).
    rewrite T in F1. injection F1 as <-. reflexivity.
  - intros t G F. injection G as ->. injection F as ->. reflexivity.
Qed.

(** X18. The signal chips of a vector returned by the extractor: building
    them never raises; there are five chips (health score, return on
    equity, debt level, cash generation, price momentum, in this order),
    and a sixth, the bearish-signal chip, in fifth place exactly when
    Death_Cross is 1; every chip has one of the three classes; and a
    health score that is NaN is shown with the red chip, as Weak. *)
Theorem explanation_chips_extracted (data : Snapshot) (today : datetime)
    (d : Metrics) :
  calculate_all_metrics data today = Some d ->
  exists chips,
    explanation_chips d = Ok chips /\
    Forall (fun c : chip => In (fst c) ["chip-g"; "chip-a"; "chip-r"]) chips /\
    (dict_get d "Death_Cross" = Some (PInt 1) ->
     List.length chips = 6%nat /\ nth_error chips 4 = Some bearish_chip) /\
    (dict_get d "Death_Cross" <> Some (PInt 1) -> List.length chips = 5%nat) /\
    (dict_get d "Altman_Z_Score" = Some (PFloat nan) ->
     nth_error chips 0
     = Some ("chip-r", "Financial Health Score: nan  —  Weak")).
Proof.
  intros Hd.
  destruct (chips_layout _ _ _ Hd)
    as (c1 & c2 & c3 & c4 & c6 & flag & E & Kdc & Hc & Hnan & _).
  eexists. split; [exact E|]. rewrite Kdc.
  inversion Hc as [|? ? H1 Hc1]; subst.
  inversion Hc1 as [|? ? H2 Hc2]; subst.
  inversion Hc2 as [|? ? H3 Hc3]; subst.
  inversion Hc3 as [|? ? H4 Hc4]; subst.
  inversion Hc4 as [|? ? H6 _]; subst.
  split; [|split; [|split]].
  - destruct flag; cbn [app];
      repeat (apply Forall_cons; [first [assumption | cbn; auto]|]);
      apply Forall_nil.
  - intros H. destruct flag; [|discriminate]. split; reflexivity.
  - intros H. destruct flag; [contradiction H; reflexivity | reflexivity].
  - intros H. rewrite (Hnan H). reflexivity.
Qed.

End Chips.

Lemma explanation_chips_total (d : Metrics) :
  (exists data today, calculate_all_metrics data today = Some d) ->
  exists chips, explanation_chips d = Ok chips.
Proof.
  intros (data & today & Hd).
  destruct (chips_layout data today d Hd)
    as (c1 & c2 & c3 & c4 & c6 & flag & H & _).
  eauto.
Qed.

Section ChipSamples.

Lemma explanation_chips_extracted_witness :
  exists chips,
    explanation_chips
      (match calculate_all_metrics Samples.scenario_snapshot Samples.today with
       | Some d => d
       | None => []
       end) = Ok chips /\
    List.length chips = 5%nat.
Proof.
  destruct (calculate_all_metrics Samples.scenario_snapshot Samples.today)
    as [d|] eqn:E; [|vm_compute in E; discriminate].
  destruct (explanation_chips_extracted _ _ _ E) as (chips & H & _ & _ & L & _).
  exists chips. split; [exact H|]. apply L.
  vm_compute in E. injection E as <-. vm_compute. discriminate.
Defined.

End ChipSamples.

(* ================================================================== *)
(** * The paragraphs of an extracted vector *)
(* ================================================================== *)

Section ParagraphFacts.
Local Open Scope float_scope.

Lemma returns_Ok {A : Type} (a : A) : returns (Ok a).
Proof. exists a. reflexivity. Qed.

Lemma returns_lit (s : string) : returns (lit s).
Proof. apply returns_Ok. Qed.

Lemma returns_fmt (nd : nat) (v : pyval) :
  indicator_value v = true -> returns (fmt nd v).
Proof.
  intros H. unfold fmt. destruct (format_indicator nd v H) as [t ->].
  apply returns_Ok.
Qed.

Lemma returns_cat (a b : py (list string)) :
  returns a -> returns b -> returns (a +++ b).
Proof. intros [x ->] [y ->]. apply returns_Ok. Qed.

Lemma returns_ifelse {A : Type} (test : py bool) (a b : py A) :
  returns test -> returns a -> returns b -> returns (ifelse test a b).
Proof. intros [[] ->] Ha Hb; assumption. Qed.

Lemma returns_and_then (p q : py bool) :
  returns p -> returns q -> returns (and_then p q).
Proof. intros [[] ->] Hq; [assumption | apply returns_Ok]. Qed.

Lemma cmp_number_indicator (c v : pyval) :
  is_number c = true -> indicator_value v = true ->
  exists r, PyCmp.cmp c v = Ok r.
Proof.
  destruct c as [|x|x], v as [|y|y]; simpl; intros Hc Hv;
    try discriminate; eauto.
Qed.

Lemma returns_compare_r (v c : pyval) :
  indicator_value v = true -> is_number c = true ->
  returns (PyCmp.gt v c) /\ returns (PyCmp.lt v c) /\
  returns (PyCmp.ge v c) /\ returns (PyCmp.le v c).
Proof.
  intros Hv Hc. unfold PyCmp.gt, PyCmp.lt, PyCmp.ge, PyCmp.le.
  destruct (cmp_indicator v c Hv Hc) as [r ->].
  repeat split; apply returns_Ok.
Qed.

Lemma returns_compare_l (c v : pyval) :
  is_number c = true -> indicator_value v = true ->
  returns (PyCmp.gt c v) /\ returns (PyCmp.lt c v) /\
  returns (PyCmp.ge c v) /\ returns (PyCmp.le c v).
Proof.
  intros Hc Hv. unfold PyCmp.gt, PyCmp.lt, PyCmp.ge, PyCmp.le.
  destruct (cmp_number_indicator c v Hc Hv) as [r ->].
  repeat split; apply returns_Ok.
Qed.

Lemma yields_lit (s : string) : yields (lit s) s.
Proof. exists [s]. split; [reflexivity | left; reflexivity]. Qed.

Lemma yields_cat_l (a b : py (list string)) (s : string) :
  yields a s -> returns b -> yields (a +++ b) s.
Proof.
  intros (x & -> & Hx) [y ->]. exists (x ++ y).
  split; [reflexivity | apply in_or_app; auto].
Qed.

Lemma yields_cat_r (a b : py (list string)) (s : string) :
  returns a -> yields b s -> yields (a +++ b) s.
Proof.
  intros [x ->] (y & -> & Hy). exists (x ++ y).
  split; [reflexivity | apply in_or_app; auto].
Qed.

Lemma yields_ifelse (test : py bool) (a b : py (list string)) (c : bool)
    (s : string) :
  test = Ok c -> yields (if c then a else b) s -> yields (ifelse test a b) s.
Proof. intros -> H. exact H. Qed.

(** [a > b] settles [a <= b]. *)
Lemma gt_le (a b : pyval) :
  PyCmp.gt a b = Ok true -> PyCmp.le a b = Ok false.
Proof.
  unfold PyCmp.gt, PyCmp.le. destruct (PyCmp.cmp a b) as [[[| |]|]|e];
    simpl; intros H; try discriminate; reflexivity.
Qed.

(** The values the paragraphs read from an extracted vector. *)
Lemma extracted_paragraph_values (data : Snapshot) (today : datetime)
    (d : Metrics) :
  calculate_all_metrics data today = Some d ->
  indicator_value (dict_get_default d "Net_Profit_Margin_%" (PInt 0)) = true /\
  indicator_value (dict_get_default d "Free Cf_M" (PInt 0)) = true /\
  indicator_value (dict_get_default d "Volatility_20" (PInt 0)) = true /\
  indicator_value (dict_get_default d "ROC_20" (PInt 0)) = true /\
  indicator_value (dict_get_default d "Equity_Ratio" (PInt 0)) = true.
Proof.
  intros Hd. apply calculate_all_metrics_Some in Hd.
  destruct Hd as (f & m & r & x & _ & Hm & Hr & Hx & ->).
  unfold dict_get_default. cbn [feature_dict dict_get String.eqb Ascii.eqb
                                 Bool.eqb].
  unfold market_of in Hm. bind_inv Hm. injection Hm as <-.
  cbn [roc20 vol_20 lat_ret] in *.
  unfold ratios_of in Hr.
  bind_inv Hr. rename a0 into v1, Ha0 into R1.
  bind_inv Hr. rename a0 into v2, Ha0 into R2.
  bind_inv Hr. rename a0 into v3, Ha0 into R3.
  bind_inv Hr. rename a0 into v4, Ha0 into R4.
  bind_inv Hr. rename a0 into v5, Ha0 into R5.
  bind_inv Hr. rename a0 into v6, Ha0 into R6.
  bind_inv Hr. rename a0 into v7, Ha0 into R7.
  bind_inv Hr. rename a0 into v8, Ha0 into R8.
  bind_inv Hr. rename a0 into v9, Ha0 into R9.
  injection Hr as <-. cbn [npm eq_r].
  unfold displayed_of in Hx.
  bind_inv Hx. rename a0 into w1, Ha0 into X1.
  bind_inv Hx. rename a0 into w2, Ha0 into X2.
  bind_inv Hx. rename a0 into w3, Ha0 into X3.
  bind_inv Hx. rename a0 into w4, Ha0 into X4.
  bind_inv Hx. rename a0 into w5, Ha0 into X5.
  injection Hx as <-. cbn [fcf_m vol].
  split; [apply (ratio_pct_indicator _ _ _ R7)|].
  split; [apply truediv_float in X3; destruct X3 as [g ->]; reflexivity|].
  split.
  { destruct (negb w4); [|injection X5 as <-; reflexivity].
    bind_inv X5. injection X5 as <-. reflexivity. }
  split; [|apply (ratio_indicator _ _ _ R1)].
  unfold roc20_of. destruct (_ && _); reflexivity.
Qed.

End ParagraphFacts.

(** One step of showing that a paragraph is built without an exception. *)
Ltac returns_step :=
  first
    [ apply returns_lit
    | apply returns_Ok
    | apply returns_cat
    | apply returns_ifelse
    | apply returns_and_then
    | apply returns_fmt; assumption
    | apply returns_compare_r; [assumption | reflexivity]
    | apply returns_compare_l; [reflexivity | assumption] ].

Ltac returns_all := repeat returns_step.

Section ParagraphTheorems.
Local Open Scope float_scope.

(** All twelve paragraphs are built without an exception from
    indicator values. *)
Lemma paragraphs_of_returns (name period_label pct : string)
    (z roe npm de ocf fcf vol roc dc eq_r : pyval) (pred : Z) (prob : float) :
  indicator_value z = true -> indicator_value roe = true ->
  indicator_value npm = true -> indicator_value de = true ->
  indicator_value ocf = true -> indicator_value fcf = true ->
  indicator_value vol = true -> indicator_value roc = true ->
  indicator_value eq_r = true ->
  returns (paragraphs_of name period_label pct z roe npm de ocf fcf vol roc
                         dc eq_r pred prob).
Proof.
  intros Hz Hroe Hnpm Hde Hocf Hfcf Hvol Hroc Heq.
  assert (G : forall a b c : py (list string),
             returns a -> returns b -> returns c ->
             returns (s <- a ;; f <- b ;; m <- c ;; Ok (s, f, m))).
  { intros a b c [x ->] [y ->] [w ->]. apply returns_Ok. }
  unfold paragraphs_of.
  destruct ((pred =? 1)%Z && F64.geb prob 0.7);
    [|destruct ((pred =? 1)%Z && F64.geb prob 0.5);
      [|destruct (F64.geb prob 0.3)]];
    apply G;
    unfold critical_summ, critical_fin, critical_mkt, high_summ, high_fin,
           high_mkt, medium_summ, medium_fin, medium_mkt, low_summ, low_fin,
           low_mkt;
    returns_all.
Qed.

(** X20. [render_explanation] never raises on a vector returned by the
    extractor, whatever the name, the period, the label and the
    probability: the chips and the three paragraphs of the branch are all
    built; the summary names the company, the period and the probability
    written as a percentage with one decimal. *)
Theorem explanation_text_extracted (data : Snapshot) (today : datetime)
    (d : Metrics) (name period_label : string) (pred : Z) (prob : float) :
  calculate_all_metrics data today = Some d ->
  exists chips summ fin mkt,
    explanation_text name period_label pred prob d
    = Ok (chips, (summ, fin, mkt)) /\
    explanation_chips d = Ok chips /\
    In name summ /\ In period_label summ /\
    In (Fmt.format_percent 1 prob) summ.
Proof.
  intros Hd.
  destruct (extracted_indicators _ _ _ Hd) as (Iz & Iroe & Ide & Iocf & _ & _).
  destruct (extracted_paragraph_values _ _ _ Hd)
    as (Inpm & Ifcf & Ivol & Iroc & Ieq).
  destruct (explanation_chips_total d) as [chips Ec];
    [exists data, today; exact Hd|].
  unfold explanation_text. rewrite Ec. cbn [bind].
  set (pct := Fmt.format_percent 1 prob).
  set (z := dict_get_default d "Altman_Z_Score" (PInt 0)) in *.
  set (roe := dict_get_default d "ROE_%" (PInt 0)) in *.
  set (npm := dict_get_default d "Net_Profit_Margin_%" (PInt 0)) in *.
  set (de := dict_get_default d "Debt_to_Equity" (PInt 0)) in *.
  set (ocf := dict_get_default d "Operating Cf_M" (PInt 0)) in *.
  set (fcf := dict_get_default d "Free Cf_M" (PInt 0)) in *.
  set (vol := dict_get_default d "Volatility_20" (PInt 0)) in *.
  set (roc := dict_get_default d "ROC_20" (PInt 0)) in *.
  set (dc := dict_get_default d "Death_Cross" (PInt 0)) in *.
  set (eq_r := dict_get_default d "Equity_Ratio" (PInt 0)) in *.
  pose proof (paragraphs_of_returns name period_label pct z roe npm de ocf fcf
                vol roc dc eq_r pred prob Iz Iroe Inpm Ide Iocf Ifcf Ivol
                Iroc Ieq) as [[[summ fin] mkt] Ep].
  rewrite Ep. cbn [bind]. exists chips, summ, fin, mkt.
  split; [reflexivity|]. split; [reflexivity|].
  unfold paragraphs_of in Ep.
  destruct ((pred =? 1)%Z && F64.geb prob 0.7);
    [|destruct ((pred =? 1)%Z && F64.geb prob 0.5);
      [|destruct (F64.geb prob 0.3)]];
    bind_inv Ep; bind_inv Ep; bind_inv Ep; injection Ep as <- <- <-;
    match goal with
    | S : _ = Ok ?s |- In _ ?s /\ _ =>
        unfold critical_summ, high_summ, medium_summ, low_summ in S;
        cbn in S; injection S as <-
    end;
    cbn; auto 12.
Qed.

Lemma explanation_text_extracted_witness :
  exists d chips summ fin mkt,
    calculate_all_metrics Samples.scenario_snapshot Samples.today = Some d /\
    explanation_text "Almarai" "1 Year" 1 0.62 d
    = Ok (chips, (summ, fin, mkt)) /\
    In "62.0%"%string summ.
Proof.
  destruct (calculate_all_metrics Samples.scenario_snapshot Samples.today)
    as [d|] eqn:E; [|vm_compute in E; discriminate].
  destruct (explanation_text_extracted Samples.scenario_snapshot Samples.today
              d "Almarai" "1 Year" 1 0.62 E)
    as (chips & summ & fin & mkt & H & _ & _ & _ & P).
  exists d, chips, summ, fin, mkt.
  split; [reflexivity|]. split; [exact H|].
  assert (F : Fmt.format_percent 1 0.62 = "62.0%"%string)
    by (vm_compute; reflexivity).
  rewrite <- F. exact P.
Defined.

End ParagraphTheorems.

Section Wording.
Local Open Scope float_scope.

(** X21. The Moderate narrative (a company not labelled distressed, with
    a probability of at least 0.3) calls the return on equity adequate
    exactly when [5 <= roe <= 15]; every other value, however high, is
    called "on the weaker side".  So for a return on equity above 15 the
    chip reads Strong while the paragraph next to it reads "on the weaker
    side". *)
Theorem moderate_narrative_return_on_equity (data : Snapshot)
    (today : datetime) (d : Metrics) (name period_label : string) (pred : Z)
    (prob : float) :
  calculate_all_metrics data today = Some d ->
  pred <> 1%Z -> F64.geb prob 0.3 = true ->
  let roe := dict_get_default d "ROE_%" (PInt 0) in
  exists chips summ fin mkt t,
    explanation_text name period_label pred prob d
    = Ok (chips, (summ, fin, mkt)) /\
    PyCmp.format_fixed 1 roe = Ok t /\
    (PyCmp.gt roe (PInt 15) = Ok true ->
     In "on the weaker side. " fin /\
     In ("chip-g", ("Return on Equity: " ++ t ++ "%  —  Strong")%string) chips) /\
    (PyCmp.le (PInt 5) roe = Ok false -> In "on the weaker side. " fin) /\
    (PyCmp.le (PInt 5) roe = Ok true -> PyCmp.le roe (PInt 15) = Ok true ->
     In "adequate but not strong enough to cushion against any earnings shock. "
        fin).
Proof.
  intros Hd Hpred Hprob. cbv zeta.
  destruct (extracted_indicators _ _ _ Hd) as (Iz & Iroe & Ide & Iocf & _ & _).
  destruct (extracted_paragraph_values _ _ _ Hd)
    as (Inpm & Ifcf & Ivol & Iroc & Ieq).
  destruct (chips_layout _ _ _ Hd)
    as (c1 & c2 & c3 & c4 & c6 & flag & Ec & _ & _ & _ & Hroe).
  destruct (format_indicator 1 _ Iroe) as [t Ft].
  unfold explanation_text. rewrite Ec. cbn [bind].
  set (pct := Fmt.format_percent 1 prob).
  set (z := dict_get_default d "Altman_Z_Score" (PInt 0)) in *.
  set (roe := dict_get_default d "ROE_%" (PInt 0)) in *.
  set (npm := dict_get_default d "Net_Profit_Margin_%" (PInt 0)) in *.
  set (de := dict_get_default d "Debt_to_Equity" (PInt 0)) in *.
  set (ocf := dict_get_default d "Operating Cf_M" (PInt 0)) in *.
  set (fcf := dict_get_default d "Free Cf_M" (PInt 0)) in *.
  set (vol := dict_get_default d "Volatility_20" (PInt 0)) in *.
  set (roc := dict_get_default d "ROC_20" (PInt 0)) in *.
  set (dc := dict_get_default d "Death_Cross" (PInt 0)) in *.
  set (eq_r := dict_get_default d "Equity_Ratio" (PInt 0)) in *.
  pose proof (paragraphs_of_returns name period_label pct z roe npm de ocf fcf
                vol roc dc eq_r pred prob Iz Iroe Inpm Ide Iocf Ifcf Ivol
                Iroc Ieq) as [[[summ fin] mkt] Ep].
  rewrite Ep. cbn [bind]. eexists. exists summ, fin, mkt, t.
  split; [reflexivity|]. split; [exact Ft|].
  unfold paragraphs_of in Ep.
  apply Z.eqb_neq in Hpred. rewrite Hpred, Hprob in Ep. cbn [andb] in Ep.
  bind_inv Ep. rename a into s0, Ha into Es.
  bind_inv Ep. rename a into f0, Ha into Ef.
  bind_inv Ep. rename a into m0, Ha into Em.
  injection Ep as -> -> ->.
  assert (W : forall c : bool,
             and_then (PyCmp.le (PInt 5) roe) (PyCmp.le roe (PInt 15)) = Ok c ->
             In (if c
                 then "adequate but not strong enough to cushion against any earnings shock. "
                 else "on the weaker side. ")%string fin).
  { intros c Hc.
    assert (Y : yields (medium_fin z roe npm ocf fcf)
                       (if c
                        then "adequate but not strong enough to cushion against any earnings shock. "
                        else "on the weaker side. ")%string).
    { unfold medium_fin.
      do 6 (apply yields_cat_l; [|returns_all]).
      apply yields_cat_r; [returns_all|].
      apply (yields_ifelse _ _ _ c _ Hc).
      destruct c; apply yields_lit. }
    destruct Y as (l & El & Hl). rewrite Ef in El. injection El as <-.
    exact Hl. }
  split; [|split].
  - intros G. split.
    + apply (W false). unfold and_then.
      destruct (returns_compare_l (PInt 5) roe eq_refl Iroe)
        as (_ & _ & _ & [c5 ->]).
      cbn [bind]. destruct c5; [apply (gt_le _ _ G) | reflexivity].
    + rewrite (Hroe t G Ft). cbn [app]. right. left. reflexivity.
  - intros G. apply (W false). unfold and_then. rewrite G. reflexivity.
  - intros G1 G2. apply (W true). unfold and_then. rewrite G1. exact G2.
Qed.

End Wording.

Lemma moderate_narrative_return_on_equity_witness :
  exists d chips summ fin mkt t,
    calculate_all_metrics Cases.profitable Samples.today = Some d /\
    explanation_text "Almarai" "1 Year" 0 0.35 d
    = Ok (chips, (summ, fin, mkt)) /\
    In "on the weaker side. " fin /\
    In ("chip-g", ("Return on Equity: " ++ t ++ "%  —  Strong")%string) chips.
Proof.
  destruct (calculate_all_metrics Cases.profitable Samples.today)
    as [d|] eqn:E; [|vm_compute in E; discriminate].
  destruct (moderate_narrative_return_on_equity Cases.profitable Samples.today
              d "Almarai" "1 Year" 0 0.35 E)
    as (chips & summ & fin & mkt & t & H & _ & G & _);
    [discriminate | reflexivity |].
  exists d, chips, summ, fin, mkt, t.
  split; [reflexivity|]. split; [exact H|].
  apply G. vm_compute in E. injection E as <-. vm_compute. reflexivity.
Defined.
